(** * vs-pyplugin: session construction and frame dispatch of [PyPlugin]

    A shallow embedding of [vspyplugin/base.py]: the format policy
    ([PyPluginOptions.norm_clip], [PyPluginOptions.ensure_output]), the
    session constructor ([PyPlugin.__init__]) and the dispatch engine
    ([PyPlugin.invoke]) with its stacking helper ([_stack_frame]).

    Python exceptions are values of [Exception] carried by [result]; the
    per-frame closures of [invoke] run in a writer-and-error monad [Eval]
    whose log records the calls made to the host and to the user's
    [process] method. A class attribute that [__init__] mutates in place
    (the list [input_per_plane]) is threaded explicitly: the constructor
    returns the class as it is left behind. *)

From Stdlib Require Import QArith.
From stdpp Require Import base numbers list gmap strings.

Open Scope Z_scope.
Open Scope nat_scope.

(** ** Exceptions and the error monad *)

(** Which stream a subsampling message names: ['Ref Clip'] for [idx == -1],
    [f'Clip Index: {idx}'] otherwise. *)
Inductive ClipType :=
  | RefClip
  | ClipIndex (idx : nat).

(** The four messages of the [ValueError]s raised in [base.py]. *)
Inductive Message :=
  | NeedFloatSampleType
      (* 'You need to have a clip with float sample type for shift_chroma=True!' *)
  | ClipCount (min_clips : Z) (max_clips_str : option Z)
      (* 'You must pass {min_clips} <= n clips <= {max_clips_str}!', None is 'inf' *)
  | OutputSubsampled
      (* 'You can't have output_per_plane=False with a subsampled clip!' *)
  | InputSubsampled (clip_type : ClipType).
      (* 'You can't have input_per_plane=False with a subsampled clip! ({clip_type})' *)

Inductive Exception :=
  | AssertionError
  | IndexError
  | KeyError
  | ValueError (msg : Message)
  | HostError      (* vs.Error raised by a host filter *)
  | FetchError.    (* the host could not deliver a requested frame *)

Inductive result (A : Type) :=
  | Ok (a : A)
  | Raise (e : Exception).
Arguments Ok {A} a.
Arguments Raise {A} e.

Definition bind {A B} (m : result A) (k : A -> result B) : result B :=
  match m with
  | Ok a => k a
  | Raise e => Raise e
  end.

Notation "x <- m ;; k" := (bind m (fun x => k))
  (at level 100, m at next level, right associativity).

Definition is_ok {A} (r : result A) : bool :=
  match r with Ok _ => true | Raise _ => false end.

(** [assert x] on an optional value, and [l[i]] on a list. *)
Definition assert_some {A} (o : option A) : result A :=
  match o with Some a => Ok a | None => Raise AssertionError end.

Definition index {A} (l : list A) (i : nat) : result A :=
  match l !! i with Some a => Ok a | None => Raise IndexError end.

Fixpoint mapM {A B} (f : A -> result B) (l : list A) : result (list B) :=
  match l with
  | [] => Ok []
  | a :: l' => b <- f a ;; bs <- mapM f l' ;; Ok (b :: bs)
  end.

(** The names the specification gives to the [ValueError]s of the
    constructor. *)
Inductive ErrorKind :=
  | StreamCountError
  | SubsamplingError
  | ConfigurationError.

Definition spec_error_kind (e : Exception) : option ErrorKind :=
  match e with
  | ValueError NeedFloatSampleType => Some ConfigurationError
  | ValueError (ClipCount _ _) => Some StreamCountError
  | ValueError OutputSubsampled => Some SubsamplingError
  | ValueError (InputSubsampled _) => Some SubsamplingError
  | _ => None
  end.

(** ** The host's pixel formats (vapoursynth, API 4) *)

Inductive ColorFamily := GRAY | RGB | YUV.
Inductive SampleType := INTEGER | FLOAT.

Record VideoFormat := {
  color_family : ColorFamily;
  sample_type : SampleType;
  bits_per_sample : Z;
  subsampling_w : Z;
  subsampling_h : Z
}.

Definition num_planes (fmt : VideoFormat) : nat :=
  match color_family fmt with GRAY => 1 | RGB | YUV => 3 end.

(** [fmt.id]: the fields packed into one integer. *)
Definition format_id (fmt : VideoFormat) : Z :=
  let cf := match color_family fmt with GRAY => 1 | RGB => 2 | YUV => 3 end%Z in
  let st := match sample_type fmt with INTEGER => 0 | FLOAT => 1 end%Z in
  Z.lor (Z.shiftl cf 28)
    (Z.lor (Z.shiftl st 24)
       (Z.lor (Z.shiftl (bits_per_sample fmt) 16)
          (Z.lor (Z.shiftl (subsampling_w fmt) 8) (subsampling_h fmt)))).

(** [fmt.replace(sample_type=st, bits_per_sample=bps)] *)
Definition replace (fmt : VideoFormat) (st : SampleType) (bps : Z) : VideoFormat :=
  {| color_family := color_family fmt;
     sample_type := st;
     bits_per_sample := bps;
     subsampling_w := subsampling_w fmt;
     subsampling_h := subsampling_h fmt |}.

Definition is_float (fmt : VideoFormat) : bool :=
  match sample_type fmt with FLOAT => true | INTEGER => false end.

(** [fmt.subsampling_w or fmt.subsampling_h] as a condition. *)
Definition subsampled (fmt : VideoFormat) : bool :=
  negb (subsampling_w fmt =? 0)%Z || negb (subsampling_h fmt =? 0)%Z.

(** The host registers no single-plane or RGB format with subsampling. *)
Definition wf_format (fmt : VideoFormat) : bool :=
  match color_family fmt with
  | YUV => true
  | GRAY | RGB => negb (subsampled fmt)
  end.

(** ** CPython's small set, as iterated by [for p in {0, 1, 2}] *)

(** A set of fewer than five ints lives in a table of [PySet_MINSIZE = 8]
    slots; an int hashes to itself; a taken slot sends the probe to
    [(i * 5 + 1 + perturb) & mask] with [perturb >>= 5]; iteration walks
    the slots in table order. *)
Definition PySet_MINSIZE : nat := 8.

Fixpoint set_add_entry (fuel : nat) (table : list (option nat))
    (key i perturb : nat) : list (option nat) :=
  match fuel with
  | O => table
  | S fuel' =>
    match table !! i with
    | Some None => <[i := Some key]> table
    | Some (Some k) =>
      if k =? key then table
      else
        let perturb' := Nat.shiftr perturb 5 in
        set_add_entry fuel' table key ((i * 5 + 1 + perturb') mod PySet_MINSIZE) perturb'
    | None => table
    end
  end.

Definition set_add (table : list (option nat)) (key : nat) : list (option nat) :=
  set_add_entry 64 table key (key mod PySet_MINSIZE) key.

Definition set_iter (elems : list nat) : list nat :=
  omap id (foldl set_add (replicate PySet_MINSIZE None) elems).

(** ** Frames and streams of the host *)

(** A plane is the grid of its samples, row after row. *)
Abbreviation Plane sample := (list sample).

(** A decoded frame: [frame.format] and the planes [frame[0]], [frame[1]], ... *)
Record VideoFrame (sample : Type) := mkFrame {
  fformat : VideoFormat;
  planes : list (Plane sample)
}.
Arguments mkFrame {sample} _ _.
Arguments fformat {sample} _.
Arguments planes {sample} _.

(** A [vs.VideoNode]: [clip.format] ([None] for a variable format),
    [len(clip)] and the frame the host delivers for an index. *)
Record VideoNode (sample : Type) := mkNode {
  format : option VideoFormat;
  num_frames : nat;
  frame_at : nat -> VideoFrame sample
}.
Arguments mkNode {sample} _ _ _.
Arguments format {sample} _.
Arguments num_frames {sample} _.
Arguments frame_at {sample} _ _.

Inductive ResizeKernel := Point | Bicubic.

(** The host's sample arithmetic, outside this repository: the resampling
    kernels of [resize] (with [dither_type='none']) per source format,
    target format and plane index, and the float addition and literals of
    [std.Expr]. *)
Record Host (sample : Type) := mkHost {
  resample : ResizeKernel -> VideoFormat -> VideoFormat -> nat -> Plane sample -> Plane sample;
  fadd : sample -> sample -> sample;
  fconst : string -> sample
}.
Arguments mkHost {sample} _ _ _.
Arguments resample {sample} _ _ _ _ _ _.
Arguments fadd {sample} _ _ _.
Arguments fconst {sample} _ _.

Section HostFilters.
Context {sample : Type} (host : Host sample).

(** [frame[p]] *)
Definition getitem (frame : VideoFrame sample) (p : nat) : result (Plane sample) :=
  index (planes frame) p.

(** A frame of a stream carries the stream's format and one plane per
    channel of it. *)
Definition wf_frame (fmt : VideoFormat) (frame : VideoFrame sample) : Prop :=
  fformat frame = fmt /\ length (planes frame) = num_planes fmt.

Definition wf_clip (clip : VideoNode sample) : Prop :=
  exists fmt, format clip = Some fmt /\
    forall n, n < num_frames clip -> wf_frame fmt (frame_at clip n).

Definition convert_frame (k : ResizeKernel) (target : VideoFormat)
    (frame : VideoFrame sample) : VideoFrame sample :=
  mkFrame target
    (imap (fun i p => resample host k (fformat frame) target i p) (planes frame)).

(** [clip.resize.Point(format=target.id, dither_type='none')] and
    [clip.resize.Bicubic(...)]: the format is passed by its id. *)
Definition resize (k : ResizeKernel) (target : VideoFormat)
    (clip : VideoNode sample) : VideoNode sample :=
  mkNode (Some target) (num_frames clip)
    (fun n => convert_frame k target (frame_at clip n)).

(** [std.Expr]: a reverse-polish expression over the sample [x] of the
    first clip, compiled to a function of the sample. Only the tokens
    [x], [+] and numeric literals are modelled. *)
Fixpoint rpn_compile (toks : list string) (stack : list (sample -> sample))
    : option (sample -> sample) :=
  match toks with
  | [] => match stack with [f] => Some f | _ => None end
  | t :: toks' =>
    if String.eqb t "x" then rpn_compile toks' ((fun x => x) :: stack)
    else if String.eqb t "+" then
      match stack with
      | g :: f :: stack' => rpn_compile toks' ((fun x => fadd host (f x) (g x)) :: stack')
      | _ => None
      end
    else rpn_compile toks' ((fun _ => fconst host t) :: stack)
  end.

(** Plane [i] uses expression [i]; with fewer expressions than planes
    the last one is repeated; an empty expression copies the plane. *)
Definition plane_filter (exprs : list string) (i : nat)
    : result (Plane sample -> Plane sample) :=
  match (match exprs !! i with Some e => Some e | None => last exprs end) with
  | None => Raise HostError
  | Some e =>
    if String.eqb e "" then Ok (fun p => p)
    else match rpn_compile (String.words e) [] with
         | Some f => Ok (map f)
         | None => Raise HostError
         end
  end.

Definition std_Expr (exprs : list string) (clip : VideoNode sample)
    : result (VideoNode sample) :=
  filters <- mapM (plane_filter exprs) (seq 0 3) ;;
  Ok (mkNode (format clip) (num_frames clip)
        (fun n =>
           let frame := frame_at clip n in
           mkFrame (fformat frame)
             (imap (fun i p => match filters !! i with Some g => g p | None => p end)
                   (planes frame)))).
End HostFilters.

(** ** PyPluginOptions *)

(** [float_processing: bool | Literal[16, 32]] *)
Inductive FloatProcessing := FP_False | FP_True | FP_16 | FP_32.

Record PyPluginOptions := {
  float_processing : FloatProcessing;
  shift_chroma : bool
}.

Definition truthy (fp : FloatProcessing) : bool :=
  match fp with FP_False => false | _ => true end.

(** [bps = 32 if self.float_processing is True else self.float_processing] *)
Definition bps_of (fp : FloatProcessing) : Z :=
  match fp with FP_16 => 16 | _ => 32 end%Z.

Section NormClip.
Context {sample : Type} (host : Host sample).

(** [norm_clip] on a node. [not clip] holds for a node of length 0. *)
Definition norm_node (self : PyPluginOptions) (clip : VideoNode sample)
    : result (VideoNode sample) :=
  if (num_frames clip =? 0) then Ok clip
  else
    fmt <- assert_some (format clip) ;;
    let clip1 :=
      if truthy (float_processing self) then
        let bps := bps_of (float_processing self) in
        if negb (is_float fmt) || negb (bits_per_sample fmt =? bps)%Z then
          resize host Point (replace fmt FLOAT bps) clip
        else clip
      else clip in
    if shift_chroma self then
      if negb (is_float fmt) && negb (truthy (float_processing self)) then
        Raise (ValueError NeedFloatSampleType)
      else if num_planes fmt =? 3 then
        std_Expr host [""; "x 0.5 +"]%string clip1
      else Ok clip1
    else Ok clip1.

(** [norm_clip(self, clip: vs.VideoNode | None)] *)
Definition norm_clip (self : PyPluginOptions) (clip : option (VideoNode sample))
    : result (option (VideoNode sample)) :=
  match clip with
  | None => Ok None
  | Some c => c' <- norm_node self c ;; Ok (Some c')
  end.
End NormClip.

(** ** What the user's [process] method receives *)

(** An input: the memoryview [frame[p]] of one plane, the list of
    memoryviews built by [_stack_frame], or the frame object itself. *)
Inductive View (sample : Type) :=
  | VPlane (p : Plane sample)
  | VStack (ps : list (Plane sample))
  | VFrame (f : VideoFrame sample).
Arguments VPlane {sample} p.
Arguments VStack {sample} ps.
Arguments VFrame {sample} f.

(** The [src] argument: one input, or the list of inputs of all streams. *)
Inductive Src (sample : Type) :=
  | SOne (v : View sample)
  | SList (vs : list (View sample)).
Arguments SOne {sample} v.
Arguments SList {sample} vs.

(** The [dst] argument is a writable view into the output buffer [fout]:
    its plane [fout[p]], or [fout] itself. *)
Inductive Dst :=
  | DPlane (p : nat)
  | DFrame.

(** [process(self, f, src, dst, plane, n)]: [f] is the output buffer, which
    the method mutates through [dst]; the buffer it leaves behind is the
    returned frame. *)
Definition ProcessFn (sample : Type) : Type :=
  VideoFrame sample -> Src sample -> Dst -> option nat -> nat -> result (VideoFrame sample).

(** ** The class [PyPlugin] and its instances *)

(** [input_per_plane: bool | list[bool]] *)
Inductive InputPerPlane :=
  | IppBool (b : bool)
  | IppList (l : list bool).

(** The class attributes a subclass declares. [cls_output_per_plane] is
    the class attribute [output_per_plane]; an instance has its own. *)
Record PyPluginClass (sample : Type) := mkClass {
  options : PyPluginOptions;
  input_per_plane : InputPerPlane;
  cls_output_per_plane : bool;
  min_clips : Z;
  max_clips : Z;
  process : ProcessFn sample
}.
Arguments mkClass {sample} _ _ _ _ _ _.
Arguments options {sample} _.
Arguments input_per_plane {sample} _.
Arguments cls_output_per_plane {sample} _.
Arguments min_clips {sample} _.
Arguments max_clips {sample} _.
Arguments process {sample} _ _ _ _ _ _.

(** An instance after [__init__]; [output_per_plane] is what
    [self.output_per_plane] reads. The filter data [fd] takes no part in
    construction or dispatch and is left out. *)
Record PyPlugin (sample : Type) := mkPlugin {
  cls : PyPluginClass sample;
  out_format : VideoFormat;
  ref_clip : VideoNode sample;
  clips : list (VideoNode sample);
  _input_per_plane : list bool;
  output_per_plane : bool;
  is_single_plane : list bool
}.
Arguments mkPlugin {sample} _ _ _ _ _ _ _.
Arguments cls {sample} _.
Arguments out_format {sample} _.
Arguments ref_clip {sample} _.
Arguments clips {sample} _.
Arguments _input_per_plane {sample} _.
Arguments output_per_plane {sample} _.
Arguments is_single_plane {sample} _.

(** The declared flags as a list: [[input_per_plane]] for a bool. *)
Definition declared_list (declared : InputPerPlane) : list bool :=
  match declared with IppBool b => [b] | IppList l => l end.

(** Lines 148-152: a declared bool becomes a one-element list, then the
    last element is appended until the list has [n_clips] entries. *)
Fixpoint append_last (k : nat) (l : list bool) : result (list bool) :=
  match k with
  | O => Ok l
  | S k' =>
    x <- match last l with Some x => Ok x | None => Raise IndexError end ;;
    append_last k' (l ++ [x])
  end.

Definition normalize_input_per_plane (declared : InputPerPlane) (n_clips : nat)
    : result (list bool) :=
  let l := declared_list declared in
  append_last (n_clips - length l) l.

(** Lines 164-168. *)
Definition check_clip_count (n_clips : nat) (min_clips max_clips : Z) : result unit :=
  if (Z.of_nat n_clips <? min_clips)%Z
     || ((0 <? max_clips)%Z && (max_clips <? Z.of_nat n_clips)%Z)
  then Raise (ValueError (ClipCount min_clips
                (if (max_clips =? -1)%Z then None else Some max_clips)))
  else Ok tt.

(** Lines 170-173. *)
Definition check_output_subsampling (output_per_plane : bool) (ref_fmt : VideoFormat)
    : result unit :=
  if negb output_per_plane && subsampled ref_fmt
  then Raise (ValueError OutputSubsampled)
  else Ok tt.

Section Init.
Context {sample : Type} (host : Host sample).

(** Lines 175-181: [zip] stops at the shorter of the streams and the flags;
    [idx] counts from [-1]. *)
Fixpoint check_input_subsampling (idx : Z) (streams : list (VideoNode sample))
    (ipps : list bool) : result unit :=
  match streams, ipps with
  | clip :: streams', ipp :: ipps' =>
    fmt <- assert_some (format clip) ;;
    if negb ipp && subsampled fmt then
      Raise (ValueError (InputSubsampled
               (if (idx =? -1)%Z then RefClip else ClipIndex (Z.to_nat idx))))
    else check_input_subsampling (idx + 1)%Z streams' ipps'
  | _, _ => Ok tt
  end.

(** [bool(clip.format and clip.format.num_planes == 1)] *)
Definition single_plane (clip : VideoNode sample) : bool :=
  match format clip with
  | Some fmt => num_planes fmt =? 1
  | None => false
  end.

(** [PyPlugin.__init__(self, ref_clip, clips=None)] on an instance of the
    class [c]. The first component is the class afterwards: a declared
    list is the very object the loop appends to. *)
Definition __init__ (c : PyPluginClass sample) (ref_clip : VideoNode sample)
    (clips : option (list (VideoNode sample)))
    : PyPluginClass sample * result (PyPlugin sample) :=
  let normalized :=
    ref_fmt <- assert_some (format ref_clip) ;;
    ref' <- norm_node host (options c) ref_clip ;;
    clips' <- match clips with
              | Some l => mapM (norm_node host (options c)) l
              | None => Ok []
              end ;;
    ipp <- normalize_input_per_plane (input_per_plane c) (1 + length clips') ;;
    Ok (ref_fmt, ref', clips', ipp) in
  match normalized with
  | Raise e => (c, Raise e)
  | Ok (ref_fmt, ref', clips', ipp) =>
    let c' :=
      match input_per_plane c with
      | IppBool _ => c
      | IppList _ =>
        mkClass (options c) (IppList ipp) (cls_output_per_plane c)
                (min_clips c) (max_clips c) (process c)
      end in
    let n_clips := 1 + length clips' in
    let opp := if num_planes ref_fmt =? 1 then true else cls_output_per_plane c in
    (c',
     _ <- check_clip_count n_clips (min_clips c) (max_clips c) ;;
     _ <- check_output_subsampling opp ref_fmt ;;
     _ <- check_input_subsampling (-1) (ref' :: clips') ipp ;;
     Ok (mkPlugin c' ref_fmt ref' clips' ipp opp (map single_plane (ref' :: clips'))))
  end.
End Init.

(** ** The per-frame evaluation monad *)

(** What a frame evaluation does towards the host and the user: fetches from the
    host, calls of [_stack_frame] and calls of [process] (whose first
    argument is always the output buffer). *)
Inductive Event (sample : Type) :=
  | EGetFrame (clip : VideoNode sample) (n : nat)
  | EGetFrames (clips : list (VideoNode sample)) (n : nat)
  | EStack (idx : nat)
  | EProcess (src : Src sample) (dst : Dst) (plane : option nat) (n : nat).
Arguments EGetFrame {sample} clip n.
Arguments EGetFrames {sample} clips n.
Arguments EStack {sample} idx.
Arguments EProcess {sample} src dst plane n.

(** A computation yields the log of its events and a value or the
    exception that stopped it. *)
Definition Eval (sample A : Type) : Type := list (Event sample) * result A.

Definition ret {sample A} (a : A) : Eval sample A := ([], Ok a).

Definition lift {sample A} (r : result A) : Eval sample A := ([], r).

Definition ebind {sample A B} (m : Eval sample A) (k : A -> Eval sample B)
    : Eval sample B :=
  match m with
  | (log, Ok a) => (log ++ fst (k a), snd (k a))
  | (log, Raise e) => (log, Raise e)
  end.

Notation "x <~ m ;; k" := (ebind m (fun x => k))
  (at level 100, m at next level, right associativity).

(** [for a in l: s = body(s, a)] *)
Fixpoint for_each {sample A S} (l : list A) (s : S) (body : S -> A -> Eval sample S)
    : Eval sample S :=
  match l with
  | [] => ret s
  | a :: l' => s' <~ body s a ;; for_each l' s' body
  end.

(** The stream [invoke] returns, by the frame it evaluates per index. *)
Definition FrameEval (sample : Type) : Type := nat -> Eval sample (VideoFrame sample).

Section Fetch.
Context {sample : Type}.

Definition fetch (clip : VideoNode sample) (n : nat) : result (VideoFrame sample) :=
  if n <? num_frames clip then Ok (frame_at clip n) else Raise FetchError.

(** Modelled from the spec: [coroutines.get_frame] is not among the
    sources. It requests one frame and resumes with it, or with the
    host's failure when the index cannot be delivered. *)
Definition get_frame (clip : VideoNode sample) (n : nat)
    : Eval sample (VideoFrame sample) :=
  ([EGetFrame clip n], fetch clip n).

(** Modelled from the spec: [coroutines.get_frames] is not among the
    sources. It requests the same index of all streams, resumes with the
    frames in stream order once all have arrived, and fails as a whole
    when one of them fails. *)
Definition get_frames (clips : list (VideoNode sample)) (n : nat)
    : Eval sample (list (VideoFrame sample)) :=
  ([EGetFrames clips n], mapM (fun clip => fetch clip n) clips).
End Fetch.

(** ** PyPlugin.invoke *)

Inductive Strategy :=
  | PlanesClips        (* lines 192-211 *)
  | PlanesRef          (* lines 214-222 *)
  | PlanesRefStacked   (* lines 224-234 *)
  | FrameClips         (* lines 237-246 *)
  | FrameGray          (* lines 249-256 *)
  | FrameRef.          (* lines 258-265 *)

Section Invoke.
Context {sample : Type} (host : Host sample).
Local Abbreviation Frame := (VideoFrame sample).

Section Closures.
Variable self : PyPlugin sample.

(** [frame.copy()]: a fresh buffer with the same content. *)
Definition copy (frame : Frame) : Frame := frame.

(** [self.process(fout, src, dst, plane, n)] *)
Definition call_process (fout : Frame) (src : Src sample) (dst : Dst)
    (plane : option nat) (n : nat) : Eval sample Frame :=
  ([EProcess src dst plane n], process (cls self) fout src dst plane n).

(** Lines 187-188. *)
Definition _stack_frame (frame : Frame) (idx : nat) : Eval sample (View sample) :=
  _ <~ ([EStack idx], Ok tt) ;;
  single <~ lift (index (is_single_plane self) idx) ;;
  if (single : bool) then
    p <~ lift (getitem frame 0) ;; ret (VPlane p)
  else
    ps <~ lift (mapM (getitem frame) (set_iter [0; 1; 2])) ;; ret (VStack ps).

(** Lines 197-201: the dict comprehension over [enumerate(frames)]. *)
Fixpoint pre_stack (idx : nat) (frames : list Frame) (acc : gmap nat (View sample))
    : Eval sample (gmap nat (View sample)) :=
  match frames with
  | [] => ret acc
  | frame :: frames' =>
    ipp <~ lift (index (_input_per_plane self) idx) ;;
    if negb ipp then
      v <~ _stack_frame frame idx ;;
      pre_stack (S idx) frames' (<[idx := v]> acc)
    else pre_stack (S idx) frames' acc
  end.

(** Lines 204-207: the list comprehension over [enumerate(frames)]. *)
Fixpoint inputs_data (pre_stacked_clips : gmap nat (View sample)) (p : nat)
    (idx : nat) (frames : list Frame) : result (list (View sample)) :=
  match frames with
  | [] => Ok []
  | frame :: frames' =>
    ipp <- index (_input_per_plane self) idx ;;
    v <- (if (ipp : bool) then d <- getitem frame p ;; Ok (VPlane d)
          else match pre_stacked_clips !! idx with
               | Some v => Ok v
               | None => Raise KeyError
               end) ;;
    vs <- inputs_data pre_stacked_clips p (S idx) frames' ;;
    Ok (v :: vs)
  end.

(** Lines 192-211. *)
Definition output_planes_clips : FrameEval sample := fun n =>
  frames <~ get_frames (ref_clip self :: clips self) n ;;
  frame0 <~ lift (index frames 0) ;;
  let fout := copy frame0 in
  pre_stacked_clips <~ pre_stack 0 frames ∅ ;;
  for_each (seq 0 (num_planes (fformat fout))) fout (fun fout p =>
    src <~ lift (inputs_data pre_stacked_clips p 0 frames) ;;
    _ <~ lift (getitem fout p) ;;
    call_process fout (SList src) (DPlane p) (Some p) n).

(** Lines 214-222. *)
Definition output_planes_ref : FrameEval sample := fun n =>
  frame <~ get_frame (ref_clip self) n ;;
  let fout := copy frame in
  for_each (seq 0 (num_planes (fformat fout))) fout (fun fout p =>
    d <~ lift (getitem frame p) ;;
    _ <~ lift (getitem fout p) ;;
    call_process fout (SOne (VPlane d)) (DPlane p) (Some p) n).

(** Lines 224-234. *)
Definition output_planes_ref_stacked : FrameEval sample := fun n =>
  ref_frame <~ get_frame (ref_clip self) n ;;
  let fout := copy ref_frame in
  pre_stacked_clip <~ _stack_frame ref_frame 0 ;;
  for_each (seq 0 (num_planes (fformat fout))) fout (fun fout p =>
    _ <~ lift (getitem fout p) ;;
    call_process fout (SOne pre_stacked_clip) (DPlane p) (Some p) n).

(** Line 242: the list comprehension over [enumerate(frames)]. *)
Fixpoint src_arrays (idx : nat) (frames : list Frame) : Eval sample (list (View sample)) :=
  match frames with
  | [] => ret []
  | frame :: frames' =>
    v <~ _stack_frame frame idx ;;
    vs <~ src_arrays (S idx) frames' ;;
    ret (v :: vs)
  end.

(** Lines 237-246. *)
Definition output_frame_clips : FrameEval sample := fun n =>
  frames <~ get_frames (ref_clip self :: clips self) n ;;
  frame0 <~ lift (index frames 0) ;;
  let fout := copy frame0 in
  src <~ src_arrays 0 frames ;;
  call_process fout (SList src) DFrame None n.

(** Lines 249-256. *)
Definition output_frame_gray : FrameEval sample := fun n =>
  frame <~ get_frame (ref_clip self) n ;;
  let fout := copy frame in
  d <~ lift (getitem frame 0) ;;
  _ <~ lift (getitem fout 0) ;;
  call_process fout (SOne (VPlane d)) (DPlane 0) (Some 0) n.

(** Lines 258-265. *)
Definition output_frame_ref : FrameEval sample := fun n =>
  frame <~ get_frame (ref_clip self) n ;;
  let fout := copy frame in
  call_process fout (SOne (VFrame frame)) DFrame None n.

(** The nested conditions of lines 190-265, by the closure they pick. *)
Definition select_strategy : result Strategy :=
  ref_fmt <- assert_some (format (ref_clip self)) ;;
  if output_per_plane self then
    match clips self with
    | _ :: _ => Ok PlanesClips
    | [] =>
      ipp0 <- index (_input_per_plane self) 0 ;;
      Ok (if (ipp0 : bool) then PlanesRef else PlanesRefStacked)
    end
  else
    match clips self with
    | _ :: _ => Ok FrameClips
    | [] => Ok (if num_planes ref_fmt =? 1 then FrameGray else FrameRef)
    end.

Definition output (s : Strategy) : FrameEval sample :=
  match s with
  | PlanesClips => output_planes_clips
  | PlanesRef => output_planes_ref
  | PlanesRefStacked => output_planes_ref_stacked
  | FrameClips => output_frame_clips
  | FrameGray => output_frame_gray
  | FrameRef => output_frame_ref
  end.

(** The body of [invoke], before its decorator. Modelled from the
    spec: [coroutines.frame_eval_async] is not among the sources; it
    turns the closure into the stream whose frame [n] the closure
    evaluates. *)
Definition invoke_body : result (FrameEval sample) :=
  s <- select_strategy ;;
  Ok (output s).

(** [PyPluginOptions.ensure_output(self, plugin, clip)], lines 64-70;
    [resize.Bicubic] converts every frame of the stream. *)
Definition ensure_output (clip : FrameEval sample) : result (FrameEval sample) :=
  ref_fmt <- assert_some (format (ref_clip self)) ;;
  if negb (format_id (out_format self) =? format_id ref_fmt)%Z then
    Ok (fun n => frame <~ clip n ;;
                 ret (convert_frame host Bicubic (out_format self) frame))
  else Ok clip.

(** [invoke] as decorated by [PyPluginBase.ensure_output]. *)
Definition invoke : result (FrameEval sample) :=
  clip <- invoke_body ;;
  ensure_output clip.
End Closures.
End Invoke.

(** ** A user method that copies its input *)

Section CopyProcess.
Context {sample : Type}.

(** [dst[:] = src] for the reference stream's input: the first entry when
    [src] is the list over all streams; the entry for the plane written
    when [src] is stacked and [dst] a single plane. A mismatch of shapes
    is an error of the copy. *)
Definition copy_process : ProcessFn sample := fun f src dst plane n =>
  v <- match src with SOne v => Ok v | SList vs => index vs 0 end ;;
  match dst with
  | DPlane p =>
    d <- match v with
         | VPlane d => Ok d
         | VStack ps => index ps p
         | VFrame frame => getitem frame p
         end ;;
    if p <? length (planes f) then Ok (mkFrame (fformat f) (<[p := d]> (planes f)))
    else Raise IndexError
  | DFrame =>
    ps <- match v with
          | VPlane d => Ok [d]
          | VStack ps => Ok ps
          | VFrame frame => Ok (planes frame)
          end ;;
    if length ps =? length (planes f) then Ok (mkFrame (fformat f) ps)
    else Raise IndexError
  end.

(** A method that returns without touching the buffer. *)
Definition pass_process : ProcessFn sample := fun f _ _ _ _ => Ok f.

(** The class attributes of [PyPlugin] itself (lines 99-106), for given
    options and [process]. *)
Definition PyPlugin_class (o : PyPluginOptions) (process : ProcessFn sample)
    : PyPluginClass sample :=
  mkClass o (IppBool true) true 1 (-1) process.

(** Class attributes overridden by a subclass. *)
Definition with_input_per_plane (c : PyPluginClass sample) (ipp : InputPerPlane)
    : PyPluginClass sample :=
  mkClass (options c) ipp (cls_output_per_plane c) (min_clips c) (max_clips c) (process c).

Definition with_output_per_plane (c : PyPluginClass sample) (opp : bool)
    : PyPluginClass sample :=
  mkClass (options c) (input_per_plane c) opp (min_clips c) (max_clips c) (process c).

Definition with_clip_bounds (c : PyPluginClass sample) (lo hi : Z)
    : PyPluginClass sample :=
  mkClass (options c) (input_per_plane c) (cls_output_per_plane c) lo hi (process c).

Definition with_options (c : PyPluginClass sample) (o : PyPluginOptions)
    : PyPluginClass sample :=
  mkClass o (input_per_plane c) (cls_output_per_plane c) (min_clips c) (max_clips c) (process c).

(** What [_stack_frame] hands over for a frame of its stream: the sole
    plane, or all planes in stored order. *)
Definition stacked (frame : VideoFrame sample) : View sample :=
  match planes frame with
  | [d] => VPlane d
  | ps => VStack ps
  end.

(** A user method that returns, having written into the buffer in place:
    the buffer keeps its format and its planes' count. *)
Definition returns_buffer (process : ProcessFn sample) : Prop :=
  forall f src dst plane n, exists f',
    process f src dst plane n = Ok f' /\
    fformat f' = fformat f /\ length (planes f') = length (planes f).
End CopyProcess.

(** ** Concrete streams, over exact rational samples *)

Definition qhost : Host Q :=
  mkHost (fun _ _ _ _ p => p) Qplus
         (fun s => if String.eqb s "0.5" then (1 # 2)%Q else 0%Q).

Definition YUV444P8 : VideoFormat :=
  {| color_family := YUV; sample_type := INTEGER; bits_per_sample := 8;
     subsampling_w := 0; subsampling_h := 0 |}.

Definition YUV420P8 : VideoFormat :=
  {| color_family := YUV; sample_type := INTEGER; bits_per_sample := 8;
     subsampling_w := 1; subsampling_h := 1 |}.

Definition YUV444PS : VideoFormat :=
  {| color_family := YUV; sample_type := FLOAT; bits_per_sample := 32;
     subsampling_w := 0; subsampling_h := 0 |}.

Definition GRAY8 : VideoFormat :=
  {| color_family := GRAY; sample_type := INTEGER; bits_per_sample := 8;
     subsampling_w := 0; subsampling_h := 0 |}.

(** A stream of [len] identical frames. *)
Definition still (fmt : VideoFormat) (len : nat) (ps : list (Plane Q)) : VideoNode Q :=
  mkNode (Some fmt) len (fun _ => mkFrame fmt ps).

Definition yuv_clip : VideoNode Q := still YUV444P8 10 [[1%Q]; [2%Q]; [3%Q]].
Definition yuv420_clip : VideoNode Q := still YUV420P8 10 [[1%Q; 1%Q; 1%Q; 1%Q]; [2%Q]; [3%Q]].
Definition yuvs_clip : VideoNode Q := still YUV444PS 10 [[1%Q]; [0%Q]; [0%Q]].
Definition gray_clip : VideoNode Q := still GRAY8 10 [[7%Q]].

Definition no_options : PyPluginOptions :=
  {| float_processing := FP_False; shift_chroma := false |}.

(** ** Vocabulary of the statements *)

Section Vocabulary.
Context {sample : Type} (host : Host sample).
Implicit Types (c : PyPluginClass sample) (p : PyPlugin sample).
Implicit Types (clip : VideoNode sample) (frame : VideoFrame sample).

(** The class as [__init__] leaves it: a declared list has grown to the
    normalized flags. *)
Definition class_after c (ipp : list bool) : PyPluginClass sample :=
  match input_per_plane c with
  | IppBool _ => c
  | IppList _ => with_input_per_plane c (IppList ipp)
  end.

(** [self.output_per_plane] after lines 156-157. *)
Definition effective_output_per_plane c (ref_fmt : VideoFormat) : bool :=
  if num_planes ref_fmt =? 1 then true else cls_output_per_plane c.

(** The auxiliary streams passed as [clips]; [None] stands for none. *)
Definition clips_arg (clips : option (list (VideoNode sample))) : list (VideoNode sample) :=
  default [] clips.

(** The sample function of the expression ['x 0.5 +']. *)
Definition add_half (x : sample) : sample := fadd host x (fconst host "0.5").

(** What [std.Expr(['', 'x 0.5 +'])] does to plane [i]. *)
Definition shift_plane (i : nat) (d : Plane sample) : Plane sample :=
  match i with
  | 1 | 2 => map add_half d
  | _ => d
  end.

(** The options with [shift_chroma=False]. *)
Definition without_shift (o : PyPluginOptions) : PyPluginOptions :=
  {| float_processing := float_processing o; shift_chroma := false |}.

(** The streams of a session, index 0 being the reference stream. *)
Definition streams p : list (VideoNode sample) := ref_clip p :: clips p.

(** What construction establishes for well-formed streams. *)
Definition session_inv p : Prop :=
  Forall wf_clip (streams p) /\
  is_single_plane p = map single_plane (streams p) /\
  length (streams p) <= length (_input_per_plane p).

(** Frame [n] of every stream can be fetched. *)
Definition fetchable p (n : nat) : Prop :=
  Forall (fun clip => n < num_frames clip) (streams p).

(** [frame] is a frame of stream [idx] of the session. *)
Definition frame_of p (idx : nat) frame : Prop :=
  exists fmt, wf_frame fmt frame /\
              is_single_plane p !! idx = Some (num_planes fmt =? 1).

(** The entry of the input list for a stream, by its flag: plane [pl] of
    its frame, or its frame stacked. *)
Definition select_input (flag : bool) (pl : nat) frame : option (View sample) :=
  if flag then VPlane <$> planes frame !! pl else Some (stacked frame).

(** Output-format reconciliation of one frame (lines 67-70). *)
Definition reconciled p (ref_fmt : VideoFormat) frame : VideoFrame sample :=
  if (format_id (out_format p) =? format_id ref_fmt)%Z then frame
  else convert_frame host Bicubic (out_format p) frame.

(** A buffer that kept its format and the count of its planes. *)
Definition same_shape frame frame' : Prop :=
  fformat frame' = fformat frame /\ length (planes frame') = length (planes frame).

(** Every per-plane auxiliary stream has the planes of the output. *)
Definition planes_available p : Prop :=
  forall i clip fmt,
    clips p !! i = Some clip -> _input_per_plane p !! (S i) = Some true ->
    format clip = Some fmt -> num_planes (out_format p) <= num_planes fmt.
End Vocabulary.

(** ** Concrete sessions *)

(** The session [__init__] leaves, for the concrete runs below. *)
Definition constructed (c : PyPluginClass Q) (ref : VideoNode Q)
    (aux : option (list (VideoNode Q))) : PyPlugin Q :=
  match snd (__init__ qhost c ref aux) with
  | Ok p => p
  | Raise _ => mkPlugin c GRAY8 ref [] [] true []
  end.

Definition class_left (c : PyPluginClass Q) (ref : VideoNode Q)
    (aux : option (list (VideoNode Q))) : PyPluginClass Q :=
  fst (__init__ qhost c ref aux).

(** The stream [invoke] returns for a session. *)
Definition invoked (p : PyPlugin Q) : FrameEval Q :=
  match invoke qhost p with
  | Ok out => out
  | Raise e => fun _ => ([], Raise e)
  end.

Definition plain_class : PyPluginClass Q := PyPlugin_class no_options pass_process.
Definition copy_class : PyPluginClass Q := PyPlugin_class no_options copy_process.

(** Scenario B: flags [[True, False, False]] over a reference and two
    auxiliary streams. *)
Definition class_B : PyPluginClass Q :=
  with_input_per_plane plain_class (IppList [true; false; false]).

(** Merged output over two streams with the default flags. *)
Definition merged_class : PyPluginClass Q := with_output_per_plane plain_class false.

(** The copying method over three streams, the last one stacked. *)
Definition copy_flags_class : PyPluginClass Q :=
  with_input_per_plane copy_class (IppList [true; true; false]).

(** Two declared flags, no auxiliary stream. *)
Definition two_flags_class : PyPluginClass Q :=
  with_input_per_plane plain_class (IppList [true; true]).

Ltac still_wf fmt :=
  exists fmt; split; [reflexivity | intros ? _; split; reflexivity].

(** [shift_chroma=True] without [float_processing]. *)
Definition shift_only : PyPluginOptions :=
  {| float_processing := FP_False; shift_chroma := true |}.

(** ** Vocabulary of the further properties *)

Section DispatchVocabulary.
Context {sample : Type}.
Implicit Types (p : PyPlugin sample) (clip : VideoNode sample).

(** The input of stream [j] for plane [pl] of frame [n] (lines 204-207):
    plane [pl] of its frame when the stream is flagged per-plane, its
    frame stacked otherwise. *)
Definition input_of p (n pl j : nat) clip : View sample :=
  if default true (_input_per_plane p !! j)
  then VPlane (default [] (planes (frame_at clip n) !! pl))
  else stacked (frame_at clip n).

Definition inputs_of p (n pl : nat) : list (View sample) :=
  imap (input_of p n pl) (streams p).

(** The indices of the streams that are stacked ahead of the planes'
    loop (lines 197-201). *)
Definition stacked_indices p : list nat :=
  filter (fun i => _input_per_plane p !! i = Some false) (seq 0 (length (streams p))).

(** The result of a frame evaluation after reconciliation: the frame
    converted, an exception as it is. *)
Definition reconcile_result (convert : VideoFrame sample -> VideoFrame sample)
    (r : result (VideoFrame sample)) : result (VideoFrame sample) :=
  match r with
  | Ok frame => Ok (convert frame)
  | Raise e => Raise e
  end.
End DispatchVocabulary.

(** A stream of variable format, and streams for the runs of the
    further properties. *)
Definition variable_clip : VideoNode Q :=
  mkNode None 10 (fun _ => mkFrame GRAY8 [[7%Q]]).

Definition float32_only : PyPluginOptions :=
  {| float_processing := FP_32; shift_chroma := false |}.

Definition float32_shift : PyPluginOptions :=
  {| float_processing := FP_32; shift_chroma := true |}.

(** The stream [norm_clip] returns for a stream, for the runs below. *)
Definition normalized (o : PyPluginOptions) (clip : VideoNode Q) : VideoNode Q :=
  match norm_node qhost o clip with
  | Ok clip' => clip'
  | Raise _ => clip
  end.

(** Classes for the runs of the further properties. *)
Definition stacked_ref_class : PyPluginClass Q :=
  with_input_per_plane plain_class (IppBool false).

Definition last_stacked_class : PyPluginClass Q :=
  with_input_per_plane plain_class (IppList [true; false]).

Definition no_flags_class : PyPluginClass Q :=
  with_input_per_plane plain_class (IppList []).

Definition merged_stacked_class : PyPluginClass Q :=
  with_input_per_plane merged_class (IppBool false).

(** ** Properties *)

(** *** The error and evaluation monads *)

Lemma bind_ok {A B} (m : result A) (k : A -> result B) (b : B) :
  bind m k = Ok b -> exists a, m = Ok a /\ k a = Ok b.
Proof. destruct m as [a|e]; simpl; [eauto | discriminate]. Qed.

Lemma mapM_length {A B} (f : A -> result B) (l : list A) (l' : list B) :
  mapM f l = Ok l' -> length l' = length l.
Proof.
  revert l'. induction l as [|a l IH]; intros l' H; simpl in H.
  - by inversion H.
  - apply bind_ok in H as (b & _ & H). apply bind_ok in H as (bs & Hbs & H).
    inversion H; subst. simpl. f_equal. by apply IH.
Qed.

Lemma mapM_ok {A B} (f : A -> result B) (g : A -> B) (l : list A) :
  (forall a, a ∈ l -> f a = Ok (g a)) -> mapM f l = Ok (map g l).
Proof.
  induction l as [|a l IH]; intros H; simpl; [done|].
  rewrite H by left. simpl. rewrite IH; [done|]. intros a' Ha'. apply H. by right.
Qed.

Lemma ebind_ok {sample A B} (m : Eval sample A) (k : A -> Eval sample B) log a :
  m = (log, Ok a) -> ebind m k = (log ++ (k a).1, (k a).2).
Proof. by intros ->. Qed.

(** A loop whose every round logs one event and keeps an invariant of the
    state logs the events in order and ends in a state with the invariant. *)
Lemma for_each_inv {sample A S} (R : S -> Prop) (ev : A -> Event sample)
    (body : S -> A -> Eval sample S) (l : list A) (s : S) :
  (forall s a, a ∈ l -> R s -> exists s', body s a = ([ev a], Ok s') /\ R s') ->
  R s ->
  exists s', for_each l s body = (map ev l, Ok s') /\ R s'.
Proof.
  revert s. induction l as [|a l IH]; intros s Hbody Hs; simpl.
  - by exists s.
  - destruct (Hbody s a) as (s1 & Hs1 & HR1); [by left | done |].
    destruct (IH s1) as (s' & Hs' & HR'); [|done|].
    { intros s0 a0 Ha0. apply Hbody. by right. }
    exists s'. split; [|done].
    rewrite (ebind_ok _ _ _ _ Hs1), Hs'. done.
Qed.

(** *** Normalizing the declared flags *)

Lemma append_last_some k l y :
  last l = Some y -> append_last k l = Ok (l ++ replicate k y).
Proof.
  revert l. induction k as [|k IH]; intros l Hl; simpl.
  - by rewrite app_nil_r.
  - rewrite Hl. simpl. rewrite IH by apply last_snoc.
    by rewrite <- app_assoc.
Qed.

Lemma normalize_ok declared n ipp :
  0 < n ->
  normalize_input_per_plane declared n = Ok ipp ->
  exists y, last (declared_list declared) = Some y /\
    ipp = declared_list declared ++ replicate (n - length (declared_list declared)) y.
Proof.
  unfold normalize_input_per_plane.
  intros Hn H. destruct (last (declared_list declared)) as [y|] eqn:Hl.
  - exists y. rewrite (append_last_some _ _ y Hl) in H. by inversion H.
  - apply last_None in Hl. rewrite Hl in H. simpl in H.
    replace (n - 0) with (S (n - 1)) in H by lia. discriminate.
Qed.

(** *** The constructor, stage by stage *)

Section InitFacts.
Context {sample : Type} (host : Host sample).
Implicit Types (c : PyPluginClass sample) (p : PyPlugin sample).
Implicit Types (ref_clip clip : VideoNode sample).

Lemma init_ok_inv c ref_clip clips c' p :
  __init__ host c ref_clip clips = (c', Ok p) ->
  exists ref_fmt ref' clips' ipp,
    format ref_clip = Some ref_fmt /\
    norm_node host (options c) ref_clip = Ok ref' /\
    mapM (norm_node host (options c)) (clips_arg clips) = Ok clips' /\
    normalize_input_per_plane (input_per_plane c) (1 + length clips') = Ok ipp /\
    check_clip_count (1 + length clips') (min_clips c) (max_clips c) = Ok tt /\
    check_output_subsampling (effective_output_per_plane c ref_fmt) ref_fmt = Ok tt /\
    check_input_subsampling (-1) (ref' :: clips') ipp = Ok tt /\
    c' = class_after c ipp /\
    p = mkPlugin c' ref_fmt ref' clips' ipp (effective_output_per_plane c ref_fmt)
                 (map single_plane (ref' :: clips')).
Proof.
  unfold __init__. intros H.
  destruct (format ref_clip) as [ref_fmt|] eqn:Hfmt; cbn [bind assert_some] in H; [|by inversion H].
  destruct (norm_node host (options c) ref_clip) as [ref'|] eqn:Href; cbn [bind] in H;
    [|by inversion H].
  assert (Hclips : (match clips with
                    | Some l => mapM (norm_node host (options c)) l
                    | None => Ok []
                    end) = mapM (norm_node host (options c)) (clips_arg clips))
    by (by destruct clips).
  rewrite Hclips in H. clear Hclips.
  destruct (mapM _ (clips_arg clips)) as [clips'|] eqn:Hcl; cbn [bind] in H; [|by inversion H].
  destruct (normalize_input_per_plane _ _) as [ipp|] eqn:Hipp; cbn [bind] in H;
    [|by inversion H].
  apply pair_equal_spec in H as [Hc Hp].
  destruct (check_clip_count _ _ _) as [[]|] eqn:Hcount; cbn [bind] in Hp; [|done].
  fold (effective_output_per_plane c ref_fmt) in Hp.
  destruct (check_output_subsampling _ _) as [[]|] eqn:Hout; cbn [bind] in Hp; [|done].
  destruct (check_input_subsampling _ _ _) as [[]|] eqn:Hin; cbn [bind] in Hp; [|done].
  exists ref_fmt, ref', clips', ipp. repeat split; try done.
  inversion Hp. by rewrite Hc.
Qed.

Lemma init_ok_intro c ref_clip clips ref_fmt ref' clips' ipp :
  format ref_clip = Some ref_fmt ->
  norm_node host (options c) ref_clip = Ok ref' ->
  mapM (norm_node host (options c)) (clips_arg clips) = Ok clips' ->
  normalize_input_per_plane (input_per_plane c) (1 + length clips') = Ok ipp ->
  __init__ host c ref_clip clips
  = (class_after c ipp,
     _ <- check_clip_count (1 + length clips') (min_clips c) (max_clips c) ;;
     _ <- check_output_subsampling (effective_output_per_plane c ref_fmt) ref_fmt ;;
     _ <- check_input_subsampling (-1) (ref' :: clips') ipp ;;
     Ok (mkPlugin (class_after c ipp) ref_fmt ref' clips' ipp
           (effective_output_per_plane c ref_fmt)
           (map single_plane (ref' :: clips')))).
Proof.
  intros Hfmt Href Hcl Hipp. unfold __init__.
  rewrite Hfmt, Href. cbn [bind assert_some].
  assert (Hclips : (match clips with
                    | Some l => mapM (norm_node host (options c)) l
                    | None => Ok []
                    end) = Ok clips') by (by destruct clips).
  rewrite Hclips. cbn [bind]. rewrite Hipp. done.
Qed.
End InitFacts.

(** *** Normalizing a stream *)

Section NormFacts.
Context {sample : Type} (host : Host sample).
Implicit Types (clip : VideoNode sample) (o : PyPluginOptions).

Lemma std_Expr_shift clip :
  exists clip',
    std_Expr host [""; "x 0.5 +"]%string clip = Ok clip' /\
    format clip' = format clip /\
    num_frames clip' = num_frames clip /\
    forall n, fformat (frame_at clip' n) = fformat (frame_at clip n) /\
              planes (frame_at clip' n) = imap (shift_plane host) (planes (frame_at clip n)).
Proof.
  eexists. split; [reflexivity|]. simpl. repeat split.
  apply imap_ext. intros i d _. by destruct i as [|[|[|i]]].
Qed.

Lemma wf_clip_resize k fmt target clip :
  format clip = Some fmt -> num_planes target = num_planes fmt ->
  wf_clip clip -> wf_clip (resize host k target clip).
Proof.
  intros Hfmt Hnp (fmt' & Hfmt' & Hwf). exists target. split; [done|].
  intros n Hn. destruct (Hwf n Hn) as [_ Hlen]. split; [done|].
  simpl. rewrite length_imap, Hlen, Hnp. congruence.
Qed.

(** A normalized stream keeps its length, its colour family and its
    subsampling, and stays well-formed. *)
Lemma norm_node_ok o clip clip' :
  norm_node host o clip = Ok clip' ->
  num_frames clip' = num_frames clip /\
  (forall fmt, format clip = Some fmt ->
     exists fmt', format clip' = Some fmt' /\
       color_family fmt' = color_family fmt /\
       subsampled fmt' = subsampled fmt) /\
  (wf_clip clip -> wf_clip clip').
Proof.
  unfold norm_node. intros H.
  destruct (num_frames clip =? 0) eqn:Hlen.
  { inversion H; subst. repeat split; eauto. }
  destruct (format clip) as [fmt|] eqn:Hfmt; [|discriminate]. cbn [bind assert_some] in H.
  set (clip1 := if truthy (float_processing o) then _ else clip) in H.
  assert (H1 : num_frames clip1 = num_frames clip /\
               (exists fmt', format clip1 = Some fmt' /\
                  color_family fmt' = color_family fmt /\
                  subsampled fmt' = subsampled fmt) /\
               (wf_clip clip -> wf_clip clip1)).
  { subst clip1. destruct (truthy _); [|naive_solver].
    destruct (_ || _); [|naive_solver].
    repeat split; [by eexists|]. by apply (wf_clip_resize _ fmt). }
  destruct H1 as (Hn1 & (fmt1 & Hfmt1 & Hcf1 & Hss1) & Hwf1).
  assert (H2 : clip' = clip1 \/ std_Expr host [""; "x 0.5 +"]%string clip1 = Ok clip').
  { destruct (shift_chroma o); [|by left; inversion H].
    destruct (_ && _); [discriminate|].
    destruct (num_planes fmt =? 3); [by right | by left; inversion H]. }
  destruct H2 as [->|H2].
  { repeat split; [done| |done]. intros ? [= <-]. eauto. }
  destruct (std_Expr_shift clip1) as (clip2 & Hc2 & Hfmt2 & Hn2 & Hfr2).
  rewrite Hc2 in H2. inversion H2; subst clip2.
  repeat split; [congruence| |].
  - intros ? [= <-]. exists fmt1. by rewrite Hfmt2.
  - intros Hwf. destruct (Hwf1 Hwf) as (fmt1' & Hfmt1' & Hfr1).
    exists fmt1'. split; [congruence|].
    intros n Hn. destruct (Hfr1 n) as [Hf Hl]; [lia|].
    destruct (Hfr2 n) as [Hf2 Hp2]. split; [congruence|].
    by rewrite Hp2, length_imap.
Qed.

Lemma norm_node_num_planes o clip clip' fmt :
  norm_node host o clip = Ok clip' -> format clip = Some fmt ->
  exists fmt', format clip' = Some fmt' /\ num_planes fmt' = num_planes fmt /\
               subsampled fmt' = subsampled fmt.
Proof.
  intros H Hfmt. destruct (norm_node_ok _ _ _ H) as (_ & Hf & _).
  destruct (Hf fmt Hfmt) as (fmt' & ? & Hcf & ?). exists fmt'.
  unfold num_planes. by rewrite Hcf.
Qed.
End NormFacts.

Section NormClaims.
Context {sample : Type} (host : Host sample).
Implicit Types (clip : VideoNode sample) (o : PyPluginOptions).

Lemma norm_node_without_shift o clip fmt :
  num_frames clip <> 0 -> format clip = Some fmt ->
  exists clip0,
    norm_node host (without_shift o) clip = Ok clip0 /\
    (shift_chroma o = true ->
     norm_node host o clip =
       if negb (is_float fmt) && negb (truthy (float_processing o)) then
         Raise (ValueError NeedFloatSampleType)
       else if num_planes fmt =? 3 then std_Expr host [""; "x 0.5 +"]%string clip0
       else Ok clip0).
Proof.
  intros Hlen Hfmt. unfold norm_node.
  apply Nat.eqb_neq in Hlen. rewrite Hlen, Hfmt. cbn [bind assert_some without_shift
    float_processing shift_chroma].
  eexists. split; [reflexivity|]. by intros ->.
Qed.

Lemma frame_eq (f : VideoFrame sample) fmt ps :
  fformat f = fmt -> planes f = ps -> f = mkFrame fmt ps.
Proof. destruct f; simpl; congruence. Qed.

(** C8: with [shift_chroma=True], [norm_clip] raises the [ValueError] the
    specification calls ConfigurationError for every stream that is not of
    float sample type when [float_processing] is unset; when the stream is
    float or [float_processing] is set, the result is the stream
    normalized without the shift, with 0.5 added to the samples of planes 1
    and 2 of a 3-plane format and plane 0 as it was, and exactly that
    stream for a 1-plane format. *)
Theorem norm_clip_shift_chroma o clip fmt :
  num_frames clip <> 0 -> format clip = Some fmt -> shift_chroma o = true ->
  (is_float fmt = false -> float_processing o = FP_False ->
     norm_clip host o (Some clip) = Raise (ValueError NeedFloatSampleType) /\
     spec_error_kind (ValueError NeedFloatSampleType) = Some ConfigurationError) /\
  (is_float fmt = true \/ float_processing o <> FP_False ->
     exists clip0 clip1,
       norm_clip host (without_shift o) (Some clip) = Ok (Some clip0) /\
       norm_clip host o (Some clip) = Ok (Some clip1) /\
       format clip1 = format clip0 /\
       (num_planes fmt = 1 -> clip1 = clip0) /\
       (num_planes fmt = 3 ->
          forall n y u v, planes (frame_at clip0 n) = [y; u; v] ->
            frame_at clip1 n
            = mkFrame (fformat (frame_at clip0 n))
                      [y; map (add_half host) u; map (add_half host) v])).
Proof.
  intros Hlen Hfmt Hshift.
  destruct (norm_node_without_shift o clip fmt Hlen Hfmt) as (clip0 & H0 & H1).
  specialize (H1 Hshift). unfold norm_clip. split.
  - intros Hfl Hfp. rewrite H1, Hfl, Hfp. done.
  - intros Hreq. rewrite H0.
    assert (Hc : negb (is_float fmt) && negb (truthy (float_processing o)) = false).
    { destruct Hreq as [->|Hfp]; [done|].
      destruct (float_processing o); [done| | |]; apply andb_false_r. }
    rewrite Hc in H1.
    destruct (num_planes fmt =? 3) eqn:Hnp.
    + destruct (std_Expr_shift host clip0) as (clip1 & Hc1 & Hf1 & Hn1 & Hfr1).
      exists clip0, clip1. rewrite H1, Hc1. repeat split; [done| |].
      * apply Nat.eqb_eq in Hnp. intros; lia.
      * intros _ n y u v Hp. destruct (Hfr1 n) as [Hff Hpl].
        apply frame_eq; [done|]. by rewrite Hpl, Hp.
    + exists clip0, clip0. rewrite H1. repeat split; try done.
      apply Nat.eqb_neq in Hnp. intros; lia.
Qed.
End NormClaims.

(** *** The checks of the constructor *)

Section InitClaims.
Context {sample : Type} (host : Host sample).
Implicit Types (c : PyPluginClass sample) (p : PyPlugin sample).
Implicit Types (ref_clip clip : VideoNode sample).

Lemma init_snd c ref_clip clips p :
  snd (__init__ host c ref_clip clips) = Ok p ->
  exists c', __init__ host c ref_clip clips = (c', Ok p).
Proof. destruct (__init__ host c ref_clip clips) as [c' r]. simpl. intros ->. eauto. Qed.

Lemma check_clip_count_ok n lo hi :
  (lo <= Z.of_nat n /\ (0 < hi -> Z.of_nat n <= hi))%Z ->
  check_clip_count n lo hi = Ok tt.
Proof.
  intros [Hlo Hhi]. unfold check_clip_count.
  destruct (Z.ltb_spec (Z.of_nat n) lo); [lia|].
  destruct (Z.ltb_spec 0 hi); [|done].
  destruct (Z.ltb_spec hi (Z.of_nat n)); [lia|done].
Qed.

Lemma check_clip_count_raise n lo hi :
  (Z.of_nat n < lo \/ (0 < hi /\ hi < Z.of_nat n))%Z ->
  check_clip_count n lo hi
  = Raise (ValueError (ClipCount lo (if (hi =? -1)%Z then None else Some hi))).
Proof.
  intros H. unfold check_clip_count.
  destruct (Z.ltb_spec (Z.of_nat n) lo); [done|].
  destruct (Z.ltb_spec 0 hi); [|lia].
  destruct (Z.ltb_spec hi (Z.of_nat n)); [done|lia].
Qed.

(** C7 (as amended): with everything else such that construction succeeds
    under the default bounds ([min_clips = 1], [max_clips = -1]),
    construction with bounds [lo], [hi] succeeds when the stream count
    [1 + k] is at least [lo] and, for a positive maximum ([hi > 0]), at
    most [hi]; it raises the [ValueError] the specification calls
    StreamCountError when [1 + k < lo], or [hi > 0] and [1 + k > hi].
    Every maximum [hi <= 0], not only -1, is no upper limit; the message
    names the maximum as [inf] for -1 only. *)
Theorem clip_count_bounds c ref_clip clips lo hi p0 :
  snd (__init__ host (with_clip_bounds c 1 (-1)) ref_clip clips) = Ok p0 ->
  let n := Z.of_nat (1 + length (clips_arg clips)) in
  ((lo <= n /\ (0 < hi -> n <= hi))%Z ->
     exists p, snd (__init__ host (with_clip_bounds c lo hi) ref_clip clips) = Ok p) /\
  ((n < lo \/ (0 < hi /\ hi < n))%Z ->
     exists e, snd (__init__ host (with_clip_bounds c lo hi) ref_clip clips) = Raise e /\
       e = ValueError (ClipCount lo (if (hi =? -1)%Z then None else Some hi)) /\
       spec_error_kind e = Some StreamCountError).
Proof.
  intros H0 n. apply init_snd in H0 as (c0 & H0).
  apply init_ok_inv in H0
    as (ref_fmt & ref' & clips' & ipp & Hfmt & Href & Hcl & Hipp & _ & Hout & Hin & _ & _).
  pose proof (mapM_length _ _ _ Hcl) as Hlen.
  rewrite (init_ok_intro host (with_clip_bounds c lo hi) ref_clip clips
             ref_fmt ref' clips' ipp Hfmt Href Hcl Hipp).
  cbn [snd with_clip_bounds min_clips max_clips]. subst n. rewrite <- Hlen. split.
  - intros Hrange. rewrite (check_clip_count_ok _ _ _ Hrange). cbn [bind].
    change (effective_output_per_plane (with_clip_bounds c lo hi) ref_fmt)
      with (effective_output_per_plane (with_clip_bounds c 1 (-1)) ref_fmt).
    rewrite Hout, Hin. cbn [bind]. eauto.
  - intros Hout_of_range. rewrite (check_clip_count_raise _ _ _ Hout_of_range).
    cbn [bind]. eauto.
Qed.

(** C6: for a chroma-subsampled reference format, with the streams
    normalizable, the flags declared, the stream count within bounds and
    no subsampled stream declared as merged input, construction with
    [output_per_plane=False] raises the [ValueError] the specification
    calls SubsamplingError, and construction with [output_per_plane=True]
    succeeds. *)
Theorem subsampled_output c ref_clip clips fmt ref' clips' ipp :
  format ref_clip = Some fmt -> wf_format fmt = true -> subsampled fmt = true ->
  norm_node host (options c) ref_clip = Ok ref' ->
  mapM (norm_node host (options c)) (clips_arg clips) = Ok clips' ->
  normalize_input_per_plane (input_per_plane c) (1 + length clips') = Ok ipp ->
  check_clip_count (1 + length clips') (min_clips c) (max_clips c) = Ok tt ->
  check_input_subsampling (-1) (ref' :: clips') ipp = Ok tt ->
  (snd (__init__ host (with_output_per_plane c false) ref_clip clips)
     = Raise (ValueError OutputSubsampled) /\
   spec_error_kind (ValueError OutputSubsampled) = Some SubsamplingError) /\
  (exists p, snd (__init__ host (with_output_per_plane c true) ref_clip clips) = Ok p /\
             output_per_plane p = true).
Proof.
  intros Hfmt Hwf Hss Href Hcl Hipp Hcount Hin.
  assert (Hnp : (num_planes fmt =? 1) = false).
  { unfold wf_format, num_planes in *. destruct (color_family fmt); [|done..].
    by rewrite Hss in Hwf. }
  split; [split; [|done]|].
  - rewrite (init_ok_intro host (with_output_per_plane c false) ref_clip clips
               fmt ref' clips' ipp Hfmt Href Hcl Hipp).
    cbn [snd with_output_per_plane min_clips max_clips]. rewrite Hcount. cbn [bind].
    unfold effective_output_per_plane, check_output_subsampling.
    cbn [cls_output_per_plane with_output_per_plane]. by rewrite Hnp, Hss.
  - rewrite (init_ok_intro host (with_output_per_plane c true) ref_clip clips
               fmt ref' clips' ipp Hfmt Href Hcl Hipp).
    cbn [snd with_output_per_plane min_clips max_clips]. rewrite Hcount. cbn [bind].
    unfold effective_output_per_plane, check_output_subsampling.
    cbn [cls_output_per_plane with_output_per_plane]. rewrite Hnp. cbn [negb andb bind].
    rewrite Hin. cbn [bind]. eauto.
Qed.
End InitClaims.

Section SessionClaims.
Context {sample : Type} (host : Host sample).
Implicit Types (c : PyPluginClass sample) (p : PyPlugin sample).
Implicit Types (ref clip : VideoNode sample).

(** C2 (as amended): after a successful construction with [k] auxiliary
    streams the flag vector is the declared list (a declared bool counting
    as a one-element list) followed by its last entry repeated up to
    [1 + k] entries; so a declaration of at most [1 + k] entries gives
    exactly [1 + k] flags, and a longer declared list is kept as it is. *)
Theorem input_per_plane_normalized c ref aux c' p :
  __init__ host c ref aux = (c', Ok p) ->
  let k := length (clips_arg aux) in
  let l := declared_list (input_per_plane c) in
  length (clips p) = k /\
  (exists y, last l = Some y /\
             _input_per_plane p = l ++ replicate (1 + k - length l) y) /\
  (length l <= 1 + k -> length (_input_per_plane p) = 1 + k) /\
  (1 + k < length l -> _input_per_plane p = l).
Proof.
  intros H k l. apply init_ok_inv in H
    as (ref_fmt & ref' & clips' & ipp & _ & _ & Hcl & Hipp & _ & _ & _ & _ & ->).
  pose proof (mapM_length _ _ _ Hcl) as Hlen. cbn [clips _input_per_plane].
  apply normalize_ok in Hipp as (y & Hy & ->); [|lia].
  fold l in Hy |- *. rewrite Hlen. fold k. repeat split.
  - eauto.
  - intros Hle. rewrite length_app, length_replicate. lia.
  - intros Hlt. replace (1 + k - length l) with 0 by lia. apply app_nil_r.
Qed.

(** C10: a reference stream with a one-plane format gets
    [output_per_plane = True] whatever was declared, and a declared [False]
    passes where a declared [True] does; so no constructed session selects
    the merged-output single-plane closure, and a constructed session with
    merged output has a reference format of more than one plane. *)
Theorem single_plane_forces_output_per_plane c ref aux c' p :
  __init__ host c ref aux = (c', Ok p) ->
  (forall fmt, format ref = Some fmt -> num_planes fmt = 1 ->
     output_per_plane p = true /\
     exists p', snd (__init__ host (with_output_per_plane c false) ref aux) = Ok p' /\
                output_per_plane p' = true) /\
  select_strategy p <> Ok FrameGray /\
  (output_per_plane p = false ->
     exists ref_fmt, format (ref_clip p) = Some ref_fmt /\ num_planes ref_fmt <> 1).
Proof.
  intros H. apply init_ok_inv in H
    as (ref_fmt & ref' & clips' & ipp & Hfmt & Href & Hcl & Hipp & Hcount & Hout & Hin & _ & ->).
  destruct (norm_node_num_planes host _ _ _ _ Href Hfmt) as (fmt' & Hfmt' & Hnp' & _).
  unfold effective_output_per_plane in *.
  split; [|split].
  - intros fmt Hf Hnp. rewrite Hfmt in Hf. injection Hf as <-.
    cbn [output_per_plane]. rewrite Hnp in *. cbn [Nat.eqb] in *. split; [done|].
    rewrite (init_ok_intro host (with_output_per_plane c false) ref aux
               ref_fmt ref' clips' ipp Hfmt Href Hcl Hipp).
    cbn [snd with_output_per_plane min_clips max_clips]. rewrite Hcount. cbn [bind].
    unfold effective_output_per_plane. rewrite Hnp. cbn [Nat.eqb].
    rewrite Hout, Hin. cbn [bind]. eexists. split; [done|].
    cbn [output_per_plane]. done.
  - unfold select_strategy. cbn [ref_clip output_per_plane clips _input_per_plane].
    rewrite Hfmt'. cbn [bind assert_some]. rewrite Hnp'.
    destruct (num_planes ref_fmt =? 1).
    + destruct clips'; [|done]. destruct (index ipp 0) as [[]|]; done.
    + destruct (cls_output_per_plane c).
      * destruct clips'; [|done]. destruct (index ipp 0) as [[]|]; done.
      * by destruct clips'.
  - cbn [output_per_plane ref_clip]. intros Hopp. exists fmt'. split; [done|].
    rewrite Hnp'. destruct (num_planes ref_fmt =? 1) eqn:E; [done|].
    by apply Nat.eqb_neq in E.
Qed.

(** C9: for a 3-plane 8-bit integer reference stream, the class with
    [float_processing=32], [shift_chroma=True] and the other attributes
    at their defaults constructs a session; the format of its reference
    stream has sample type [FLOAT] and 32 bits per sample, with the
    colour family and the subsampling of the stream passed, and each of
    its frames is the frame of the same session with [shift_chroma=False]
    with 0.5 added to the samples of planes 1 and 2, plane 0 unchanged. *)
Theorem scenario_float_shift ref fmt (user : ProcessFn sample) :
  format ref = Some fmt -> wf_clip ref -> num_frames ref <> 0 ->
  num_planes fmt = 3 -> sample_type fmt = INTEGER -> bits_per_sample fmt = 8%Z ->
  let shifted := PyPlugin_class {| float_processing := FP_32; shift_chroma := true |} user in
  let plain := PyPlugin_class {| float_processing := FP_32; shift_chroma := false |} user in
  exists p1 p0 fmt32,
    snd (__init__ host shifted ref None) = Ok p1 /\
    snd (__init__ host plain ref None) = Ok p0 /\
    sample_type fmt32 = FLOAT /\
    bits_per_sample fmt32 = 32%Z /\
    color_family fmt32 = color_family fmt /\
    subsampling_w fmt32 = subsampling_w fmt /\
    subsampling_h fmt32 = subsampling_h fmt /\
    fmt32 = replace fmt FLOAT 32 /\
    format (ref_clip p1) = Some fmt32 /\
    format (ref_clip p0) = Some fmt32 /\
    forall n, n < num_frames ref ->
      exists y u v,
        frame_at (ref_clip p0) n = mkFrame fmt32 [y; u; v] /\
        frame_at (ref_clip p1) n
        = mkFrame fmt32
                  [y; map (fun x => fadd host x (fconst host "0.5")) u;
                      map (fun x => fadd host x (fconst host "0.5")) v].
Proof.
  intros Hfmt Hwf Hlen Hnp Hst Hbits shifted plain.
  set (clip0 := resize host Point (replace fmt FLOAT 32) ref).
  assert (H0 : norm_node host (options plain) ref = Ok clip0).
  { unfold norm_node. apply Nat.eqb_neq in Hlen. rewrite Hlen, Hfmt.
    cbn. unfold is_float. by rewrite Hst. }
  destruct (std_Expr_shift host clip0) as (clip1 & Hc1 & Hf1 & Hn1 & Hfr1).
  assert (H1 : norm_node host (options shifted) ref = Ok clip1).
  { unfold norm_node. apply Nat.eqb_neq in Hlen. rewrite Hlen, Hfmt.
    cbn. unfold is_float. rewrite Hst, Hnp. cbn. exact Hc1. }
  assert (Hin : forall clip, format clip = Some (replace fmt FLOAT 32) ->
                  check_input_subsampling (-1) [clip] [true] = Ok tt).
  { intros clip Hf. cbn. by rewrite Hf. }
  eexists _, _, (replace fmt FLOAT 32).
  split; [|split; [|do 6 (split; [reflexivity|]); split; [|split]]].
  - rewrite (init_ok_intro host shifted ref None fmt clip1 [] [true] Hfmt H1);
      [|done|done].
    cbn [snd length]. rewrite Hin by (by rewrite Hf1).
    unfold effective_output_per_plane. rewrite Hnp. cbn. reflexivity.
  - rewrite (init_ok_intro host plain ref None fmt clip0 [] [true] Hfmt H0);
      [|done|done].
    cbn [snd length]. rewrite Hin by done.
    unfold effective_output_per_plane. rewrite Hnp. cbn. reflexivity.
  - cbn [ref_clip]. by rewrite Hf1.
  - done.
  - intros n Hn. cbn [ref_clip].
    destruct Hwf as (fmt0 & Hfmt0 & Hfr). rewrite Hfmt in Hfmt0. injection Hfmt0 as <-.
    destruct (Hfr n Hn) as [Hff Hpl]. rewrite Hnp in Hpl.
    destruct (planes (frame_at ref n)) as [|y [|u [|v [|]]]] eqn:Hps; try done.
    eexists _, _, _. split.
    + subst clip0. cbn. unfold convert_frame. rewrite Hps. cbn. reflexivity.
    + destruct (Hfr1 n) as [Hff1 Hpl1]. apply frame_eq; [by rewrite Hff1|].
      rewrite Hpl1. subst clip0. cbn. rewrite Hps. cbn. reflexivity.
Qed.
End SessionClaims.

(** *** Sessions whose streams are well-formed *)

Section SessionFacts.
Context {sample : Type} (host : Host sample).
Implicit Types (c : PyPluginClass sample) (p : PyPlugin sample).
Implicit Types (ref clip : VideoNode sample) (frame : VideoFrame sample).

Lemma mapM_Forall2 {A B} (f : A -> result B) (l : list A) (l' : list B) :
  mapM f l = Ok l' -> Forall2 (fun a b => f a = Ok b) l l'.
Proof.
  revert l'. induction l as [|a l IH]; intros l' H; simpl in H.
  - inversion H. constructor.
  - apply bind_ok in H as (b & Hb & H). apply bind_ok in H as (bs & Hbs & H).
    inversion H; subst. constructor; auto.
Qed.

Lemma init_session_inv c ref aux c' p :
  __init__ host c ref aux = (c', Ok p) ->
  wf_clip ref -> Forall wf_clip (clips_arg aux) ->
  session_inv p /\
  cls p = c' /\ process c' = process c /\
  num_frames (ref_clip p) = num_frames ref /\
  Forall2 (fun a a' => num_frames a' = num_frames a) (clips_arg aux) (clips p).
Proof.
  intros H Hwf Hwfs. apply init_ok_inv in H
    as (ref_fmt & ref' & clips' & ipp & Hfmt & Href & Hcl & Hipp & _ & _ & _ & -> & ->).
  apply mapM_Forall2 in Hcl. unfold session_inv, streams. cbn.
  destruct (norm_node_ok host _ _ _ Href) as (Hn & _ & Hw).
  repeat split.
  - constructor; [by apply Hw|].
    clear -Hcl Hwfs. induction Hcl as [|a a' l l' Ha _ IH]; [constructor|].
    inversion Hwfs; subst. constructor; [|by apply IH].
    by apply (norm_node_ok host _ _ _ Ha).
  - apply normalize_ok in Hipp as (y & _ & ->); [|lia].
    rewrite length_app, length_replicate. lia.
  - unfold class_after. by destruct (input_per_plane c).
  - done.
  - clear -Hcl. induction Hcl as [|a a' l l' Ha _ IH]; constructor; [|done].
    by apply (norm_node_ok host _ _ _ Ha).
Qed.

Lemma init_fetchable c ref aux c' p n :
  __init__ host c ref aux = (c', Ok p) ->
  wf_clip ref -> Forall wf_clip (clips_arg aux) ->
  n < num_frames ref -> Forall (fun a => n < num_frames a) (clips_arg aux) ->
  fetchable p n.
Proof.
  intros H Hwf Hwfs Hn Hns.
  destruct (init_session_inv _ _ _ _ _ H Hwf Hwfs) as (_ & _ & _ & Hr & Hc).
  unfold fetchable, streams. constructor; [lia|].
  clear -Hc Hns. induction Hc as [|a a' l l' Ha _ IH]; [constructor|].
  inversion Hns; subst. constructor; [lia | by apply IH].
Qed.

Lemma get_frames_ok (l : list (VideoNode sample)) n :
  Forall (fun clip => n < num_frames clip) l ->
  get_frames l n = ([EGetFrames l n], Ok (map (fun clip => frame_at clip n) l)).
Proof.
  intros H. unfold get_frames. f_equal. apply mapM_ok.
  intros clip Hclip. rewrite Forall_forall in H. unfold fetch.
  destruct (Nat.ltb_spec n (num_frames clip)); [done|]. specialize (H _ Hclip). lia.
Qed.

Lemma get_frame_ok clip n :
  n < num_frames clip -> get_frame clip n = ([EGetFrame clip n], Ok (frame_at clip n)).
Proof.
  intros H. unfold get_frame, fetch. by destruct (Nat.ltb_spec n (num_frames clip)); [|lia].
Qed.

Lemma session_frame_of p n idx clip :
  session_inv p -> fetchable p n -> streams p !! idx = Some clip ->
  frame_of p idx (frame_at clip n).
Proof.
  intros (Hwf & Hsingle & _) Hfetch Hidx. unfold fetchable in Hfetch.
  rewrite Forall_forall in Hwf, Hfetch.
  assert (Hin : clip ∈ streams p) by (by eapply list_elem_of_lookup_2).
  destruct (Hwf _ Hin) as (fmt & Hfmt & Hfr). exists fmt. split.
  - apply Hfr. by apply Hfetch.
  - rewrite Hsingle, list_lookup_fmap, Hidx. simpl. unfold single_plane. by rewrite Hfmt.
Qed.

Lemma wf_frame_planes fmt frame :
  wf_frame fmt frame ->
  (num_planes fmt = 1 /\ exists y, planes frame = [y]) \/
  (num_planes fmt = 3 /\ exists y u v, planes frame = [y; u; v]).
Proof.
  intros [_ Hlen]. unfold num_planes in *.
  destruct (color_family fmt);
    destruct (planes frame) as [|y [|u [|v [|]]]]; simpl in Hlen; try done; eauto 10.
Qed.

Lemma stack_frame_ok p frame idx :
  frame_of p idx frame ->
  _stack_frame p frame idx = ([EStack idx], Ok (stacked frame)).
Proof.
  intros (fmt & Hwf & Hsingle). unfold _stack_frame, index, getitem, stacked.
  rewrite Hsingle.
  destruct (wf_frame_planes _ _ Hwf) as [(-> & y & ->)|(-> & y & u & v & ->)]; done.
Qed.

Lemma stacked_cases frame :
  (exists d, planes frame = [d] /\ stacked frame = VPlane d) \/
  stacked frame = VStack (planes frame).
Proof.
  unfold stacked. destruct (planes frame) as [|d [|]]; eauto.
Qed.
End SessionFacts.

(** *** The pieces of the per-frame closures *)

Section DispatchFacts.
Context {sample : Type}.
Implicit Types (p : PyPlugin sample) (frame : VideoFrame sample).

Lemma pre_stack_ok p i0 (frames : list (VideoFrame sample)) acc :
  (forall j frame, frames !! j = Some frame ->
     frame_of p (i0 + j) frame /\ is_Some (_input_per_plane p !! (i0 + j))) ->
  exists pre,
    pre_stack p i0 frames acc
    = (map EStack (filter (fun i => _input_per_plane p !! i = Some false)
                          (seq i0 (length frames))), Ok pre) /\
    (forall j frame, frames !! j = Some frame ->
       _input_per_plane p !! (i0 + j) = Some false ->
       pre !! (i0 + j) = Some (stacked frame)) /\
    (forall i, i < i0 -> pre !! i = acc !! i).
Proof.
  revert i0 acc. induction frames as [|frame frames IH]; intros i0 acc H.
  { exists acc. by repeat split. }
  destruct (H 0 frame eq_refl) as [Hfr [flag Hflag]].
  rewrite Nat.add_0_r in Hfr, Hflag.
  assert (Hrest : forall j frame', frames !! j = Some frame' ->
            frame_of p (S i0 + j) frame' /\ is_Some (_input_per_plane p !! (S i0 + j))).
  { intros j frame' Hj. replace (S i0 + j) with (i0 + S j) by lia. by apply H. }
  cbn [pre_stack length seq]. unfold index. rewrite Hflag. rewrite filter_cons.
  destruct flag.
  - destruct (IH (S i0) acc Hrest) as (pre & Hpre & Hlook & Hacc).
    exists pre. rewrite decide_False by (by rewrite Hflag).
    cbn [ebind lift negb fst snd app]. rewrite Hpre. split; [done|]. split.
    + intros [|j] frame' Hj Hf.
      * rewrite Nat.add_0_r in Hf. congruence.
      * replace (i0 + S j) with (S i0 + j) in * by lia. by apply Hlook.
    + intros i Hi. apply Hacc. lia.
  - destruct (IH (S i0) (<[i0 := stacked frame]> acc) Hrest) as (pre & Hpre & Hlook & Hacc).
    exists pre. rewrite decide_True by done.
    cbn [ebind lift negb fst snd app]. rewrite (stack_frame_ok _ _ _ Hfr).
    cbn [ebind fst snd app]. rewrite Hpre. split; [done|]. split.
    + intros [|j] frame' Hj Hf.
      * rewrite Nat.add_0_r. injection Hj as <-.
        rewrite Hacc by lia. apply lookup_insert_eq.
      * replace (i0 + S j) with (S i0 + j) in * by lia. by apply Hlook.
    + intros i Hi. rewrite Hacc by lia. apply lookup_insert_ne. lia.
Qed.

Lemma inputs_data_ok p pre pl i0 (frames : list (VideoFrame sample)) :
  (forall j frame, frames !! j = Some frame ->
     exists flag v, _input_per_plane p !! (i0 + j) = Some flag /\
                    select_input flag pl frame = Some v /\
                    (flag = false -> pre !! (i0 + j) = Some (stacked frame))) ->
  exists vs,
    inputs_data p pre pl i0 frames = Ok vs /\
    length vs = length frames /\
    (forall j frame flag, frames !! j = Some frame ->
       _input_per_plane p !! (i0 + j) = Some flag ->
       vs !! j = select_input flag pl frame).
Proof.
  revert i0. induction frames as [|frame frames IH]; intros i0 H.
  { exists []. by repeat split. }
  destruct (H 0 frame eq_refl) as (flag & v & Hflag & Hv & Hpre).
  rewrite Nat.add_0_r in Hflag, Hpre.
  destruct (IH (S i0)) as (vs & Hvs & Hlen & Hlook).
  { intros j frame' Hj. replace (S i0 + j) with (i0 + S j) by lia. by apply H. }
  exists (v :: vs). cbn [inputs_data]. unfold index at 1. rewrite Hflag. cbn [bind].
  assert (Hhead : (if flag then d <- getitem frame pl ;; Ok (VPlane d)
                   else match pre !! i0 with Some v => Ok v | None => Raise KeyError end)
                  = Ok v).
  { unfold select_input in Hv. destruct flag.
    - unfold getitem, index. destruct (planes frame !! pl); [|done].
      simpl in Hv. by injection Hv as <-.
    - rewrite Hpre by done. congruence. }
  rewrite Hhead. cbn [bind]. rewrite Hvs. cbn [bind]. split; [done|].
  split; [by simpl; rewrite Hlen|].
  intros [|j] frame' flag' Hj Hf.
  - rewrite Nat.add_0_r in Hf. injection Hj as <-. simpl. congruence.
  - replace (i0 + S j) with (S i0 + j) in Hf by lia. simpl. by eapply Hlook.
Qed.

Lemma src_arrays_ok p i0 (frames : list (VideoFrame sample)) :
  (forall j frame, frames !! j = Some frame -> frame_of p (i0 + j) frame) ->
  src_arrays p i0 frames
  = (map EStack (seq i0 (length frames)), Ok (map stacked frames)).
Proof.
  revert i0. induction frames as [|frame frames IH]; intros i0 H; [done|].
  cbn [src_arrays]. rewrite (stack_frame_ok p frame i0).
  2: { specialize (H 0 frame eq_refl). by rewrite Nat.add_0_r in H. }
  rewrite IH.
  2: { intros j frame' Hj. replace (S i0 + j) with (i0 + S j) by lia. by apply H. }
  cbn. by rewrite app_nil_r.
Qed.

(** C1: on a frame of three planes of a stream not marked single-plane,
    [_stack_frame] returns the planes 0, 1, 2 in that order; on a frame
    of one plane of a stream marked single-plane it returns that plane. *)
Theorem stack_frame_planes p frame idx :
  (forall y u v, is_single_plane p !! idx = Some false -> planes frame = [y; u; v] ->
     _stack_frame p frame idx = ([EStack idx], Ok (VStack [y; u; v]))) /\
  (forall y, is_single_plane p !! idx = Some true -> planes frame = [y] ->
     _stack_frame p frame idx = ([EStack idx], Ok (VPlane y))).
Proof.
  split.
  - intros y u v Hsingle Hplanes. unfold _stack_frame, index, getitem.
    rewrite Hsingle, Hplanes. reflexivity.
  - intros y Hsingle Hplanes. unfold _stack_frame, index, getitem.
    rewrite Hsingle, Hplanes. reflexivity.
Qed.
End DispatchFacts.

(** *** The stream returned by [invoke] *)

Section InvokeFacts.
Context {sample : Type} (host : Host sample).
Implicit Types (c : PyPluginClass sample) (p : PyPlugin sample).
Implicit Types (ref clip : VideoNode sample) (frame : VideoFrame sample).

Lemma invoke_selected p s ref_fmt :
  select_strategy p = Ok s -> format (ref_clip p) = Some ref_fmt ->
  exists out,
    invoke host p = Ok out /\
    (forall n, fst (out n) = fst (output p s n)) /\
    (forall n frame, snd (output p s n) = Ok frame ->
       snd (out n) = Ok (reconciled host p ref_fmt frame)).
Proof.
  intros Hs Hfmt. unfold invoke, invoke_body, ensure_output, reconciled.
  rewrite Hs, Hfmt. cbn [bind assert_some].
  destruct (format_id (out_format p) =? format_id ref_fmt)%Z; cbn [negb].
  - eexists. split; [done|]. by split.
  - eexists. split; [done|]. split.
    + intros n. destruct (output p s n) as [log [frame|e]]; cbn; [apply app_nil_r|done].
    + intros n frame Hout. destruct (output p s n) as [log [frame'|e]]; cbn in *; congruence.
Qed.

Lemma session_ref_format p :
  session_inv p -> exists ref_fmt, format (ref_clip p) = Some ref_fmt.
Proof.
  intros (Hwf & _). inversion Hwf as [|? ? (fmt & Hfmt & _) _]. eauto.
Qed.

Lemma call_process_returns p fout src dst plane n :
  returns_buffer (process (cls p)) ->
  exists fout',
    call_process p fout src dst plane n = ([EProcess src dst plane n], Ok fout') /\
    same_shape fout fout'.
Proof.
  intros Hret. destruct (Hret fout src dst plane n) as (fout' & Hp & Hshape).
  exists fout'. unfold call_process. by rewrite Hp.
Qed.
End InvokeFacts.

Section ScenarioB.
Context {sample : Type} (host : Host sample).
Implicit Types (c : PyPluginClass sample) (p : PyPlugin sample).
Implicit Types (ref clip : VideoNode sample) (frame : VideoFrame sample).

(** C3: in a session of a reference stream and two auxiliary streams with
    [input_per_plane = [True, False, False]] and [output_per_plane = True],
    with a user method that returns, evaluating frame [n] logs one
    [get_frames] over the three streams, one [_stack_frame] for stream 1
    and one for stream 2, and then one [process] call per plane [pl] of the
    output, in ascending order, with the inputs [plane pl of stream 0,
    stream 1 stacked, stream 2 stacked]. *)
Theorem scenario_three_streams c ref a1 a2 c' p n :
  input_per_plane c = IppList [true; false; false] ->
  cls_output_per_plane c = true ->
  __init__ host c ref (Some [a1; a2]) = (c', Ok p) ->
  wf_clip ref -> wf_clip a1 -> wf_clip a2 ->
  n < num_frames ref -> n < num_frames a1 -> n < num_frames a2 ->
  returns_buffer (process c) ->
  exists out b1 b2 fout,
    invoke host p = Ok out /\
    clips p = [b1; b2] /\
    out n =
      ([EGetFrames [ref_clip p; b1; b2] n; EStack 1; EStack 2]
         ++ imap (fun pl d =>
                    EProcess (SList [VPlane d; stacked (frame_at b1 n);
                                     stacked (frame_at b2 n)])
                             (DPlane pl) (Some pl) n)
                 (planes (frame_at (ref_clip p) n)),
       Ok fout).
Proof.
  intros Hipp Hopp Hinit Hwf Hwf1 Hwf2 Hn Hn1 Hn2 Hret.
  assert (Hwfs : Forall wf_clip (clips_arg (Some [a1; a2]))) by (by repeat constructor).
  assert (Hns : Forall (fun a => n < num_frames a) (clips_arg (Some [a1; a2])))
    by (by repeat constructor).
  destruct (init_session_inv host _ _ _ _ _ Hinit Hwf Hwfs) as (Hinv & Hcls & Hproc & _ & _).
  pose proof (init_fetchable host _ _ _ _ _ n Hinit Hwf Hwfs Hn Hns) as Hfetch.
  apply init_ok_inv in Hinit
    as (ref_fmt & r & clips' & ipp & Hfmt & Href & Hcl & Hnorm & _ & _ & _ & _ & Hp).
  cbn [clips_arg default mapM] in Hcl.
  apply bind_ok in Hcl as (b1 & Hb1 & Hcl). apply bind_ok in Hcl as (bs & Hb2 & Hcl).
  apply bind_ok in Hb2 as (b2 & Hb2 & Hbs). injection Hbs as <-. injection Hcl as <-.
  rewrite Hipp in Hnorm. injection Hnorm as <-.
  assert (Hflags : _input_per_plane p = [true; false; false]) by (by rewrite Hp).
  assert (Hstreams : streams p = [r; b1; b2]) by (by rewrite Hp).
  assert (Hr : ref_clip p = r) by (by rewrite Hp).
  assert (Hclips : clips p = [b1; b2]) by (by rewrite Hp).
  assert (Hout : output_per_plane p = true).
  { rewrite Hp. cbn. unfold effective_output_per_plane. rewrite Hopp. by destruct (_ =? _). }
  rewrite <- Hproc, <- Hcls in Hret. clear Hp Hcls Hproc.
  destruct (session_ref_format _ Hinv) as (fmt' & Hfmt').
  assert (Hsel : select_strategy p = Ok PlanesClips).
  { unfold select_strategy. by rewrite Hfmt', Hout, Hclips. }
  destruct (invoke_selected host p _ _ Hsel Hfmt') as (out & Hinvoke & Hlog & Hres).
  set (f0 := frame_at r n). set (f1 := frame_at b1 n). set (f2 := frame_at b2 n).
  assert (Hf0 : frame_of p 0 f0) by (apply session_frame_of; by rewrite ?Hstreams).
  assert (Hf1 : frame_of p 1 f1) by (apply session_frame_of; by rewrite ?Hstreams).
  assert (Hf2 : frame_of p 2 f2) by (apply session_frame_of; by rewrite ?Hstreams).
  (* the closure, step by step *)
  assert (Hrun : exists fout,
    output p PlanesClips n =
      ([EGetFrames [r; b1; b2] n; EStack 1; EStack 2]
         ++ imap (fun pl d => EProcess (SList [VPlane d; stacked f1; stacked f2])
                                       (DPlane pl) (Some pl) n) (planes f0),
       Ok fout)).
  { cbn [output]. unfold output_planes_clips. rewrite Hr, Hclips.
    rewrite get_frames_ok by (by rewrite <- Hstreams).
    cbn [ebind map fst snd lift index lookup list_lookup copy]. fold f0 f1 f2.
    destruct (pre_stack_ok p 0 [f0; f1; f2] ∅) as (pre & Hpre & Hlook & _).
    { intros [|[|[|j]]] frame Hj; simplify_eq/=; rewrite Hflags; eauto. }
    rewrite Hpre, Hflags. cbn [ebind fst snd].
    pose proof (Hlook 1 f1 eq_refl) as Hpre1. pose proof (Hlook 2 f2 eq_refl) as Hpre2.
    rewrite Hflags in Hpre1, Hpre2. specialize (Hpre1 eq_refl). specialize (Hpre2 eq_refl).
    cbn [Nat.add] in Hpre1, Hpre2.
    destruct Hf0 as (fmt0 & Hwf0 & _). pose proof Hwf0 as [Hff0 Hlen0].
    set (ev := fun pl => EProcess (SList [VPlane (default [] (planes f0 !! pl));
                                          stacked f1; stacked f2])
                                  (DPlane pl) (Some pl) n).
    match goal with
    | |- context [for_each ?l ?s ?body] =>
      destruct (for_each_inv (same_shape f0) ev body l s) as (fout & Hloop & _);
        [| |rewrite Hloop]
    end.
    - intros fout pl Hpl [Hshape Hlen]. apply elem_of_seq in Hpl. unfold copy in Hpl.
      rewrite Hff0, <- Hlen0 in Hpl.
      destruct (lookup_lt_is_Some_2 (planes f0) pl) as [d Hd]; [lia|].
      destruct (lookup_lt_is_Some_2 (planes fout) pl) as [d' Hd']; [lia|].
      destruct (call_process_returns p fout
                  (SList [VPlane d; stacked f1; stacked f2]) (DPlane pl) (Some pl) n Hret)
        as (fout' & Hcall & Hshape' & Hlen').
      exists fout'. cbn [inputs_data]. rewrite Hflags. unfold getitem, index.
      cbn [lookup list_lookup bind]. rewrite Hd, Hd', Hpre1, Hpre2.
      cbn [bind lift ebind fst snd app]. rewrite Hcall. unfold ev. rewrite ?Hd.
      split; [done|]. split; congruence.
    - done.
    - exists fout. f_equal. cbn [app]. do 3 f_equal. unfold copy.
      rewrite Hff0. clear -Hwf0. subst ev.
      destruct (wf_frame_planes _ _ Hwf0) as [(-> & y & ->)|(-> & y & u & v & ->)]; done. }
  destruct Hrun as (fout & Hrun).
  exists out, b1, b2, (reconciled host p fmt' fout).
  split; [done|]. split; [done|].
  rewrite Hr. fold f0 f1 f2.
  rewrite (surjective_pairing (out n)), Hlog, (Hres n fout) by (by rewrite Hrun).
  by rewrite Hrun.
Qed.
End ScenarioB.

Section MergedOutput.
Context {sample : Type} (host : Host sample).
Implicit Types (c : PyPluginClass sample) (p : PyPlugin sample).
Implicit Types (ref clip : VideoNode sample) (frame : VideoFrame sample).

(** A constructed session with merged output has a reference format of
    more than one plane. *)
Lemma init_merged_multi_plane c ref aux c' p ref_fmt :
  __init__ host c ref aux = (c', Ok p) -> output_per_plane p = false ->
  format (ref_clip p) = Some ref_fmt -> (num_planes ref_fmt =? 1) = false.
Proof.
  intros H Hopp Hfmt'. apply init_ok_inv in H
    as (fmt & ref' & clips' & ipp & Hfmt & Href & _ & _ & _ & _ & _ & _ & ->).
  cbn [output_per_plane ref_clip] in *. unfold effective_output_per_plane in Hopp.
  destruct (norm_node_num_planes host _ _ _ _ Href Hfmt) as (fmt' & Hf & Hnp & _).
  rewrite Hfmt' in Hf. injection Hf as <-. rewrite Hnp.
  by destruct (num_planes fmt =? 1).
Qed.

Lemma frames_lookup p n j frame :
  map (fun clip => frame_at clip n) (streams p) !! j = Some frame ->
  exists clip, streams p !! j = Some clip /\ frame = frame_at clip n.
Proof.
  rewrite list_lookup_fmap. destruct (streams p !! j) as [clip|]; [|done].
  intros [= <-]. eauto.
Qed.

(** C4 (as amended): a session with merged output calls [process] exactly
    once per frame index, with the output buffer as [dst] and [None] as
    plane; with auxiliary streams the inputs are all streams stacked,
    whatever their flags, and without them the input is the reference
    frame itself. *)
Theorem merged_output_single_call c ref aux c' p n :
  __init__ host c ref aux = (c', Ok p) -> output_per_plane p = false ->
  wf_clip ref -> Forall wf_clip (clips_arg aux) ->
  n < num_frames ref -> Forall (fun a => n < num_frames a) (clips_arg aux) ->
  exists out,
    invoke host p = Ok out /\
    fst (out n) =
      match clips p with
      | [] =>
        [EGetFrame (ref_clip p) n;
         EProcess (SOne (VFrame (frame_at (ref_clip p) n))) DFrame None n]
      | _ :: _ =>
        [EGetFrames (streams p) n]
          ++ map EStack (seq 0 (length (streams p)))
          ++ [EProcess (SList (map (fun clip => stacked (frame_at clip n)) (streams p)))
                       DFrame None n]
      end.
Proof.
  intros Hinit Hopp Hwf Hwfs Hn Hns.
  destruct (init_session_inv host _ _ _ _ _ Hinit Hwf Hwfs) as (Hinv & _).
  pose proof (init_fetchable host _ _ _ _ _ n Hinit Hwf Hwfs Hn Hns) as Hfetch.
  destruct (session_ref_format _ Hinv) as (ref_fmt & Hfmt).
  pose proof (init_merged_multi_plane _ _ _ _ _ _ Hinit Hopp Hfmt) as Hmulti.
  destruct (clips p) as [|b bs] eqn:Hclips.
  - assert (Hsel : select_strategy p = Ok FrameRef).
    { unfold select_strategy. rewrite Hfmt, Hopp, Hclips. cbn. by rewrite Hmulti. }
    destruct (invoke_selected host p _ _ Hsel Hfmt) as (out & Hinvoke & Hlog & _).
    exists out. split; [done|]. rewrite Hlog. cbn [output]. unfold output_frame_ref.
    rewrite get_frame_ok. 2: { unfold fetchable in Hfetch. by inversion Hfetch. }
    done.
  - assert (Hsel : select_strategy p = Ok FrameClips).
    { unfold select_strategy. by rewrite Hfmt, Hopp, Hclips. }
    destruct (invoke_selected host p _ _ Hsel Hfmt) as (out & Hinvoke & Hlog & _).
    exists out. split; [done|]. rewrite Hlog. cbn [output]. unfold output_frame_clips.
    fold (streams p). rewrite (get_frames_ok (streams p) n Hfetch).
    cbn [ebind fst snd lift]. unfold streams at 2. cbn [map index lookup list_lookup].
    cbn [fst snd]. fold (streams p).
    change (frame_at (ref_clip p) n :: map (fun clip => frame_at clip n) (clips p))
      with (map (fun clip => frame_at clip n) (streams p)).
    rewrite src_arrays_ok.
    2: { intros j frame Hj. apply frames_lookup in Hj as (clip & Hclip & ->).
         by apply session_frame_of. }
    cbn [ebind fst snd call_process]. rewrite length_map, map_map. done.
Qed.
End MergedOutput.

Section RoundTrip.
Context {sample : Type} (host : Host sample).
Implicit Types (c : PyPluginClass sample) (p : PyPlugin sample).
Implicit Types (ref clip : VideoNode sample) (frame : VideoFrame sample).

Lemma ebind_snd_ok {A B} (m : Eval sample A) (k : A -> Eval sample B) a :
  snd m = Ok a -> snd (ebind m k) = snd (k a).
Proof. destruct m as [log [a'|e]]; simpl; [by intros [= ->] | done]. Qed.

(** A loop whose every round ends, keeping an invariant of the state, ends
    in a state with the invariant. *)
Lemma for_each_result {A S} (R : S -> Prop) (body : S -> A -> Eval sample S)
    (l : list A) (s : S) :
  (forall s a, a ∈ l -> R s -> exists s', snd (body s a) = Ok s' /\ R s') ->
  R s ->
  exists s', snd (for_each l s body) = Ok s' /\ R s'.
Proof.
  revert s. induction l as [|a l IH]; intros s Hbody Hs; simpl.
  - by exists s.
  - destruct (Hbody s a) as (s1 & Hs1 & HR1); [by left | done |].
    destruct (IH s1) as (s' & Hs' & HR'); [|done|].
    { intros s0 a0 Ha0. apply Hbody. by right. }
    exists s'. split; [|done]. by rewrite (ebind_snd_ok _ _ _ Hs1).
Qed.

Lemma copy_process_plane frame src v vs pl d plane n :
  src = SOne v \/ src = SList (v :: vs) ->
  planes frame !! pl = Some d ->
  v = VPlane d \/ v = stacked frame \/ v = VFrame frame ->
  copy_process frame src (DPlane pl) plane n = Ok frame.
Proof.
  intros Hsrc Hd Hv. unfold copy_process.
  assert (Hhead : match src with SOne v => Ok v | SList vs => index vs 0 end = Ok v)
    by (by destruct Hsrc as [->| ->]).
  rewrite Hhead. cbn [bind].
  assert (Hdata : match v with
                  | VPlane d => Ok d
                  | VStack ps => index ps pl
                  | VFrame frame => getitem frame pl
                  end = Ok d).
  { destruct Hv as [->|[->| ->]]; [done| |by unfold getitem, index; rewrite Hd].
    destruct (stacked_cases frame) as [(d0 & Hp & ->)| ->].
    - rewrite Hp in Hd. destruct pl as [|pl]; simpl in Hd; [congruence|].
      by rewrite lookup_nil in Hd.
    - unfold index. by rewrite Hd. }
  rewrite Hdata. cbn [bind].
  pose proof (lookup_lt_Some _ _ _ Hd) as Hlt.
  destruct (Nat.ltb_spec pl (length (planes frame))); [|lia].
  rewrite list_insert_id by done. by destruct frame.
Qed.

Lemma copy_process_frame frame src v vs plane n :
  src = SOne v \/ src = SList (v :: vs) ->
  v = stacked frame \/ v = VFrame frame ->
  copy_process frame src DFrame plane n = Ok frame.
Proof.
  intros Hsrc Hv. unfold copy_process.
  assert (Hhead : match src with SOne v => Ok v | SList vs => index vs 0 end = Ok v)
    by (by destruct Hsrc as [->| ->]).
  rewrite Hhead. cbn [bind].
  assert (Hdata : match v with
                  | VPlane d => Ok [d]
                  | VStack ps => Ok ps
                  | VFrame frame => Ok (planes frame)
                  end = Ok (planes frame)).
  { destruct Hv as [->| ->]; [|done].
    by destruct (stacked_cases frame) as [(d0 & -> & ->)| ->]. }
  rewrite Hdata. cbn [bind]. rewrite Nat.eqb_refl. by destruct frame.
Qed.

Lemma session_stream_frame p n idx clip :
  session_inv p -> fetchable p n -> streams p !! idx = Some clip ->
  exists fmt, format clip = Some fmt /\ wf_frame fmt (frame_at clip n).
Proof.
  intros (Hwf & _ & _) Hfetch Hidx. unfold fetchable in Hfetch.
  rewrite Forall_forall in Hwf, Hfetch.
  assert (Hin : clip ∈ streams p) by (by eapply list_elem_of_lookup_2).
  destruct (Hwf _ Hin) as (fmt & Hfmt & Hfr). exists fmt. split; [done|].
  apply Hfr. by apply Hfetch.
Qed.
End RoundTrip.

Section RoundTripClaim.
Context {sample : Type} (host : Host sample).
Implicit Types (c : PyPluginClass sample) (p : PyPlugin sample).
Implicit Types (ref clip : VideoNode sample) (frame : VideoFrame sample).

Lemma init_out_format c ref aux c' p ref_fmt :
  __init__ host c ref aux = (c', Ok p) -> format (ref_clip p) = Some ref_fmt ->
  num_planes (out_format p) = num_planes ref_fmt.
Proof.
  intros H Hfmt'. apply init_ok_inv in H
    as (fmt & ref' & clips' & ipp & Hfmt & Href & _ & _ & _ & _ & _ & _ & ->).
  cbn [out_format ref_clip] in *.
  destruct (norm_node_num_planes host _ _ _ _ Href Hfmt) as (fmt' & Hf & Hnp & _).
  congruence.
Qed.

Lemma round_trip_output p n ref_fmt :
  session_inv p -> fetchable p n ->
  process (cls p) = copy_process ->
  format (ref_clip p) = Some ref_fmt ->
  num_planes (out_format p) = num_planes ref_fmt ->
  (output_per_plane p = false -> (num_planes ref_fmt =? 1) = false) ->
  (output_per_plane p = true -> planes_available p) ->
  exists s, select_strategy p = Ok s /\
            snd (output p s n) = Ok (frame_at (ref_clip p) n).
Proof.
  intros Hinv Hfetch Hproc Hfmt Hout Hmulti Havail.
  set (f0 := frame_at (ref_clip p) n).
  assert (Hs0 : streams p !! 0 = Some (ref_clip p)) by done.
  destruct (session_stream_frame p n 0 _ Hinv Hfetch Hs0) as (fmt0 & Hfmt0 & Hwf0).
  rewrite Hfmt in Hfmt0. injection Hfmt0 as <-. fold f0 in Hwf0.
  pose proof (session_frame_of p n 0 _ Hinv Hfetch Hs0) as Hof0. fold f0 in Hof0.
  destruct Hwf0 as [Hff0 Hlen0].
  assert (Hn0 : n < num_frames (ref_clip p)).
  { unfold fetchable in Hfetch. by inversion Hfetch. }
  assert (Hflag0 : is_Some (_input_per_plane p !! 0)).
  { apply lookup_lt_is_Some_2. destruct Hinv as (_ & _ & Hlen). simpl in Hlen. lia. }
  destruct Hflag0 as [flag0 Hflag0].
  unfold select_strategy. rewrite Hfmt. cbn [bind assert_some].
  destruct (output_per_plane p) eqn:Hopp; destruct (clips p) as [|b bs] eqn:Hclips.
  - (* no auxiliary stream, output per plane *)
    unfold index. rewrite Hflag0. cbn [bind]. eexists. split; [done|].
    destruct flag0; cbn [output].
    + unfold output_planes_ref. rewrite (get_frame_ok _ _ Hn0). fold f0.
      cbn [ebind fst snd copy].
      match goal with
      | |- context [for_each ?l ?s ?body] =>
        destruct (for_each_result (fun fout => fout = f0) body l s)
          as (fout & Hloop & ->); [|done|by rewrite Hloop]
      end.
      intros fout pl Hpl ->. apply elem_of_seq in Hpl. unfold copy in Hpl.
      rewrite Hff0, <- Hlen0 in Hpl.
      destruct (lookup_lt_is_Some_2 (planes f0) pl) as [d Hd]; [lia|].
      exists f0. split; [|done]. unfold getitem, index. rewrite Hd.
      cbn [ebind lift fst snd call_process]. rewrite Hproc.
      eapply (copy_process_plane _ _ _ []); eauto.
    + unfold output_planes_ref_stacked. rewrite (get_frame_ok _ _ Hn0). fold f0.
      cbn [ebind fst snd copy]. rewrite (stack_frame_ok _ _ _ Hof0).
      cbn [ebind fst snd].
      match goal with
      | |- context [for_each ?l ?s ?body] =>
        destruct (for_each_result (fun fout => fout = f0) body l s)
          as (fout & Hloop & ->); [|done|by rewrite Hloop]
      end.
      intros fout pl Hpl ->. apply elem_of_seq in Hpl. unfold copy in Hpl.
      rewrite Hff0, <- Hlen0 in Hpl.
      destruct (lookup_lt_is_Some_2 (planes f0) pl) as [d Hd]; [lia|].
      exists f0. split; [|done]. unfold getitem, index. rewrite Hd.
      cbn [ebind lift fst snd call_process]. rewrite Hproc.
      eapply (copy_process_plane _ _ _ []); eauto.
  - (* auxiliary streams, output per plane *)
    eexists. split; [done|]. cbn [output]. unfold output_planes_clips.
    fold (streams p). rewrite (get_frames_ok _ _ Hfetch). cbn [ebind fst snd].
    set (frames := map (fun clip => frame_at clip n) (streams p)).
    assert (Hfr0 : frames !! 0 = Some f0) by done.
    unfold index at 1. rewrite Hfr0. cbn [ebind lift fst snd copy].
    destruct (pre_stack_ok p 0 frames ∅) as (pre & Hpre & Hlook & _).
    { intros j frame Hj. apply frames_lookup in Hj as (clip & Hclip & ->).
      split; [by apply session_frame_of|].
      apply lookup_lt_is_Some_2. apply lookup_lt_Some in Hclip.
      destruct Hinv as (_ & _ & Hlen). simpl. lia. }
    rewrite Hpre. cbn [ebind fst snd].
    match goal with
    | |- context [for_each ?l ?s ?body] =>
      destruct (for_each_result (fun fout => fout = f0) body l s)
        as (fout & Hloop & ->); [|done|by rewrite Hloop]
    end.
    intros fout pl Hpl ->. apply elem_of_seq in Hpl. unfold copy in Hpl.
    rewrite Hff0, <- Hlen0 in Hpl.
    destruct (lookup_lt_is_Some_2 (planes f0) pl) as [d Hd]; [lia|].
    destruct (inputs_data_ok p pre pl 0 frames) as (vs & Hvs & _ & Hvs0).
    { intros j frame Hj. pose proof Hj as Hj'.
      apply frames_lookup in Hj' as (clip & Hclip & ->).
      destruct (lookup_lt_is_Some_2 (_input_per_plane p) j) as [flag Hflag].
      { apply lookup_lt_Some in Hclip. destruct Hinv as (_ & _ & Hlen). lia. }
      destruct flag.
      - destruct (session_stream_frame p n j _ Hinv Hfetch Hclip) as (fmt & Hf & _ & Hl).
        destruct (lookup_lt_is_Some_2 (planes (frame_at clip n)) pl) as [d' Hd'].
        { destruct j as [|i].
          - injection Hclip as <-. fold f0. lia.
          - simpl in Hclip. specialize (Havail eq_refl i clip fmt Hclip Hflag Hf). lia. }
        exists true, (VPlane d'). split; [done|]. split; [|done].
        unfold select_input. by rewrite Hd'.
      - exists false, (stacked (frame_at clip n)). split; [done|]. split; [done|].
        intros _. by apply (Hlook j). }
    specialize (Hvs0 0 f0 flag0 Hfr0 Hflag0).
    destruct vs as [|v0 vs]; [by destruct flag0; simpl in Hvs0; rewrite ?Hd in Hvs0|].
    exists f0. split; [|done]. rewrite Hvs. unfold getitem, index. rewrite Hd.
    cbn [ebind lift fst snd call_process]. rewrite Hproc.
    apply (copy_process_plane _ _ v0 vs pl d); [by right|done|].
    simpl in Hvs0. unfold select_input in Hvs0. destruct flag0.
    + rewrite Hd in Hvs0. simpl in Hvs0. left. congruence.
    + right. left. congruence.
  - (* no auxiliary stream, merged output *)
    rewrite (Hmulti eq_refl). eexists. split; [done|]. cbn [output].
    unfold output_frame_ref. rewrite (get_frame_ok _ _ Hn0). fold f0.
    cbn [ebind fst snd copy call_process]. rewrite Hproc.
    apply (copy_process_frame _ _ (VFrame f0) []); auto.
  - (* auxiliary streams, merged output *)
    eexists. split; [done|]. cbn [output]. unfold output_frame_clips.
    fold (streams p). rewrite (get_frames_ok _ _ Hfetch). cbn [ebind fst snd].
    set (frames := map (fun clip => frame_at clip n) (streams p)).
    assert (Hfr0 : frames !! 0 = Some f0) by done.
    unfold index at 1. rewrite Hfr0. cbn [ebind lift fst snd copy].
    rewrite src_arrays_ok.
    2: { intros j frame Hj. apply frames_lookup in Hj as (clip & Hclip & ->).
         by apply session_frame_of. }
    cbn [ebind fst snd call_process]. rewrite Hproc.
    apply (copy_process_frame _ _ (stacked f0) (map stacked (tail frames))); [|by left].
    right. done.
Qed.

(** C5 (as amended): in a constructed session whose streams are
    well-formed and can deliver frame [n], and whose per-plane auxiliary
    streams have at least the planes of the output, a user method that
    copies its input to its output makes every strategy a session can
    select return frame [n] of the session's reference stream, which is
    the stream [norm_clip] returns for the reference stream passed, after
    reconciliation with the output format, which is the format of the
    stream passed; when the formats match, that is the frame of the
    normalized stream itself; and when [norm_clip] leaves the stream as
    passed, as it does with [float_processing] and [shift_chroma] unset,
    the output is frame [n] of the reference stream passed. *)
Theorem copy_round_trip c ref aux c' p n :
  __init__ host c ref aux = (c', Ok p) ->
  process c = copy_process ->
  wf_clip ref -> Forall wf_clip (clips_arg aux) ->
  n < num_frames ref -> Forall (fun a => n < num_frames a) (clips_arg aux) ->
  (output_per_plane p = true -> planes_available p) ->
  exists out ref_fmt,
    invoke host p = Ok out /\
    format (ref_clip p) = Some ref_fmt /\
    norm_node host (options c) ref = Ok (ref_clip p) /\
    format ref = Some (out_format p) /\
    snd (out n) = Ok (reconciled host p ref_fmt (frame_at (ref_clip p) n)) /\
    (format_id (out_format p) = format_id ref_fmt ->
     snd (out n) = Ok (frame_at (ref_clip p) n)) /\
    (ref_clip p = ref -> snd (out n) = Ok (frame_at ref n)) /\
    (float_processing (options c) = FP_False -> shift_chroma (options c) = false ->
     ref_clip p = ref /\ snd (out n) = Ok (frame_at ref n)).
Proof.
  intros Hinit Hcopy Hwf Hwfs Hn Hns Havail.
  destruct (init_session_inv host _ _ _ _ _ Hinit Hwf Hwfs) as (Hinv & Hcls & Hproc & _).
  pose proof (init_fetchable host _ _ _ _ _ n Hinit Hwf Hwfs Hn Hns) as Hfetch.
  destruct (session_ref_format _ Hinv) as (ref_fmt & Hfmt).
  assert (Hpassed : norm_node host (options c) ref = Ok (ref_clip p) /\
                    format ref = Some (out_format p)).
  { destruct (init_ok_inv host _ _ _ _ _ Hinit)
      as (fmt0 & ref' & clips' & ipp & Hfmt0 & Href & _ & _ & _ & _ & _ & _ & ->).
    done. }
  destruct Hpassed as [Hnorm Hout_fmt].
  destruct (round_trip_output p n ref_fmt Hinv Hfetch) as (s & Hsel & Hrun); try done.
  - congruence.
  - by eapply init_out_format.
  - intros Hopp. by eapply init_merged_multi_plane.
  - destruct (invoke_selected host p _ _ Hsel Hfmt) as (out & Hinvoke & _ & Hres).
    exists out, ref_fmt. split; [done|]. split; [done|].
    split; [done|]. split; [done|].
    rewrite (Hres n _ Hrun). split; [done|].
    assert (Hsame : format_id (out_format p) = format_id ref_fmt ->
              Ok (reconciled host p ref_fmt (frame_at (ref_clip p) n))
              = Ok (frame_at (ref_clip p) n) :> result (VideoFrame sample)).
    { intros Hid. unfold reconciled. by rewrite Hid, Z.eqb_refl. }
    assert (Hleft : ref_clip p = ref ->
              Ok (reconciled host p ref_fmt (frame_at (ref_clip p) n))
              = Ok (frame_at ref n) :> result (VideoFrame sample)).
    { intros Heq. rewrite Hsame; [by rewrite Heq|].
      rewrite Heq in Hfmt. rewrite Hfmt in Hout_fmt. by injection Hout_fmt as <-. }
    split; [done|]. split; [done|].
    intros Hfp Hshift.
    assert (Heq : ref_clip p = ref).
    { revert Hnorm. unfold norm_node. rewrite Hfp, Hshift, Hout_fmt. cbn.
      destruct (num_frames ref =? 0); by intros [= <-]. }
    split; [done|]. by apply Hleft.
Qed.
End RoundTripClaim.

(** *** Concrete runs *)

Lemma stack_frame_planes_witness :
  _stack_frame (constructed plain_class yuv_clip (Some [gray_clip])) (frame_at yuv_clip 0) 0
    = ([EStack 0], Ok (VStack [[1%Q]; [2%Q]; [3%Q]])) /\
  _stack_frame (constructed plain_class yuv_clip (Some [gray_clip])) (frame_at gray_clip 0) 1
    = ([EStack 1], Ok (VPlane [7%Q])).
Proof.
  split.
  - apply (proj1 (stack_frame_planes _ _ _)); reflexivity.
  - apply (proj2 (stack_frame_planes _ _ _)); reflexivity.
Defined.

(** C2, as stated, fails: a class declaring two flags, constructed with
    no auxiliary stream, keeps both flags. *)
Lemma declared_flags_outnumber_streams :
  exists c' p,
    __init__ qhost two_flags_class gray_clip None = (c', Ok p) /\
    length (clips p) = 0 /\
    _input_per_plane p = [true; true] /\
    length (_input_per_plane p) <> 1 + length (clips p).
Proof.
  eexists _, _. split; [reflexivity|]. cbn. repeat split. lia.
Qed.

Lemma input_per_plane_normalized_witness :
  let p := constructed class_B yuv_clip (Some [yuv_clip; gray_clip]) in
  length (clips p) = 2 /\
  (exists y, last [true; false; false] = Some y /\
             _input_per_plane p = [true; false; false] ++ replicate (1 + 2 - 3) y) /\
  (3 <= 1 + 2 -> length (_input_per_plane p) = 1 + 2) /\
  (1 + 2 < 3 -> _input_per_plane p = [true; false; false]).
Proof.
  apply (input_per_plane_normalized qhost class_B yuv_clip (Some [yuv_clip; gray_clip])
           (class_left class_B yuv_clip (Some [yuv_clip; gray_clip]))).
  reflexivity.
Defined.

Lemma clip_count_bounds_witness :
  (exists p, snd (__init__ qhost (with_clip_bounds plain_class 2 3) yuv_clip
                    (Some [gray_clip])) = Ok p) /\
  (exists e, snd (__init__ qhost (with_clip_bounds plain_class 3 (-1)) yuv_clip
                    (Some [gray_clip])) = Raise e /\
     e = ValueError (ClipCount 3 None) /\
     spec_error_kind e = Some StreamCountError) /\
  (exists e, snd (__init__ qhost (with_clip_bounds plain_class 1 1) yuv_clip
                    (Some [gray_clip])) = Raise e /\
     e = ValueError (ClipCount 1 (Some 1%Z)) /\
     spec_error_kind e = Some StreamCountError).
Proof.
  split; [|split].
  - apply (proj1 (clip_count_bounds qhost plain_class yuv_clip (Some [gray_clip]) 2 3
                    (constructed plain_class yuv_clip (Some [gray_clip])) eq_refl)).
    cbn. lia.
  - apply (proj2 (clip_count_bounds qhost plain_class yuv_clip (Some [gray_clip]) 3 (-1)
                    (constructed plain_class yuv_clip (Some [gray_clip])) eq_refl)).
    cbn. lia.
  - apply (proj2 (clip_count_bounds qhost plain_class yuv_clip (Some [gray_clip]) 1 1
                    (constructed plain_class yuv_clip (Some [gray_clip])) eq_refl)).
    cbn. lia.
Defined.

(** C7, as stated, fails: with [max_clips = 0], a maximum that is not the
    unbounded value -1 and that the error message prints as the bound 0,
    a session over two streams is constructed although
    [1 + k = 2 > max_clips]. *)
Lemma zero_max_clips_constructs :
  let c := with_clip_bounds plain_class 1 0 in
  let aux := Some [gray_clip] in
  max_clips c = 0%Z /\
  Z.of_nat (1 + length (clips_arg aux)) = 2%Z /\
  (max_clips c < Z.of_nat (1 + length (clips_arg aux)))%Z /\
  (exists p, snd (__init__ qhost c yuv_clip aux) = Ok p) /\
  snd (__init__ qhost (with_clip_bounds plain_class 3 0) yuv_clip aux)
  = Raise (ValueError (ClipCount 3 (Some 0%Z))).
Proof.
  cbv zeta. split; [reflexivity|]. split; [reflexivity|]. split; [reflexivity|].
  split; [|reflexivity].
  exists (constructed (with_clip_bounds plain_class 1 0) yuv_clip (Some [gray_clip])).
  reflexivity.
Qed.

Lemma subsampled_output_witness :
  (snd (__init__ qhost (with_output_per_plane plain_class false) yuv420_clip None)
     = Raise (ValueError OutputSubsampled) /\
   spec_error_kind (ValueError OutputSubsampled) = Some SubsamplingError) /\
  (exists p, snd (__init__ qhost (with_output_per_plane plain_class true) yuv420_clip None)
             = Ok p /\ output_per_plane p = true).
Proof.
  apply (subsampled_output qhost plain_class yuv420_clip None YUV420P8
           yuv420_clip [] [true]); reflexivity.
Defined.

Lemma norm_clip_shift_chroma_witness :
  (norm_clip qhost shift_only (Some yuv_clip) = Raise (ValueError NeedFloatSampleType) /\
   spec_error_kind (ValueError NeedFloatSampleType) = Some ConfigurationError) /\
  (exists clip0 clip1,
     norm_clip qhost (without_shift shift_only) (Some yuvs_clip) = Ok (Some clip0) /\
     norm_clip qhost shift_only (Some yuvs_clip) = Ok (Some clip1) /\
     format clip1 = format clip0 /\
     (num_planes YUV444PS = 1 -> clip1 = clip0) /\
     (num_planes YUV444PS = 3 ->
        forall n y u v, planes (frame_at clip0 n) = [y; u; v] ->
          frame_at clip1 n
          = mkFrame (fformat (frame_at clip0 n))
                    [y; map (add_half qhost) u; map (add_half qhost) v])).
Proof.
  split.
  - destruct (norm_clip_shift_chroma qhost shift_only yuv_clip YUV444P8) as [H _];
      [cbn; lia | reflexivity | reflexivity | apply H; reflexivity].
  - destruct (norm_clip_shift_chroma qhost shift_only yuvs_clip YUV444PS) as [_ H];
      [cbn; lia | reflexivity | reflexivity | apply H; left; reflexivity].
Defined.

Lemma scenario_float_shift_witness :
  exists p1 p0 fmt32,
    snd (__init__ qhost
           (PyPlugin_class {| float_processing := FP_32; shift_chroma := true |} pass_process)
           yuv_clip None) = Ok p1 /\
    snd (__init__ qhost
           (PyPlugin_class {| float_processing := FP_32; shift_chroma := false |} pass_process)
           yuv_clip None) = Ok p0 /\
    sample_type fmt32 = FLOAT /\
    bits_per_sample fmt32 = 32%Z /\
    color_family fmt32 = YUV /\
    subsampling_w fmt32 = 0%Z /\
    subsampling_h fmt32 = 0%Z /\
    fmt32 = replace YUV444P8 FLOAT 32 /\
    format (ref_clip p1) = Some fmt32 /\
    format (ref_clip p0) = Some fmt32 /\
    forall n, n < 10 ->
      exists y u v,
        frame_at (ref_clip p0) n = mkFrame fmt32 [y; u; v] /\
        frame_at (ref_clip p1) n
        = mkFrame fmt32
                  [y; map (fun x => Qplus x (1 # 2)) u;
                      map (fun x => Qplus x (1 # 2)) v].
Proof.
  apply (scenario_float_shift qhost yuv_clip YUV444P8 pass_process);
    [reflexivity | still_wf YUV444P8 | discriminate | reflexivity..].
Defined.

Lemma single_plane_forces_output_per_plane_witness :
  let p := constructed merged_class gray_clip None in
  (forall fmt, format gray_clip = Some fmt -> num_planes fmt = 1 ->
     output_per_plane p = true /\
     exists p', snd (__init__ qhost (with_output_per_plane merged_class false) gray_clip None)
                = Ok p' /\ output_per_plane p' = true) /\
  select_strategy p <> Ok FrameGray /\
  (output_per_plane p = false ->
     exists ref_fmt, format (ref_clip p) = Some ref_fmt /\ num_planes ref_fmt <> 1).
Proof.
  apply (single_plane_forces_output_per_plane qhost merged_class gray_clip None
           (class_left merged_class gray_clip None)).
  reflexivity.
Defined.

Lemma pass_process_returns : returns_buffer (@pass_process Q).
Proof. intros f src dst plane n. exists f. repeat split. Defined.

Lemma scenario_three_streams_witness :
  let p := constructed class_B yuv_clip (Some [yuv_clip; gray_clip]) in
  exists out b1 b2 fout,
    invoke qhost p = Ok out /\
    clips p = [b1; b2] /\
    out 5 =
      ([EGetFrames [ref_clip p; b1; b2] 5; EStack 1; EStack 2]
         ++ imap (fun pl d =>
                    EProcess (SList [VPlane d; stacked (frame_at b1 5);
                                     stacked (frame_at b2 5)])
                             (DPlane pl) (Some pl) 5)
                 (planes (frame_at (ref_clip p) 5)),
       Ok fout).
Proof.
  apply (scenario_three_streams qhost class_B yuv_clip yuv_clip gray_clip
           (class_left class_B yuv_clip (Some [yuv_clip; gray_clip])));
    [reflexivity | reflexivity | reflexivity
    | still_wf YUV444P8 | still_wf YUV444P8 | still_wf GRAY8
    | cbn; lia | cbn; lia | cbn; lia | exact pass_process_returns].
Defined.

(** C4, as stated, fails: with merged output and both streams flagged
    per-plane, [process] is handed both streams stacked, which the
    selection of lines 204-207 yields for no plane. *)
Lemma merged_output_stacks_per_plane_streams :
  let p := constructed merged_class yuv_clip (Some [yuv_clip]) in
  let frames := [frame_at yuv_clip 0; frame_at yuv_clip 0] in
  let src := [VStack [[1%Q]; [2%Q]; [3%Q]]; VStack [[1%Q]; [2%Q]; [3%Q]]] in
  __init__ qhost merged_class yuv_clip (Some [yuv_clip])
    = (merged_class, Ok p) /\
  _input_per_plane p = [true; true] /\
  fst (invoked p 0)
    = [EGetFrames [yuv_clip; yuv_clip] 0; EStack 0; EStack 1;
       EProcess (SList src) DFrame None 0] /\
  forall pre pl, inputs_data p pre pl 0 frames <> Ok src.
Proof.
  cbv zeta. split; [reflexivity|]. split; [reflexivity|]. split; [reflexivity|].
  intros pre pl H. cbn [inputs_data] in H.
  apply bind_ok in H as (flag & Hflag & H). injection Hflag as <-.
  apply bind_ok in H as (v & Hv & H). apply bind_ok in Hv as (d & _ & Hv).
  injection Hv as <-. apply bind_ok in H as (vs & _ & H). discriminate H.
Qed.

Lemma merged_output_single_call_witness :
  let p := constructed merged_class yuv_clip (Some [gray_clip]) in
  exists out,
    invoke qhost p = Ok out /\
    fst (out 0) =
      match clips p with
      | [] =>
        [EGetFrame (ref_clip p) 0;
         EProcess (SOne (VFrame (frame_at (ref_clip p) 0))) DFrame None 0]
      | _ :: _ =>
        [EGetFrames (streams p) 0]
          ++ map EStack (seq 0 (length (streams p)))
          ++ [EProcess (SList (map (fun clip => stacked (frame_at clip 0)) (streams p)))
                       DFrame None 0]
      end.
Proof.
  apply (merged_output_single_call qhost merged_class yuv_clip (Some [gray_clip])
           (class_left merged_class yuv_clip (Some [gray_clip])));
    [reflexivity | reflexivity | still_wf YUV444P8
    | repeat constructor; still_wf GRAY8 | cbn; lia | repeat constructor; cbn; lia].
Defined.

(** C5, as stated, fails, at two sessions.  A session over a three-plane
    reference stream and a one-plane auxiliary stream, both per-plane, is
    constructed, and evaluating frame 0 with the copying method raises
    [IndexError] at plane 1 of the auxiliary frame.  A session with
    [shift_chroma=True] over a three-plane 32-bit float reference stream
    is constructed, the output format and the format of its reference
    stream are the same, so that reconciliation changes nothing, and
    frame 0 of the output of the copying method has 0.5 added to planes 1
    and 2: it is not frame 0 of the reference stream passed. *)
Lemma copy_round_trip_fails :
  (let p := constructed copy_class yuv_clip (Some [gray_clip]) in
   __init__ qhost copy_class yuv_clip (Some [gray_clip]) = (copy_class, Ok p) /\
   select_strategy p = Ok PlanesClips /\
   snd (invoked p 0) = Raise IndexError) /\
  (let c := PyPlugin_class shift_only copy_process in
   let p := constructed c yuvs_clip None in
   __init__ qhost c yuvs_clip None = (c, Ok p) /\
   select_strategy p = Ok PlanesRef /\
   format yuvs_clip = Some YUV444PS /\
   out_format p = YUV444PS /\
   format (ref_clip p) = Some YUV444PS /\
   frame_at yuvs_clip 0 = mkFrame YUV444PS [[1 # 1]; [0 # 1]; [0 # 1]]%Q /\
   snd (invoked p 0) = Ok (mkFrame YUV444PS [[1 # 1]; [1 # 2]; [1 # 2]]%Q) /\
   snd (invoked p 0) <> Ok (frame_at yuvs_clip 0)).
Proof.
  cbv zeta. split; [repeat split|].
  do 7 (split; [reflexivity|]). discriminate.
Qed.

Lemma copy_round_trip_witness :
  let p := constructed copy_flags_class yuv_clip (Some [yuv_clip; gray_clip]) in
  exists out ref_fmt,
    invoke qhost p = Ok out /\
    format (ref_clip p) = Some ref_fmt /\
    norm_node qhost no_options yuv_clip = Ok (ref_clip p) /\
    format yuv_clip = Some (out_format p) /\
    snd (out 3) = Ok (reconciled qhost p ref_fmt (frame_at (ref_clip p) 3)) /\
    (format_id (out_format p) = format_id ref_fmt ->
     snd (out 3) = Ok (frame_at (ref_clip p) 3)) /\
    (ref_clip p = yuv_clip -> snd (out 3) = Ok (frame_at yuv_clip 3)) /\
    (FP_False = FP_False -> false = false ->
     ref_clip p = yuv_clip /\ snd (out 3) = Ok (frame_at yuv_clip 3)).
Proof.
  apply (copy_round_trip qhost copy_flags_class yuv_clip (Some [yuv_clip; gray_clip])
           (class_left copy_flags_class yuv_clip (Some [yuv_clip; gray_clip]))).
  - reflexivity.
  - reflexivity.
  - still_wf YUV444P8.
  - repeat constructor; [still_wf YUV444P8 | still_wf GRAY8].
  - cbn; lia.
  - repeat constructor; cbn; lia.
  - intros _ [|[|i]] clip fmt Hclip Hflag Hfmt;
      vm_compute in Hclip, Hflag; try discriminate.
    injection Hclip as <-. vm_compute in Hfmt. injection Hfmt as <-.
    vm_compute. lia.
Defined.

(** ** Further properties of the format policy *)

Section NormExtras.
Context {sample : Type} (host : Host sample).
Implicit Types (clip : VideoNode sample) (o : PyPluginOptions).

Lemma norm_node_unfold o clip fmt :
  num_frames clip <> 0 -> format clip = Some fmt ->
  norm_node host o clip =
    let clip1 :=
      if truthy (float_processing o) then
        if negb (is_float fmt) || negb (bits_per_sample fmt =? bps_of (float_processing o))%Z
        then resize host Point (replace fmt FLOAT (bps_of (float_processing o))) clip
        else clip
      else clip in
    if shift_chroma o then
      if negb (is_float fmt) && negb (truthy (float_processing o)) then
        Raise (ValueError NeedFloatSampleType)
      else if num_planes fmt =? 3 then std_Expr host [""; "x 0.5 +"]%string clip1
      else Ok clip1
    else Ok clip1.
Proof.
  intros Hlen Hfmt. unfold norm_node. apply Nat.eqb_neq in Hlen.
  by rewrite Hlen, Hfmt.
Qed.

(** X1: with both options unset, [norm_clip] hands back the very stream
    it was given, provided the stream has a fixed format or no frame; a
    stream of variable format with at least one frame fails the assertion
    of line 42 under every setting of the options. *)
Theorem norm_clip_default_identity o clip :
  (float_processing o = FP_False -> shift_chroma o = false ->
   num_frames clip = 0 \/ is_Some (format clip) ->
   norm_clip host o (Some clip) = Ok (Some clip)) /\
  (num_frames clip <> 0 -> format clip = None ->
   norm_clip host o (Some clip) = Raise AssertionError).
Proof.
  split.
  - intros Hfp Hshift Hcase. unfold norm_clip, norm_node.
    destruct (num_frames clip =? 0) eqn:Hlen; [done|].
    destruct Hcase as [Hzero|[fmt Hfmt]]; [by rewrite Hzero in Hlen|].
    by rewrite Hfmt, Hfp, Hshift.
  - intros Hlen Hfmt. unfold norm_clip, norm_node.
    apply Nat.eqb_neq in Hlen. by rewrite Hlen, Hfmt.
Qed.

Lemma norm_clip_float_depth o clip fmt :
  truthy (float_processing o) = true ->
  num_frames clip <> 0 -> format clip = Some fmt ->
  exists clip' fmt',
    norm_clip host o (Some clip) = Ok (Some clip') /\
    format clip' = Some fmt' /\
    sample_type fmt' = FLOAT /\
    bits_per_sample fmt' = bps_of (float_processing o) /\
    color_family fmt' = color_family fmt /\
    subsampling_w fmt' = subsampling_w fmt /\
    subsampling_h fmt' = subsampling_h fmt /\
    num_frames clip' = num_frames clip.
Proof.
  intros Hfp Hlen Hfmt. unfold norm_clip.
  rewrite (norm_node_unfold o clip fmt Hlen Hfmt). cbv zeta. rewrite Hfp.
  rewrite andb_false_r.
  set (clip1 := if _ || _ then _ else clip).
  assert (H1 : exists fmt', format clip1 = Some fmt' /\
            sample_type fmt' = FLOAT /\
            bits_per_sample fmt' = bps_of (float_processing o) /\
            color_family fmt' = color_family fmt /\
            subsampling_w fmt' = subsampling_w fmt /\
            subsampling_h fmt' = subsampling_h fmt /\
            num_frames clip1 = num_frames clip).
  { subst clip1. destruct (negb (is_float fmt)) eqn:Hfl; cbn [orb].
    - eexists. split; [reflexivity|]. done.
    - destruct (bits_per_sample fmt =? _)%Z eqn:Hb; cbn [negb].
      + exists fmt. apply Z.eqb_eq in Hb. unfold is_float in Hfl.
        destruct (sample_type fmt); done.
      + eexists. split; [reflexivity|]. done. }
  destruct H1 as (fmt' & Hf' & H2 & H3 & H4 & H5 & H6 & H7).
  destruct (shift_chroma o); [destruct (num_planes fmt =? 3)|].
  - destruct (std_Expr_shift host clip1) as (clip2 & -> & Hf2 & Hn2 & _).
    exists clip2, fmt'. cbn [bind]. rewrite Hf2, Hn2. repeat split; done.
  - exists clip1, fmt'. repeat split; done.
  - exists clip1, fmt'. repeat split; done.
Qed.

(** X2: with [float_processing] set to [True], 32 or 16, [norm_clip]
    never raises on a stream of fixed format with at least one frame, and
    the stream it returns has sample type [FLOAT] and 32, 32 and 16 bits
    per sample respectively, with the colour family, the subsampling and
    the length of the input. *)
Theorem norm_clip_float_format o clip fmt (bits : Z) :
  (float_processing o = FP_True /\ bits = 32%Z) \/
  (float_processing o = FP_32 /\ bits = 32%Z) \/
  (float_processing o = FP_16 /\ bits = 16%Z) ->
  num_frames clip <> 0 -> format clip = Some fmt ->
  exists clip' fmt',
    norm_clip host o (Some clip) = Ok (Some clip') /\
    format clip' = Some fmt' /\
    sample_type fmt' = FLOAT /\
    bits_per_sample fmt' = bits /\
    color_family fmt' = color_family fmt /\
    subsampling_w fmt' = subsampling_w fmt /\
    subsampling_h fmt' = subsampling_h fmt /\
    num_frames clip' = num_frames clip.
Proof.
  intros Hfp Hlen Hfmt.
  assert (Htruthy : truthy (float_processing o) = true)
    by (destruct Hfp as [[-> _]|[[-> _]|[-> _]]]; reflexivity).
  destruct (norm_clip_float_depth o clip fmt Htruthy Hlen Hfmt)
    as (clip' & fmt' & Hnorm & Hf & Hst & Hbits & Hrest).
  exists clip', fmt'. split; [done|]. split; [done|]. split; [done|].
  split; [|done]. rewrite Hbits.
  destruct Hfp as [[-> ->]|[[-> ->]|[-> ->]]]; reflexivity.
Qed.

(** X3: without [shift_chroma], normalizing a normalized stream changes
    nothing: [norm_clip] returns its own result unchanged. *)
Theorem norm_clip_idempotent o clip clip' :
  shift_chroma o = false ->
  norm_clip host o (Some clip) = Ok (Some clip') ->
  norm_clip host o (Some clip') = Ok (Some clip').
Proof.
  intros Hshift H. unfold norm_clip in *.
  apply bind_ok in H as (c1 & H & Hc1). injection Hc1 as ->.
  assert (Hgoal : norm_node host o clip' = Ok clip'); [|by rewrite Hgoal].
  destruct (num_frames clip =? 0) eqn:Hlen.
  { unfold norm_node in H. rewrite Hlen in H. injection H as <-.
    unfold norm_node. by rewrite Hlen. }
  apply Nat.eqb_neq in Hlen.
  destruct (format clip) as [fmt|] eqn:Hfmt.
  2: { unfold norm_node in H. apply Nat.eqb_neq in Hlen. by rewrite Hlen, Hfmt in H. }
  rewrite (norm_node_unfold o clip fmt Hlen Hfmt) in H. cbv zeta in H.
  rewrite Hshift in H. injection H as <-.
  destruct (truthy (float_processing o)) eqn:Hfp.
  2: { rewrite (norm_node_unfold o clip fmt Hlen Hfmt). cbv zeta.
       by rewrite Hfp, Hshift. }
  destruct (negb (is_float fmt) || negb (bits_per_sample fmt =? _)%Z) eqn:Hconv.
  - rewrite (norm_node_unfold o _ (replace fmt FLOAT (bps_of (float_processing o))));
      [|done|done].
    cbv zeta. rewrite Hfp, Hshift. cbn [is_float replace sample_type bits_per_sample negb orb].
    by rewrite Z.eqb_refl.
  - rewrite (norm_node_unfold o clip fmt Hlen Hfmt). cbv zeta.
    by rewrite Hfp, Hconv, Hshift.
Qed.

(** X4: with [shift_chroma], normalizing is not idempotent: applied to
    its own result for a 3-plane stream, [norm_clip] succeeds again and
    adds 0.5 to the samples of planes 1 and 2 once more. *)
Theorem norm_clip_shifts_again o clip fmt clip1 :
  shift_chroma o = true ->
  num_frames clip <> 0 -> format clip = Some fmt -> num_planes fmt = 3 ->
  norm_clip host o (Some clip) = Ok (Some clip1) ->
  exists clip2,
    norm_clip host o (Some clip1) = Ok (Some clip2) /\
    forall n, planes (frame_at clip2 n)
              = imap (shift_plane host) (planes (frame_at clip1 n)).
Proof.
  intros Hshift Hlen Hfmt Hnp H. unfold norm_clip in *.
  apply bind_ok in H as (c1 & H & Hc1). injection Hc1 as ->.
  rewrite (norm_node_unfold o clip fmt Hlen Hfmt) in H. cbv zeta in H.
  rewrite Hshift, Hnp in H. cbn [Nat.eqb] in H.
  destruct (negb (is_float fmt) && negb (truthy (float_processing o))) eqn:Hreq;
    [done|].
  set (clip0 := if truthy (float_processing o) then _ else clip) in H.
  destruct (std_Expr_shift host clip0) as (c1' & Hc1' & Hf1 & Hn1 & _).
  rewrite Hc1' in H. injection H as ->.
  (* the format after the first pass is float, of the requested depth *)
  assert (H0 : exists fmt0, format clip0 = Some fmt0 /\ num_planes fmt0 = 3 /\
                 is_float fmt0 = true /\
                 (truthy (float_processing o) = true ->
                  bits_per_sample fmt0 = bps_of (float_processing o)) /\
                 num_frames clip0 = num_frames clip).
  { subst clip0. destruct (truthy (float_processing o)) eqn:Hfp.
    - destruct (negb (is_float fmt)) eqn:Hfl; cbn [orb].
      + eexists. split; [reflexivity|]. done.
      + destruct (bits_per_sample fmt =? _)%Z eqn:Hb; cbn [negb].
        * exists fmt. apply Z.eqb_eq in Hb. apply negb_false_iff in Hfl. done.
        * eexists. split; [reflexivity|]. done.
    - exists fmt. rewrite andb_true_r in Hreq. apply negb_false_iff in Hreq. done. }
  destruct H0 as (fmt0 & Hf0 & Hnp0 & Hfl0 & Hb0 & Hn0).
  rewrite (norm_node_unfold o clip1 fmt0); [|congruence|congruence].
  cbv zeta. rewrite Hshift, Hnp0, Hfl0. cbn [negb andb orb Nat.eqb].
  assert (Hsame : (if truthy (float_processing o)
                   then if negb (bits_per_sample fmt0 =? bps_of (float_processing o))%Z
                        then resize host Point
                               (replace fmt0 FLOAT (bps_of (float_processing o))) clip1
                        else clip1
                   else clip1) = clip1).
  { destruct (truthy (float_processing o)); [|done].
    by rewrite (Hb0 eq_refl), Z.eqb_refl. }
  rewrite Hsame.
  destruct (std_Expr_shift host clip1) as (clip2 & -> & _ & _ & Hfr).
  exists clip2. split; [done|]. intros n. apply Hfr.
Qed.
End NormExtras.

(** ** Further properties of the constructor *)

Section InitExtras.
Context {sample : Type} (host : Host sample).
Implicit Types (c : PyPluginClass sample) (p : PyPlugin sample).
Implicit Types (ref clip : VideoNode sample).

(** The stage at which [__init__] stops. *)
Lemma init_cases c ref aux :
  (format ref = None /\ __init__ host c ref aux = (c, Raise AssertionError)) \/
  (exists ref_fmt, format ref = Some ref_fmt /\
     ((exists e, norm_node host (options c) ref = Raise e /\
                 __init__ host c ref aux = (c, Raise e)) \/
      (exists ref', norm_node host (options c) ref = Ok ref' /\
         ((exists e, mapM (norm_node host (options c)) (clips_arg aux) = Raise e /\
                     __init__ host c ref aux = (c, Raise e)) \/
          (exists clips', mapM (norm_node host (options c)) (clips_arg aux) = Ok clips' /\
             ((exists e, normalize_input_per_plane (input_per_plane c) (1 + length clips')
                         = Raise e /\
                         __init__ host c ref aux = (c, Raise e)) \/
              (exists ipp, normalize_input_per_plane (input_per_plane c) (1 + length clips')
                           = Ok ipp /\
                 __init__ host c ref aux
                 = (class_after c ipp,
                    _ <- check_clip_count (1 + length clips') (min_clips c) (max_clips c) ;;
                    _ <- check_output_subsampling
                           (effective_output_per_plane c ref_fmt) ref_fmt ;;
                    _ <- check_input_subsampling (-1) (ref' :: clips') ipp ;;
                    Ok (mkPlugin (class_after c ipp) ref_fmt ref' clips' ipp
                          (effective_output_per_plane c ref_fmt)
                          (map single_plane (ref' :: clips'))))))))))).
Proof.
  assert (Hclips : (match aux with
                    | Some l => mapM (norm_node host (options c)) l
                    | None => Ok []
                    end) = mapM (norm_node host (options c)) (clips_arg aux))
    by (by destruct aux).
  destruct (format ref) as [ref_fmt|] eqn:Hfmt.
  2: { left. split; [done|]. unfold __init__. by rewrite Hfmt. }
  right. exists ref_fmt. split; [done|].
  destruct (norm_node host (options c) ref) as [ref'|e] eqn:Href.
  2: { left. exists e. split; [done|]. unfold __init__. by rewrite Hfmt, Href. }
  right. exists ref'. split; [done|].
  destruct (mapM (norm_node host (options c)) (clips_arg aux)) as [clips'|e] eqn:Hcl.
  2: { left. exists e. split; [done|]. unfold __init__.
       rewrite Hfmt, Href, Hclips. done. }
  right. exists clips'. split; [done|].
  destruct (normalize_input_per_plane (input_per_plane c) (1 + length clips'))
    as [ipp|e] eqn:Hipp.
  2: { left. exists e. split; [done|]. unfold __init__.
       rewrite Hfmt, Href, Hclips. cbn [bind assert_some]. by rewrite Hipp. }
  right. exists ipp. split; [done|]. by apply init_ok_intro.
Qed.

Lemma norm_node_raise o clip e :
  norm_node host o clip = Raise e ->
  e = AssertionError \/ e = ValueError NeedFloatSampleType.
Proof.
  unfold norm_node. destruct (num_frames clip =? 0); [done|].
  destruct (format clip) as [fmt|]; cbn [bind assert_some]; [|intros [= <-]; by left].
  destruct (shift_chroma o); [|done].
  destruct (_ && _); [intros [= <-]; by right|].
  destruct (num_planes fmt =? 3); [|done].
  match goal with
  | |- std_Expr host _ ?clip1 = _ -> _ =>
    destruct (std_Expr_shift host clip1) as (clip2 & -> & _)
  end.
  done.
Qed.

Lemma mapM_raise {A B} (f : A -> result B) (l : list A) e :
  mapM f l = Raise e -> exists a, a ∈ l /\ f a = Raise e.
Proof.
  induction l as [|a l IH]; [done|]. simpl.
  destruct (f a) as [b|e'] eqn:Hfa; cbn [bind].
  - destruct (mapM f l) as [bs|e'] eqn:Hl; cbn [bind]; [done|].
    intros [= <-]. destruct (IH eq_refl) as (a' & Ha' & Hf). exists a'. split; [by right|done].
  - intros [= <-]. exists a. split; [by left|done].
Qed.

Lemma normalize_raise declared n e :
  normalize_input_per_plane declared n = Raise e ->
  e = IndexError /\ declared = IppList [].
Proof.
  unfold normalize_input_per_plane.
  destruct (last (declared_list declared)) as [y|] eqn:Hl.
  { by rewrite (append_last_some _ _ y Hl). }
  apply last_None in Hl. destruct declared as [b|l]; [done|]. simpl in Hl. subst l.
  simpl. destruct (n - 0); [done|]. simpl. by intros [= <-].
Qed.

Lemma check_clip_count_error n lo hi e :
  check_clip_count n lo hi = Raise e -> exists lo' hi', e = ValueError (ClipCount lo' hi').
Proof. unfold check_clip_count. destruct (_ || _); [|done]. intros [= <-]. eauto. Qed.

Lemma check_output_error opp fmt e :
  check_output_subsampling opp fmt = Raise e -> e = ValueError OutputSubsampled.
Proof. unfold check_output_subsampling. destruct (_ && _); [|done]. by intros [= <-]. Qed.

(** What a passed check of lines 175-181 says of the streams it reached. *)
Lemma check_input_ok idx (streams : list (VideoNode sample)) ipps :
  check_input_subsampling idx streams ipps = Ok tt ->
  forall j clip (flag : bool), streams !! j = Some clip -> ipps !! j = Some flag ->
    exists fmt, format clip = Some fmt /\ (flag = false -> subsampled fmt = false).
Proof.
  revert idx ipps. induction streams as [|clip0 streams IH]; intros idx ipps H j clip flag Hj Hf;
    [done|].
  destruct ipps as [|flag0 ipps]; [done|]. cbn [check_input_subsampling] in H.
  destruct (format clip0) as [fmt0|] eqn:Hfmt0; [|done]. cbn [bind assert_some] in H.
  destruct (negb flag0 && subsampled fmt0) eqn:Hcond; [done|].
  destruct j as [|j]; simpl in Hj, Hf.
  - injection Hj as <-. injection Hf as <-. exists fmt0. split; [done|].
    intros ->. by destruct (subsampled fmt0).
  - by eapply IH.
Qed.

(** What a raised check of lines 175-181 says of the stream it names. *)
Lemma check_input_raise idx (streams : list (VideoNode sample)) ipps e :
  check_input_subsampling idx streams ipps = Raise e ->
  e = AssertionError \/
  exists j clip fmt,
    streams !! j = Some clip /\ ipps !! j = Some false /\
    format clip = Some fmt /\ subsampled fmt = true /\
    e = ValueError (InputSubsampled
          (if (idx + Z.of_nat j =? -1)%Z then RefClip
           else ClipIndex (Z.to_nat (idx + Z.of_nat j)))).
Proof.
  revert idx ipps. induction streams as [|clip0 streams IH]; intros idx ipps H; [done|].
  destruct ipps as [|flag0 ipps]; [done|]. cbn [check_input_subsampling] in H.
  destruct (format clip0) as [fmt0|] eqn:Hfmt0; cbn [bind assert_some] in H;
    [|left; congruence].
  destruct (negb flag0 && subsampled fmt0) eqn:Hcond.
  - right. exists 0, clip0, fmt0. apply andb_true_iff in Hcond as [Hflag Hss].
    apply negb_true_iff in Hflag. subst flag0. rewrite Z.add_0_r.
    repeat split; try done. congruence.
  - destruct (IH _ _ H) as [->|(j & clip & fmt & Hj & Hf & Hfmt & Hss & ->)]; [by left|].
    right. exists (S j), clip, fmt. repeat split; try done.
    by replace (idx + Z.of_nat (S j))%Z with (idx + 1 + Z.of_nat j)%Z by lia.
Qed.

(** A stream as passed and its normalized stream at the same index. *)
Lemma normalized_lookup o ref ref' (l : list (VideoNode sample)) clips' j clip' :
  norm_node host o ref = Ok ref' ->
  mapM (norm_node host o) l = Ok clips' ->
  (ref' :: clips') !! j = Some clip' ->
  exists clip, (ref :: l) !! j = Some clip /\ norm_node host o clip = Ok clip'.
Proof.
  intros Href Hcl Hj. destruct j as [|j]; simpl in *.
  - injection Hj as <-. eauto.
  - apply mapM_Forall2 in Hcl.
    destruct (Forall2_lookup_r _ _ _ _ _ Hcl Hj) as (clip & Hclip & Hnorm). eauto.
Qed.

Lemma original_lookup o ref ref' (l : list (VideoNode sample)) clips' j clip :
  norm_node host o ref = Ok ref' ->
  mapM (norm_node host o) l = Ok clips' ->
  (ref :: l) !! j = Some clip ->
  exists clip', (ref' :: clips') !! j = Some clip' /\ norm_node host o clip = Ok clip'.
Proof.
  intros Href Hcl Hj. destruct j as [|j]; simpl in *.
  - injection Hj as <-. eauto.
  - apply mapM_Forall2 in Hcl.
    destruct (Forall2_lookup_l _ _ _ _ _ Hcl Hj) as (clip' & Hclip & Hnorm). eauto.
Qed.
End InitExtras.

Section InitExtraClaims.
Context {sample : Type} (host : Host sample).
Implicit Types (c : PyPluginClass sample) (p : PyPlugin sample).
Implicit Types (ref clip : VideoNode sample).

Lemma norm_node_format_back o clip clip' fmt' :
  norm_node host o clip = Ok clip' -> format clip' = Some fmt' ->
  exists fmt, format clip = Some fmt /\
              color_family fmt' = color_family fmt /\
              subsampled fmt' = subsampled fmt.
Proof.
  intros H Hf'. destruct (format clip) as [fmt|] eqn:Hfmt.
  - destruct (norm_node_ok host _ _ _ H) as (_ & Hf & _).
    destruct (Hf fmt Hfmt) as (fmt0 & Hf0 & Hcf & Hss).
    exists fmt. rewrite Hf' in Hf0. injection Hf0 as <-. done.
  - unfold norm_node in H. rewrite Hfmt in H.
    destruct (num_frames clip =? 0); [|done]. injection H as <-. congruence.
Qed.

Lemma norm_node_single o clip clip' :
  norm_node host o clip = Ok clip' -> single_plane clip' = single_plane clip.
Proof.
  intros H. unfold single_plane. destruct (format clip') as [fmt'|] eqn:Hf'.
  - destruct (norm_node_format_back _ _ _ _ H Hf') as (fmt & -> & Hcf & _).
    unfold num_planes. by rewrite Hcf.
  - destruct (format clip) as [fmt|] eqn:Hfmt; [|done].
    destruct (norm_node_ok host _ _ _ H) as (_ & Hf & _).
    destruct (Hf fmt Hfmt) as (fmt0 & Hf0 & _). congruence.
Qed.

(** X5: in a constructed session every stream, as it was passed, has a
    fixed format, and a stream whose flag is [False] is not subsampled. *)
Theorem constructed_streams_checked c ref aux c' p :
  __init__ host c ref aux = (c', Ok p) ->
  forall j clip, (ref :: clips_arg aux) !! j = Some clip ->
    exists fmt, format clip = Some fmt /\
      (_input_per_plane p !! j = Some false -> subsampled fmt = false).
Proof.
  intros H j clip Hj. pose proof H as Hinit.
  apply init_ok_inv in H
    as (ref_fmt & ref' & clips' & ipp & Hfmt & Href & Hcl & Hipp & _ & _ & Hin & _ & ->).
  cbn [_input_per_plane].
  destruct (original_lookup host _ _ _ _ _ _ _ Href Hcl Hj) as (clip' & Hj' & Hnorm).
  destruct (lookup_lt_is_Some_2 ipp j) as [flag Hflag].
  { apply normalize_ok in Hipp as (y & _ & ->); [|lia].
    apply lookup_lt_Some in Hj'. simpl in Hj'.
    rewrite length_app, length_replicate. lia. }
  destruct (check_input_ok _ _ _ Hin j clip' flag Hj' Hflag) as (fmt' & Hf' & Hss').
  destruct (norm_node_format_back _ _ _ _ Hnorm Hf') as (fmt & Hf & _ & Hss).
  exists fmt. split; [done|]. rewrite Hflag. intros [= ->]. rewrite <- Hss. by apply Hss'.
Qed.

(** X6: the session's [output_per_plane] is the declared value, or [True]
    for a one-plane reference format; a constructed session with merged
    output has a reference format that is not subsampled. *)
Theorem output_per_plane_of_session c ref aux c' p :
  __init__ host c ref aux = (c', Ok p) ->
  exists ref_fmt,
    format ref = Some ref_fmt /\ out_format p = ref_fmt /\
    output_per_plane p = cls_output_per_plane c || (num_planes ref_fmt =? 1) /\
    (output_per_plane p = false -> subsampled ref_fmt = false).
Proof.
  intros H. apply init_ok_inv in H
    as (ref_fmt & ref' & clips' & ipp & Hfmt & _ & _ & _ & _ & Hout & _ & _ & ->).
  exists ref_fmt. cbn [output_per_plane out_format]. unfold effective_output_per_plane in *.
  split; [done|]. split; [done|]. split.
  - destruct (num_planes ref_fmt =? 1); [by rewrite orb_true_r | by rewrite orb_false_r].
  - intros Hopp. rewrite Hopp in Hout. unfold check_output_subsampling in Hout.
    by destruct (subsampled ref_fmt).
Qed.

(** X7: when construction raises the input-subsampling [ValueError], the
    stream the message names (['Ref Clip'], or ['Clip Index: i'] for the
    auxiliary stream [i]) is subsampled and its normalized flag is
    [False]. *)
Theorem input_subsampling_error_names_stream c ref aux t :
  snd (__init__ host c ref aux) = Raise (ValueError (InputSubsampled t)) ->
  exists j clip fmt ipp,
    t = match j with O => RefClip | S i => ClipIndex i end /\
    (ref :: clips_arg aux) !! j = Some clip /\
    format clip = Some fmt /\ subsampled fmt = true /\
    normalize_input_per_plane (input_per_plane c) (1 + length (clips_arg aux)) = Ok ipp /\
    ipp !! j = Some false.
Proof.
  intros H.
  destruct (init_cases host c ref aux) as [[_ E]|(ref_fmt & Hfmt & Hrest)].
  { rewrite E in H. discriminate. }
  destruct Hrest as [(e & He & E)|(ref' & Href & Hrest)].
  { rewrite E in H. cbn [snd] in H. injection H as ->. by destruct (norm_node_raise host _ _ _ He). }
  destruct Hrest as [(e & He & E)|(clips' & Hcl & Hrest)].
  { rewrite E in H. cbn [snd] in H. injection H as ->. apply mapM_raise in He as (a & _ & He).
    by destruct (norm_node_raise host _ _ _ He). }
  destruct Hrest as [(e & He & E)|(ipp & Hipp & E)].
  { rewrite E in H. cbn [snd] in H. injection H as ->. by destruct (normalize_raise _ _ _ He). }
  rewrite E in H. cbn [snd] in H. clear E.
  destruct (check_clip_count _ _ _) as [[]|e] eqn:Hcount; cbn [bind] in H.
  2: { injection H as ->. by destruct (check_clip_count_error _ _ _ _ Hcount) as (? & ? & ?). }
  destruct (check_output_subsampling _ _) as [[]|e] eqn:Hout; cbn [bind] in H.
  2: { injection H as ->. by pose proof (check_output_error _ _ _ Hout). }
  destruct (check_input_subsampling _ _ _) as [[]|e] eqn:Hin; cbn [bind] in H; [done|].
  injection H as ->.
  destruct (check_input_raise _ _ _ _ Hin)
    as [?|(j & clip' & fmt' & Hj' & Hflag & Hf' & Hss' & He)]; [done|].
  destruct (normalized_lookup host _ _ _ _ _ _ _ Href Hcl Hj') as (clip & Hj & Hnorm).
  destruct (norm_node_format_back _ _ _ _ Hnorm Hf') as (fmt & Hf & _ & Hss).
  exists j, clip, fmt, ipp. rewrite <- (mapM_length _ _ _ Hcl).
  repeat split; try done; [|congruence].
  injection He as ->. destruct j as [|i]; [done|].
  replace (-1 + Z.of_nat (S i))%Z with (Z.of_nat i) by lia.
  destruct (Z.eqb_spec (Z.of_nat i) (-1)); [lia|]. by rewrite Nat2Z.id.
Qed.

(** X8: [is_single_plane] has one entry per stream, and the entry of a
    stream says whether the stream, as it was passed, has a one-plane
    format: normalization does not change it. *)
Theorem is_single_plane_of_session c ref aux c' p :
  __init__ host c ref aux = (c', Ok p) ->
  is_single_plane p = map single_plane (ref :: clips_arg aux) /\
  length (is_single_plane p) = 1 + length (clips_arg aux).
Proof.
  intros H. apply init_ok_inv in H
    as (ref_fmt & ref' & clips' & ipp & _ & Href & Hcl & _ & _ & _ & _ & _ & ->).
  cbn [is_single_plane]. apply mapM_Forall2 in Hcl.
  assert (Hmap : map single_plane clips' = map single_plane (clips_arg aux)).
  { induction Hcl as [|a a' l l' Ha _ IH]; [done|]. simpl.
    by rewrite (norm_node_single _ _ _ Ha), IH. }
  split.
  - simpl. by rewrite (norm_node_single _ _ _ Href), Hmap.
  - simpl. by rewrite Hmap, length_map.
Qed.
End InitExtraClaims.

Section ClassExtras.
Context {sample : Type} (host : Host sample).
Implicit Types (c : PyPluginClass sample) (p : PyPlugin sample).
Implicit Types (ref clip : VideoNode sample).

Lemma class_after_fields c ipp :
  options (class_after c ipp) = options c /\
  cls_output_per_plane (class_after c ipp) = cls_output_per_plane c /\
  min_clips (class_after c ipp) = min_clips c /\
  max_clips (class_after c ipp) = max_clips c /\
  process (class_after c ipp) = process c.
Proof. unfold class_after. by destruct (input_per_plane c). Qed.

(** X9: whatever its outcome, construction leaves the class attributes
    other than [input_per_plane] as they were, a declared bool as it
    was, and a declared list with its entries kept and possibly more
    appended; after a successful construction from a declared list, the
    class holds the instance's flag vector. *)
Theorem class_after_construction c ref aux :
  let c' := fst (__init__ host c ref aux) in
  options c' = options c /\
  cls_output_per_plane c' = cls_output_per_plane c /\
  min_clips c' = min_clips c /\ max_clips c' = max_clips c /\
  process c' = process c /\
  (forall b, input_per_plane c = IppBool b -> c' = c) /\
  (forall l, input_per_plane c = IppList l ->
     exists l', input_per_plane c' = IppList l' /\ l `prefix_of` l') /\
  (forall l p, input_per_plane c = IppList l ->
     snd (__init__ host c ref aux) = Ok p ->
     input_per_plane c' = IppList (_input_per_plane p)).
Proof.
  assert (Hearly : forall e, __init__ host c ref aux = (c, Raise e) ->
    let c' := fst (__init__ host c ref aux) in
    options c' = options c /\ cls_output_per_plane c' = cls_output_per_plane c /\
    min_clips c' = min_clips c /\ max_clips c' = max_clips c /\
    process c' = process c /\
    (forall b, input_per_plane c = IppBool b -> c' = c) /\
    (forall l, input_per_plane c = IppList l ->
       exists l', input_per_plane c' = IppList l' /\ l `prefix_of` l') /\
    (forall l p, input_per_plane c = IppList l ->
       snd (__init__ host c ref aux) = Ok p ->
       input_per_plane c' = IppList (_input_per_plane p))).
  { intros e E. cbv zeta. rewrite E. cbn [fst snd]. repeat split; try done.
    intros l Hl. exists l. by rewrite Hl. }
  destruct (init_cases host c ref aux) as [[_ E]|(ref_fmt & Hfmt & Hrest)];
    [by apply (Hearly _ E)|].
  destruct Hrest as [(e & _ & E)|(ref' & Href & Hrest)]; [by apply (Hearly _ E)|].
  destruct Hrest as [(e & _ & E)|(clips' & Hcl & Hrest)]; [by apply (Hearly _ E)|].
  destruct Hrest as [(e & _ & E)|(ipp & Hipp & E)]; [by apply (Hearly _ E)|].
  clear Hearly. cbv zeta. rewrite E. cbn [fst snd].
  destruct (class_after_fields c ipp) as (H1 & H2 & H3 & H4 & H5).
  apply normalize_ok in Hipp as (y & _ & Hipp); [|lia].
  repeat split; try done.
  - intros b Hb. unfold class_after. by rewrite Hb.
  - intros l Hl. exists ipp. unfold class_after. rewrite Hl. split; [done|].
    rewrite Hipp, Hl. by eexists.
  - intros l p Hl Hp. unfold class_after. rewrite Hl. cbn [input_per_plane with_input_per_plane].
    destruct (check_clip_count _ _ _) as [[]|]; [|done]. cbn [bind] in Hp.
    destruct (check_output_subsampling _ _) as [[]|]; [|done]. cbn [bind] in Hp.
    destruct (check_input_subsampling _ _ _) as [[]|]; [|done]. cbn [bind] in Hp.
    by injection Hp as <-.
Qed.

(** X10: a second construction from the class a first one left behind,
    with no more auxiliary streams than the first, uses the flag vector
    of the first session as it is, and leaves the class unchanged: the
    flags of a class that declares a list never shrink back. *)
Theorem later_session_reuses_flags c ref aux c1 p1 l ref2 aux2 c2 p2 :
  input_per_plane c = IppList l ->
  __init__ host c ref aux = (c1, Ok p1) ->
  __init__ host c1 ref2 aux2 = (c2, Ok p2) ->
  length (clips_arg aux2) <= length (clips_arg aux) ->
  _input_per_plane p2 = _input_per_plane p1 /\ c2 = c1 /\
  1 + length (clips_arg aux) <= length (_input_per_plane p2).
Proof.
  intros Hl H1 H2 Hle.
  apply init_ok_inv in H1
    as (fmt1 & r1 & cs1 & ipp1 & _ & _ & Hcl1 & Hipp1 & _ & _ & _ & Hc1 & ->).
  apply init_ok_inv in H2
    as (fmt2 & r2 & cs2 & ipp2 & _ & _ & Hcl2 & Hipp2 & _ & _ & _ & Hc2 & ->).
  cbn [_input_per_plane]. apply mapM_length in Hcl1, Hcl2.
  assert (Hlen1 : 1 + length (clips_arg aux) <= length ipp1).
  { apply normalize_ok in Hipp1 as (y & _ & ->); [|lia].
    rewrite length_app, length_replicate. lia. }
  assert (Hc1' : input_per_plane c1 = IppList ipp1).
  { rewrite Hc1. unfold class_after. by rewrite Hl. }
  assert (Hsame : ipp2 = ipp1).
  { rewrite Hc1' in Hipp2. unfold normalize_input_per_plane in Hipp2.
    cbn [declared_list] in Hipp2.
    replace (1 + length cs2 - length ipp1) with 0 in Hipp2 by lia.
    cbn in Hipp2. congruence. }
  subst ipp2. split; [done|]. split; [|done].
  rewrite Hc2. unfold class_after at 1. rewrite Hc1'.
  unfold with_input_per_plane. rewrite <- Hc1'. by destruct c1.
Qed.

(** X11: construction raises nothing but [AssertionError], [IndexError]
    and the four [ValueError]s; [IndexError] only for a declared empty
    list, and the count error with the class's own [min_clips]. *)
Theorem construction_errors c ref aux e :
  snd (__init__ host c ref aux) = Raise e ->
  e = AssertionError \/
  (e = IndexError /\ input_per_plane c = IppList []) \/
  e = ValueError NeedFloatSampleType \/
  (exists hi, e = ValueError (ClipCount (min_clips c) hi)) \/
  e = ValueError OutputSubsampled \/
  (exists t, e = ValueError (InputSubsampled t)).
Proof.
  intros H.
  destruct (init_cases host c ref aux) as [[_ E]|(ref_fmt & Hfmt & Hrest)].
  { rewrite E in H. injection H as <-. by left. }
  destruct Hrest as [(e' & He & E)|(ref' & Href & Hrest)].
  { rewrite E in H. cbn [snd] in H. injection H as ->.
    destruct (norm_node_raise host _ _ _ He) as [->| ->]; auto. }
  destruct Hrest as [(e' & He & E)|(clips' & Hcl & Hrest)].
  { rewrite E in H. cbn [snd] in H. injection H as ->.
    apply mapM_raise in He as (a & _ & He).
    destruct (norm_node_raise host _ _ _ He) as [->| ->]; auto. }
  destruct Hrest as [(e' & He & E)|(ipp & Hipp & E)].
  { rewrite E in H. cbn [snd] in H. injection H as ->.
    destruct (normalize_raise _ _ _ He) as [-> ->]. auto. }
  rewrite E in H. cbn [snd] in H. clear E.
  unfold check_clip_count in H. destruct (_ || _); cbn [bind] in H.
  { injection H as <-. do 3 right. left. eauto. }
  destruct (check_output_subsampling _ _) as [[]|e'] eqn:Hout; cbn [bind] in H.
  2: { injection H as ->. rewrite (check_output_error _ _ _ Hout). auto 10. }
  destruct (check_input_subsampling _ _ _) as [[]|e'] eqn:Hin; cbn [bind] in H; [done|].
  injection H as ->.
  destruct (check_input_raise _ _ _ _ Hin) as [->|(j & ? & ? & _ & _ & _ & _ & ->)];
    [by left|]. do 5 right. eauto.
Qed.

(** X12: a class that declares [input_per_plane = []] cannot be
    constructed: once the streams are normalized, line 152 raises
    [IndexError] on the empty list, before any other check, and the class
    is left as it was. *)
Theorem empty_flags_raise c ref aux ref_fmt ref' clips' :
  input_per_plane c = IppList [] ->
  format ref = Some ref_fmt ->
  norm_node host (options c) ref = Ok ref' ->
  mapM (norm_node host (options c)) (clips_arg aux) = Ok clips' ->
  __init__ host c ref aux = (c, Raise IndexError).
Proof.
  intros Hl Hfmt Href Hcl.
  destruct (init_cases host c ref aux) as [[E _]|(fmt & Hf & Hrest)]; [congruence|].
  destruct Hrest as [(e & He & _)|(r & _ & Hrest)]; [congruence|].
  destruct Hrest as [(e & He & _)|(cs & Hcs & Hrest)]; [congruence|].
  rewrite Hcl in Hcs. injection Hcs as <-.
  destruct Hrest as [(e & He & E)|(ipp & Hipp & _)].
  - by destruct (normalize_raise _ _ _ He) as [-> _].
  - rewrite Hl in Hipp. discriminate.
Qed.

(** X13: the checks come in the order count, output, inputs: with the
    streams normalized and the flags declared, a stream count out of
    bounds raises the count error whatever the subsampling, and within
    bounds a declared merged output over a subsampled multi-plane
    reference raises the output error whatever the input flags. *)
Theorem check_precedence c ref aux ref_fmt ref' clips' ipp :
  format ref = Some ref_fmt ->
  norm_node host (options c) ref = Ok ref' ->
  mapM (norm_node host (options c)) (clips_arg aux) = Ok clips' ->
  normalize_input_per_plane (input_per_plane c) (1 + length clips') = Ok ipp ->
  let n := Z.of_nat (1 + length (clips_arg aux)) in
  ((n < min_clips c \/ (0 < max_clips c /\ max_clips c < n))%Z ->
   snd (__init__ host c ref aux)
   = Raise (ValueError (ClipCount (min_clips c)
              (if (max_clips c =? -1)%Z then None else Some (max_clips c))))) /\
  ((min_clips c <= n /\ (0 < max_clips c -> n <= max_clips c))%Z ->
   cls_output_per_plane c = false -> num_planes ref_fmt <> 1 ->
   subsampled ref_fmt = true ->
   snd (__init__ host c ref aux) = Raise (ValueError OutputSubsampled)).
Proof.
  intros Hfmt Href Hcl Hipp n.
  rewrite (init_ok_intro host c ref aux ref_fmt ref' clips' ipp Hfmt Href Hcl Hipp).
  cbn [snd]. subst n. rewrite <- (mapM_length _ _ _ Hcl). split.
  - intros Hout. by rewrite (check_clip_count_raise _ _ _ Hout).
  - intros Hin Hopp Hnp Hss. rewrite (check_clip_count_ok _ _ _ Hin). cbn [bind].
    unfold effective_output_per_plane, check_output_subsampling.
    apply Nat.eqb_neq in Hnp. by rewrite Hnp, Hopp, Hss.
Qed.
End ClassExtras.

(** ** Further properties of the dispatch *)

Section DispatchExtras.
Context {sample : Type} (host : Host sample).
Implicit Types (c : PyPluginClass sample) (p : PyPlugin sample).
Implicit Types (ref clip : VideoNode sample) (frame : VideoFrame sample).

(** The decorated stream, by the closure it wraps. *)
Lemma invoke_result p s ref_fmt :
  select_strategy p = Ok s -> format (ref_clip p) = Some ref_fmt ->
  exists out,
    invoke host p = Ok out /\
    forall n, out n = (fst (output p s n),
                       reconcile_result (reconciled host p ref_fmt) (snd (output p s n))).
Proof.
  intros Hs Hfmt. unfold invoke, invoke_body, ensure_output, reconciled.
  rewrite Hs, Hfmt. cbn [bind assert_some].
  destruct (format_id (out_format p) =? format_id ref_fmt)%Z; cbn [negb].
  - eexists. split; [done|]. intros n.
    destruct (output p s n) as [log [frame|e]]; done.
  - eexists. split; [done|]. intros n. cbv beta.
    destruct (output p s n) as [log [frame|e]]; [|done].
    unfold ebind, ret. cbn [fst snd reconcile_result]. by rewrite app_nil_r.
Qed.

Lemma map_seq_imap {A B} (g : nat -> A -> B) (d : A) (l : list A) :
  map (fun i => g i (default d (l !! i))) (seq 0 (length l)) = imap g l.
Proof.
  apply list_eq. intros i. rewrite list_lookup_fmap, list_lookup_imap.
  destruct (l !! i) as [x|] eqn:Hi.
  - rewrite lookup_seq_lt by (by eapply lookup_lt_Some). simpl. by rewrite Hi.
  - rewrite lookup_seq_ge by (by apply lookup_ge_None). done.
Qed.

(** The facts of a constructed session that the closures rest on. *)
Lemma session_setup c ref aux c' p n :
  __init__ host c ref aux = (c', Ok p) ->
  wf_clip ref -> Forall wf_clip (clips_arg aux) ->
  n < num_frames ref -> Forall (fun a => n < num_frames a) (clips_arg aux) ->
  session_inv p /\ fetchable p n /\ process (cls p) = process c /\
  exists ref_fmt, format (ref_clip p) = Some ref_fmt /\
                  wf_frame ref_fmt (frame_at (ref_clip p) n) /\
                  num_planes (out_format p) = num_planes ref_fmt.
Proof.
  intros Hinit Hwf Hwfs Hn Hns.
  destruct (init_session_inv host _ _ _ _ _ Hinit Hwf Hwfs) as (Hinv & Hcls & Hproc & _).
  pose proof (init_fetchable host _ _ _ _ _ n Hinit Hwf Hwfs Hn Hns) as Hfetch.
  split; [done|]. split; [done|]. split; [congruence|].
  destruct (session_stream_frame p n 0 (ref_clip p) Hinv Hfetch eq_refl)
    as (ref_fmt & Hfmt & Hwf0).
  exists ref_fmt. split; [done|]. split; [done|]. by eapply init_out_format.
Qed.

(** The planes' loop of a closure whose inputs do not depend on the buffer. *)
Lemma planes_loop p n (src : nat -> Src sample) frame0
    (body : VideoFrame sample -> nat -> Eval sample (VideoFrame sample)) :
  returns_buffer (process (cls p)) ->
  (forall fout pl, pl < length (planes frame0) -> same_shape frame0 fout ->
     body fout pl = call_process p fout (src pl) (DPlane pl) (Some pl) n) ->
  exists fout,
    for_each (seq 0 (length (planes frame0))) frame0 body
    = (map (fun pl => EProcess (src pl) (DPlane pl) (Some pl) n)
           (seq 0 (length (planes frame0))), Ok fout) /\
    same_shape frame0 fout.
Proof.
  intros Hret Hbody.
  apply (for_each_inv (same_shape frame0)
           (fun pl => EProcess (src pl) (DPlane pl) (Some pl) n)); [|done].
  intros fout pl Hpl Hshape. apply elem_of_seq in Hpl.
  rewrite Hbody by (done || lia).
  destruct (call_process_returns p fout (src pl) (DPlane pl) (Some pl) n Hret)
    as (fout' & Hcall & Hs1 & Hs2).
  exists fout'. split; [done|]. destruct Hshape. split; congruence.
Qed.

(** X14: with no auxiliary stream, per-plane output and a per-plane
    reference stream (the defaults), evaluating frame [n] fetches the
    reference frame once and calls [process] once per plane [pl], in
    ascending order, with the plane [pl] of the reference frame as input
    and the plane [pl] of the buffer as output. *)
Theorem planes_of_reference_dispatch c ref aux c' p n :
  __init__ host c ref aux = (c', Ok p) ->
  clips p = [] -> output_per_plane p = true -> _input_per_plane p !! 0 = Some true ->
  wf_clip ref -> n < num_frames ref ->
  returns_buffer (process c) ->
  exists out fout,
    invoke host p = Ok out /\
    out n =
      (EGetFrame (ref_clip p) n
         :: imap (fun pl d => EProcess (SOne (VPlane d)) (DPlane pl) (Some pl) n)
                 (planes (frame_at (ref_clip p) n)),
       Ok fout).
Proof.
  intros Hinit Hclips Hopp Hflag Hwf Hn Hret.
  assert (Haux : clips_arg aux = []).
  { apply init_ok_inv in Hinit as (? & ? & cs & ? & _ & _ & Hcl & _ & _ & _ & _ & _ & ->).
    cbn in Hclips. subst cs. apply mapM_length in Hcl. by destruct (clips_arg aux). }
  destruct (session_setup _ _ _ _ _ n Hinit Hwf) as (Hinv & Hfetch & Hproc & ref_fmt & Hfmt & Hwf0 & _);
    [rewrite ?Haux; (done || constructor)..|].
  rewrite <- Hproc in Hret.
  assert (Hsel : select_strategy p = Ok PlanesRef).
  { unfold select_strategy, index. by rewrite Hfmt, Hopp, Hclips, Hflag. }
  destruct (invoke_result p _ _ Hsel Hfmt) as (out & Hinvoke & Hout).
  set (f0 := frame_at (ref_clip p) n) in *. destruct Hwf0 as [Hff0 Hlen0].
  destruct (planes_loop p n (fun pl => SOne (VPlane (default [] (planes f0 !! pl)))) f0
              (fun fout pl =>
                 d <~ lift (getitem f0 pl) ;; _ <~ lift (getitem fout pl) ;;
                 call_process p fout (SOne (VPlane d)) (DPlane pl) (Some pl) n) Hret)
    as (fout & Hloop & _).
  { intros fout pl Hpl [_ Hlen].
    destruct (lookup_lt_is_Some_2 (planes f0) pl) as [d Hd]; [lia|].
    destruct (lookup_lt_is_Some_2 (planes fout) pl) as [d' Hd']; [lia|].
    unfold getitem, index. rewrite Hd, Hd'. cbn [ebind lift fst snd app default from_option id].
    by destruct (call_process p fout _ _ _ _). }
  exists out, (reconciled host p ref_fmt fout). split; [done|].
  rewrite Hout. cbn [output]. unfold output_planes_ref.
  rewrite get_frame_ok by (unfold fetchable in Hfetch; by inversion Hfetch).
  fold f0. cbn [ebind fst snd copy]. unfold copy. rewrite Hff0, <- Hlen0, Hloop.
  cbn [fst snd app reconcile_result]. do 2 f_equal.
  apply (map_seq_imap (fun pl d => EProcess (SOne (VPlane d)) (DPlane pl) (Some pl) n)).
Qed.
(** X15: with no auxiliary stream, per-plane output and a reference
    stream flagged [False], evaluating frame [n] fetches the reference
    frame, stacks it once, and calls [process] once per plane [pl] of the
    output, every call with that same stacked input. *)
Theorem stacked_reference_dispatch c ref aux c' p n :
  __init__ host c ref aux = (c', Ok p) ->
  clips p = [] -> output_per_plane p = true -> _input_per_plane p !! 0 = Some false ->
  wf_clip ref -> n < num_frames ref ->
  returns_buffer (process c) ->
  exists out fout,
    invoke host p = Ok out /\
    out n =
      (EGetFrame (ref_clip p) n :: EStack 0
         :: imap (fun pl _ => EProcess (SOne (stacked (frame_at (ref_clip p) n)))
                                      (DPlane pl) (Some pl) n)
                 (planes (frame_at (ref_clip p) n)),
       Ok fout).
Proof.
  intros Hinit Hclips Hopp Hflag Hwf Hn Hret.
  assert (Haux : clips_arg aux = []).
  { apply init_ok_inv in Hinit as (? & ? & cs & ? & _ & _ & Hcl & _ & _ & _ & _ & _ & ->).
    cbn in Hclips. subst cs. apply mapM_length in Hcl. by destruct (clips_arg aux). }
  destruct (session_setup _ _ _ _ _ n Hinit Hwf) as (Hinv & Hfetch & Hproc & ref_fmt & Hfmt & Hwf0 & _);
    [rewrite ?Haux; (done || constructor)..|].
  rewrite <- Hproc in Hret.
  assert (Hsel : select_strategy p = Ok PlanesRefStacked).
  { unfold select_strategy, index. by rewrite Hfmt, Hopp, Hclips, Hflag. }
  destruct (invoke_result p _ _ Hsel Hfmt) as (out & Hinvoke & Hout).
  pose proof (session_frame_of p n 0 _ Hinv Hfetch eq_refl) as Hof0.
  set (f0 := frame_at (ref_clip p) n) in *. destruct Hwf0 as [Hff0 Hlen0].
  destruct (planes_loop p n (fun pl => SOne (stacked f0)) f0
              (fun fout pl =>
                 _ <~ lift (getitem fout pl) ;;
                 call_process p fout (SOne (stacked f0)) (DPlane pl) (Some pl) n) Hret)
    as (fout & Hloop & _).
  { intros fout pl Hpl [_ Hlen].
    destruct (lookup_lt_is_Some_2 (planes fout) pl) as [d' Hd']; [lia|].
    unfold getitem, index. rewrite Hd'. cbn [ebind lift fst snd app].
    by destruct (call_process p fout _ _ _ _). }
  exists out, (reconciled host p ref_fmt fout). split; [done|].
  rewrite Hout. cbn [output]. unfold output_planes_ref_stacked.
  rewrite get_frame_ok by (unfold fetchable in Hfetch; by inversion Hfetch).
  fold f0. cbn [ebind fst snd copy]. rewrite (stack_frame_ok _ _ _ Hof0).
  cbn [ebind fst snd]. unfold copy. rewrite Hff0, <- Hlen0, Hloop.
  cbn [fst snd app reconcile_result]. do 3 f_equal.
  apply (map_seq_imap (fun pl (_ : list sample) =>
                         EProcess (SOne (stacked f0)) (DPlane pl) (Some pl) n) []).
Qed.

Lemma inputs_data_inputs_of p n pre pl ref_fmt :
  session_inv p -> fetchable p n -> planes_available p ->
  format (ref_clip p) = Some ref_fmt ->
  num_planes (out_format p) = num_planes ref_fmt ->
  pl < num_planes ref_fmt ->
  (forall j frame, map (fun clip => frame_at clip n) (streams p) !! j = Some frame ->
     _input_per_plane p !! j = Some false -> pre !! j = Some (stacked frame)) ->
  inputs_data p pre pl 0 (map (fun clip => frame_at clip n) (streams p))
  = Ok (inputs_of p n pl).
Proof.
  intros Hinv Hfetch Havail Hfmt Hout Hpl Hpre.
  set (frames := map (fun clip => frame_at clip n) (streams p)) in *.
  assert (Hflags : forall j, j < length (streams p) ->
            is_Some (_input_per_plane p !! j)).
  { intros j Hj. apply lookup_lt_is_Some_2. destruct Hinv as (_ & _ & Hlen). lia. }
  assert (Hplane : forall j clip, streams p !! j = Some clip ->
            _input_per_plane p !! j = Some true ->
            is_Some (planes (frame_at clip n) !! pl)).
  { intros j clip Hclip Hflag. apply lookup_lt_is_Some_2.
    destruct (session_stream_frame p n j _ Hinv Hfetch Hclip) as (fmt & Hf & _ & Hl).
    destruct j as [|i].
    - injection Hclip as <-. rewrite Hfmt in Hf. injection Hf as <-. lia.
    - simpl in Hclip. specialize (Havail i clip fmt Hclip Hflag Hf). lia. }
  destruct (inputs_data_ok p pre pl 0 frames) as (vs & Hvs & Hlen & Hlook).
  { intros j frame Hj. pose proof Hj as Hj'.
    apply frames_lookup in Hj' as (clip & Hclip & ->).
    destruct (Hflags j) as [flag Hflag]; [by eapply lookup_lt_Some|].
    destruct flag.
    - destruct (Hplane j clip Hclip Hflag) as [d Hd].
      exists true, (VPlane d). split; [done|]. split; [|done].
      unfold select_input. by rewrite Hd.
    - exists false, (stacked (frame_at clip n)). split; [done|]. split; [done|].
      intros _. by apply Hpre. }
  rewrite Hvs. f_equal. apply list_eq. intros j. unfold inputs_of.
  rewrite list_lookup_imap.
  destruct (streams p !! j) as [clip|] eqn:Hclip.
  - assert (Hj : frames !! j = Some (frame_at clip n)).
    { unfold frames. by rewrite list_lookup_fmap, Hclip. }
    destruct (Hflags j) as [flag Hflag]; [by eapply lookup_lt_Some|].
    rewrite (Hlook j _ flag Hj Hflag). unfold select_input, input_of. rewrite Hflag.
    destruct flag; [|done]. destruct (Hplane j clip Hclip Hflag) as [d Hd].
    cbn. by rewrite Hd.
  - apply lookup_ge_None. apply lookup_ge_None in Hclip.
    unfold frames in Hlen. rewrite length_map in Hlen. lia.
Qed.

(** X16: with auxiliary streams and per-plane output, whatever the
    number of streams and their flags, evaluating frame [n] makes one
    [get_frames] over all streams, stacks each stream flagged [False]
    exactly once, in stream order, and then calls [process] once per plane
    [pl] of the output, in ascending order, with the inputs of all streams
    in stream order: plane [pl] of a per-plane stream, the stacked frame
    of the others. *)
Theorem planes_with_auxiliaries_dispatch c ref aux c' p n :
  __init__ host c ref aux = (c', Ok p) ->
  clips p <> [] -> output_per_plane p = true ->
  wf_clip ref -> Forall wf_clip (clips_arg aux) ->
  n < num_frames ref -> Forall (fun a => n < num_frames a) (clips_arg aux) ->
  planes_available p ->
  returns_buffer (process c) ->
  exists out fout,
    invoke host p = Ok out /\
    out n =
      (EGetFrames (streams p) n
         :: map EStack (stacked_indices p)
         ++ imap (fun pl _ => EProcess (SList (inputs_of p n pl)) (DPlane pl) (Some pl) n)
                 (planes (frame_at (ref_clip p) n)),
       Ok fout).
Proof.
  intros Hinit Hclips Hopp Hwf Hwfs Hn Hns Havail Hret.
  destruct (session_setup _ _ _ _ _ n Hinit Hwf Hwfs Hn Hns)
    as (Hinv & Hfetch & Hproc & ref_fmt & Hfmt & Hwf0 & Hout_fmt).
  rewrite <- Hproc in Hret.
  assert (Hsel : select_strategy p = Ok PlanesClips).
  { unfold select_strategy. rewrite Hfmt, Hopp. cbn [bind assert_some].
    by destruct (clips p). }
  destruct (invoke_result p _ _ Hsel Hfmt) as (out & Hinvoke & Hout).
  set (f0 := frame_at (ref_clip p) n) in *. destruct Hwf0 as [Hff0 Hlen0].
  set (frames := map (fun clip => frame_at clip n) (streams p)).
  destruct (pre_stack_ok p 0 frames ∅) as (pre & Hpre & Hlook & _).
  { intros j frame Hj. apply frames_lookup in Hj as (clip & Hclip & ->).
    split; [by apply session_frame_of|].
    apply lookup_lt_is_Some_2. apply lookup_lt_Some in Hclip.
    destruct Hinv as (_ & _ & Hlen). simpl. lia. }
  assert (Hrun : exists fout,
    output p PlanesClips n =
      (EGetFrames (streams p) n
         :: map EStack (stacked_indices p)
         ++ map (fun pl => EProcess (SList (inputs_of p n pl)) (DPlane pl) (Some pl) n)
                (seq 0 (length (planes f0))),
       Ok fout)).
  { cbn [output]. unfold output_planes_clips.
    fold (streams p). rewrite (get_frames_ok _ _ Hfetch). cbn [ebind fst snd].
    fold frames. assert (Hfr0 : index frames 0 = Ok f0) by done.
    rewrite Hfr0. cbn [ebind lift fst snd copy]. rewrite Hpre.
    cbn [ebind fst snd]. unfold copy. rewrite Hff0, <- Hlen0.
    match goal with
    | |- context [for_each _ _ ?body] =>
      destruct (planes_loop p n (fun pl => SList (inputs_of p n pl)) f0 body Hret)
        as (fout & Hloop & _); [|rewrite Hloop]
    end.
    - intros fout pl Hpl [_ Hlen]. unfold frames.
      rewrite (inputs_data_inputs_of p n pre pl ref_fmt); try done; [|lia].
      destruct (lookup_lt_is_Some_2 (planes fout) pl) as [d' Hd']; [lia|].
      unfold getitem, index. rewrite Hd'. cbn [fst snd app].
      by destruct (call_process p fout _ _ _ _).
    - exists fout. cbn [fst snd app]. unfold stacked_indices, frames.
      by rewrite length_map. }
  destruct Hrun as (fout & Hrun).
  exists out, (reconciled host p ref_fmt fout). split; [done|].
  rewrite Hout, Hrun. cbn [fst snd reconcile_result]. do 3 f_equal.
  apply (map_seq_imap (fun pl (_ : list sample) =>
                         EProcess (SList (inputs_of p n pl)) (DPlane pl) (Some pl) n) []).
Qed.
(** X17: with merged output, the frame a frame evaluation returns is
    the buffer the single [process] call leaves, after reconciliation; the
    buffer handed to it is a copy of the reference frame, and an exception
    of [process] is the outcome of the evaluation, unchanged. *)
Theorem merged_output_result c ref aux c' p n :
  __init__ host c ref aux = (c', Ok p) -> output_per_plane p = false ->
  wf_clip ref -> Forall wf_clip (clips_arg aux) ->
  n < num_frames ref -> Forall (fun a => n < num_frames a) (clips_arg aux) ->
  exists out ref_fmt,
    invoke host p = Ok out /\
    format (ref_clip p) = Some ref_fmt /\
    snd (out n) =
      reconcile_result (reconciled host p ref_fmt)
        (process c (frame_at (ref_clip p) n)
           match clips p with
           | [] => SOne (VFrame (frame_at (ref_clip p) n))
           | _ :: _ => SList (map (fun clip => stacked (frame_at clip n)) (streams p))
           end
           DFrame None n).
Proof.
  intros Hinit Hopp Hwf Hwfs Hn Hns.
  destruct (session_setup _ _ _ _ _ n Hinit Hwf Hwfs Hn Hns)
    as (Hinv & Hfetch & Hproc & ref_fmt & Hfmt & _ & _).
  pose proof (init_merged_multi_plane host _ _ _ _ _ _ Hinit Hopp Hfmt) as Hmulti.
  rewrite <- Hproc.
  destruct (clips p) as [|b bs] eqn:Hclips.
  - assert (Hsel : select_strategy p = Ok FrameRef).
    { unfold select_strategy. rewrite Hfmt, Hopp, Hclips. cbn. by rewrite Hmulti. }
    destruct (invoke_result p _ _ Hsel Hfmt) as (out & Hinvoke & Hout).
    exists out, ref_fmt. split; [done|]. split; [done|].
    rewrite Hout. cbn [snd output]. unfold output_frame_ref.
    rewrite get_frame_ok by (unfold fetchable in Hfetch; by inversion Hfetch).
    done.
  - assert (Hsel : select_strategy p = Ok FrameClips).
    { unfold select_strategy. by rewrite Hfmt, Hopp, Hclips. }
    destruct (invoke_result p _ _ Hsel Hfmt) as (out & Hinvoke & Hout).
    exists out, ref_fmt. split; [done|]. split; [done|].
    rewrite Hout. cbn [snd output]. unfold output_frame_clips.
    fold (streams p). rewrite (get_frames_ok (streams p) n Hfetch).
    cbn [ebind fst snd lift].
    assert (Hidx : index (map (fun clip => frame_at clip n) (streams p)) 0
                   = Ok (frame_at (ref_clip p) n)) by done.
    rewrite Hidx. cbn [ebind fst snd lift]. rewrite src_arrays_ok.
    2: { intros j frame Hj. apply frames_lookup in Hj as (clip & Hclip & ->).
         by apply session_frame_of. }
    cbn [ebind fst snd call_process copy]. by rewrite map_map.
Qed.

(** X18: in a constructed session [_stack_frame] never raises on a frame
    of one of its streams: it returns the sole plane of a frame of a
    one-plane stream and the three planes, in stored order, of any other. *)
Theorem stack_frame_of_session c ref aux c' p n idx clip :
  __init__ host c ref aux = (c', Ok p) ->
  wf_clip ref -> Forall wf_clip (clips_arg aux) ->
  n < num_frames ref -> Forall (fun a => n < num_frames a) (clips_arg aux) ->
  streams p !! idx = Some clip ->
  exists single,
    is_single_plane p !! idx = Some single /\
    if (single : bool) then
      exists y, planes (frame_at clip n) = [y] /\
                _stack_frame p (frame_at clip n) idx = ([EStack idx], Ok (VPlane y))
    else
      exists y u v, planes (frame_at clip n) = [y; u; v] /\
                    _stack_frame p (frame_at clip n) idx
                    = ([EStack idx], Ok (VStack [y; u; v])).
Proof.
  intros Hinit Hwf Hwfs Hn Hns Hidx.
  destruct (session_setup _ _ _ _ _ n Hinit Hwf Hwfs Hn Hns) as (Hinv & Hfetch & _).
  pose proof (session_frame_of p n idx clip Hinv Hfetch Hidx) as Hof.
  pose proof (stack_frame_ok p _ idx Hof) as Hstack.
  destruct Hof as (fmt & Hwff & Hsingle). exists (num_planes fmt =? 1).
  split; [done|]. rewrite Hstack. unfold stacked.
  destruct (wf_frame_planes _ _ Hwff) as [(-> & y & ->)|(-> & y & u & v & ->)];
    cbn [Nat.eqb]; eauto 10.
Qed.

Lemma fetch_all_raise (l : list (VideoNode sample)) n :
  Exists (fun clip => num_frames clip <= n) l ->
  mapM (fun clip => fetch clip n) l = Raise FetchError.
Proof.
  induction 1 as [clip l Hlen|clip l _ IH]; simpl.
  - unfold fetch at 1. by destruct (Nat.ltb_spec n (num_frames clip)); [lia|].
  - unfold fetch at 1. destruct (n <? num_frames clip); cbn [bind]; [|done].
    by rewrite IH.
Qed.

(** X19: when a stream of the session cannot deliver frame [n], the
    evaluation of frame [n] ends with the fetch failure, whatever the
    strategy, having done nothing but the fetch: no frame is stacked and
    [process] is not called. *)
Theorem fetch_failure_stops_evaluation p s ref_fmt n :
  select_strategy p = Ok s -> format (ref_clip p) = Some ref_fmt ->
  Exists (fun clip => num_frames clip <= n) (streams p) ->
  exists out,
    invoke host p = Ok out /\
    out n = ([match clips p with
              | [] => EGetFrame (ref_clip p) n
              | _ :: _ => EGetFrames (streams p) n
              end], Raise FetchError).
Proof.
  intros Hsel Hfmt Hfail.
  destruct (invoke_result p _ _ Hsel Hfmt) as (out & Hinvoke & Hout).
  exists out. split; [done|]. rewrite Hout.
  assert (Hone : clips p = [] -> get_frame (ref_clip p) n
                                 = ([EGetFrame (ref_clip p) n], Raise FetchError)).
  { intros Hclips. unfold streams in Hfail. rewrite Hclips in Hfail.
    apply Exists_cons in Hfail as [Hlen|Hnil]; [|by apply Exists_nil in Hnil].
    unfold get_frame, fetch. by destruct (Nat.ltb_spec n (num_frames (ref_clip p))); [lia|]. }
  assert (Hall : get_frames (streams p) n = ([EGetFrames (streams p) n], Raise FetchError)).
  { unfold get_frames. by rewrite fetch_all_raise. }
  unfold select_strategy in Hsel. rewrite Hfmt in Hsel. cbn [bind assert_some] in Hsel.
  destruct (output_per_plane p); destruct (clips p) as [|b bs] eqn:Hclips.
  - destruct (index (_input_per_plane p) 0) as [[]|]; [| |done]; injection Hsel as <-;
      cbn [output]; [unfold output_planes_ref|unfold output_planes_ref_stacked];
      by rewrite (Hone eq_refl).
  - injection Hsel as <-. cbn [output]. unfold output_planes_clips.
    fold (streams p). by rewrite Hall.
  - destruct (num_planes ref_fmt =? 1); injection Hsel as <-; cbn [output];
      [unfold output_frame_gray|unfold output_frame_ref]; by rewrite (Hone eq_refl).
  - injection Hsel as <-. cbn [output]. unfold output_frame_clips.
    fold (streams p). by rewrite Hall.
Qed.

Lemma constructed_strategy c ref aux c' p :
  __init__ host c ref aux = (c', Ok p) ->
  exists ref_fmt flag0,
    format (ref_clip p) = Some ref_fmt /\
    num_planes ref_fmt = num_planes (out_format p) /\
    _input_per_plane p !! 0 = Some flag0 /\
    select_strategy p =
      Ok (match output_per_plane p, clips p with
          | true, _ :: _ => PlanesClips
          | true, [] => if (flag0 : bool) then PlanesRef else PlanesRefStacked
          | false, _ :: _ => FrameClips
          | false, [] => FrameRef
          end).
Proof.
  intros H. pose proof H as Hinit. apply init_ok_inv in H
    as (fmt & ref' & clips' & ipp & Hfmt & Href & _ & Hipp & _ & _ & Hin & _ & Hp).
  apply normalize_ok in Hipp as (y & Hy & Hipp); [|lia].
  destruct ipp as [|flag0 ipp].
  { destruct (declared_list (input_per_plane c)); [done|discriminate]. }
  destruct (check_input_ok _ _ _ Hin 0 ref' flag0 eq_refl eq_refl) as (ref_fmt & Hf' & _).
  assert (Hr : ref_clip p = ref') by (by rewrite Hp).
  assert (Hflag : _input_per_plane p !! 0 = Some flag0) by (by rewrite Hp).
  rewrite <- Hr in Hf'.
  exists ref_fmt, flag0. split; [done|].
  split; [symmetry; by eapply init_out_format|]. split; [done|].
  unfold select_strategy, index. rewrite Hf', Hflag. cbn [bind assert_some].
  destruct (output_per_plane p) eqn:Hopp; destruct (clips p); try done.
  by rewrite (init_merged_multi_plane host _ _ _ _ _ _ Hinit Hopp Hf').
Qed.


Lemma norm_node_keeps_format o clip clip' :
  float_processing o = FP_False ->
  norm_node host o clip = Ok clip' -> format clip' = format clip.
Proof.
  intros Hfp. unfold norm_node. rewrite Hfp. cbn [truthy].
  destruct (num_frames clip =? 0); [by intros [= <-]|].
  destruct (format clip) as [fmt|] eqn:Hfmt; [|done]. cbn [bind assert_some].
  destruct (shift_chroma o); [|by intros [= <-]].
  destruct (_ && _); [done|].
  destruct (num_planes fmt =? 3); [|by intros [= <-]].
  destruct (std_Expr_shift host clip) as (clip2 & -> & Hf2 & _).
  intros [= <-]. congruence.
Qed.

(** X21: without [float_processing] there is no output conversion: the
    normalized reference stream keeps the format of the stream passed,
    and [invoke] returns the selected closure itself. *)
Theorem no_conversion_without_float c ref aux c' p :
  __init__ host c ref aux = (c', Ok p) ->
  float_processing (options c) = FP_False ->
  exists s,
    select_strategy p = Ok s /\
    format (ref_clip p) = Some (out_format p) /\
    invoke host p = Ok (output p s).
Proof.
  intros H Hfp.
  destruct (constructed_strategy _ _ _ _ _ H) as (ref_fmt & flag0 & Hf & _ & _ & Hsel).
  apply init_ok_inv in H
    as (fmt & ref' & clips' & ipp & Hfmt & Href & _ & _ & _ & _ & _ & _ & Hp).
  assert (Hsame : format (ref_clip p) = Some (out_format p)).
  { rewrite Hp. cbn [ref_clip out_format].
    by rewrite (norm_node_keeps_format _ _ _ Hfp Href). }
  eexists. split; [exact Hsel|]. split; [done|].
  unfold invoke, invoke_body, ensure_output. rewrite Hsel, Hsame.
  cbn [bind assert_some]. by rewrite Z.eqb_refl.
Qed.
End DispatchExtras.

(** ** Concrete runs of the further properties *)

Lemma norm_clip_default_identity_witness :
  norm_clip qhost no_options (Some yuv_clip) = Ok (Some yuv_clip) /\
  norm_clip qhost float32_shift (Some variable_clip) = Raise AssertionError.
Proof.
  split.
  - apply (proj1 (norm_clip_default_identity qhost no_options yuv_clip));
      [reflexivity | reflexivity | right; by eexists].
  - apply (proj2 (norm_clip_default_identity qhost float32_shift variable_clip));
      [cbn; lia | reflexivity].
Defined.

Lemma norm_clip_float_format_witness :
  (exists clip' fmt',
     norm_clip qhost {| float_processing := FP_True; shift_chroma := false |}
       (Some yuv_clip) = Ok (Some clip') /\
     format clip' = Some fmt' /\
     sample_type fmt' = FLOAT /\
     bits_per_sample fmt' = 32%Z /\
     color_family fmt' = YUV /\
     subsampling_w fmt' = 0%Z /\
     subsampling_h fmt' = 0%Z /\
     num_frames clip' = 10) /\
  (exists clip' fmt',
     norm_clip qhost {| float_processing := FP_32; shift_chroma := false |}
       (Some yuv_clip) = Ok (Some clip') /\
     format clip' = Some fmt' /\
     sample_type fmt' = FLOAT /\
     bits_per_sample fmt' = 32%Z /\
     color_family fmt' = YUV /\
     subsampling_w fmt' = 0%Z /\
     subsampling_h fmt' = 0%Z /\
     num_frames clip' = 10) /\
  (exists clip' fmt',
     norm_clip qhost {| float_processing := FP_16; shift_chroma := true |}
       (Some yuvs_clip) = Ok (Some clip') /\
     format clip' = Some fmt' /\
     sample_type fmt' = FLOAT /\
     bits_per_sample fmt' = 16%Z /\
     color_family fmt' = YUV /\
     subsampling_w fmt' = 0%Z /\
     subsampling_h fmt' = 0%Z /\
     num_frames clip' = 10).
Proof.
  split; [|split].
  - apply (norm_clip_float_format qhost
             {| float_processing := FP_True; shift_chroma := false |}
             yuv_clip YUV444P8 32);
      [left; split; reflexivity | cbn; lia | reflexivity].
  - apply (norm_clip_float_format qhost
             {| float_processing := FP_32; shift_chroma := false |}
             yuv_clip YUV444P8 32);
      [right; left; split; reflexivity | cbn; lia | reflexivity].
  - apply (norm_clip_float_format qhost
             {| float_processing := FP_16; shift_chroma := true |}
             yuvs_clip YUV444PS 16);
      [right; right; split; reflexivity | cbn; lia | reflexivity].
Defined.

Lemma norm_clip_idempotent_witness :
  norm_clip qhost float32_only (Some (normalized float32_only yuv_clip))
  = Ok (Some (normalized float32_only yuv_clip)).
Proof.
  apply (norm_clip_idempotent qhost float32_only yuv_clip); reflexivity.
Defined.

Lemma norm_clip_shifts_again_witness :
  exists clip2,
    norm_clip qhost shift_only (Some (normalized shift_only yuvs_clip)) = Ok (Some clip2) /\
    forall n, planes (frame_at clip2 n)
              = imap (shift_plane qhost)
                     (planes (frame_at (normalized shift_only yuvs_clip) n)).
Proof.
  apply (norm_clip_shifts_again qhost shift_only yuvs_clip YUV444PS);
    [reflexivity | cbn; lia | reflexivity | reflexivity | reflexivity].
Defined.

Lemma constructed_streams_checked_witness :
  exists fmt, format gray_clip = Some fmt /\
    (_input_per_plane (constructed class_B yuv_clip (Some [yuv_clip; gray_clip])) !! 2
       = Some false -> subsampled fmt = false).
Proof.
  apply (constructed_streams_checked qhost class_B yuv_clip (Some [yuv_clip; gray_clip])
           (class_left class_B yuv_clip (Some [yuv_clip; gray_clip]))
           (constructed class_B yuv_clip (Some [yuv_clip; gray_clip]))
           eq_refl 2 gray_clip).
  reflexivity.
Defined.

Lemma output_per_plane_of_session_witness :
  let p := constructed merged_class yuv_clip None in
  exists ref_fmt,
    format yuv_clip = Some ref_fmt /\ out_format p = ref_fmt /\
    output_per_plane p = cls_output_per_plane merged_class || (num_planes ref_fmt =? 1) /\
    (output_per_plane p = false -> subsampled ref_fmt = false).
Proof.
  apply (output_per_plane_of_session qhost merged_class yuv_clip None
           (class_left merged_class yuv_clip None)).
  reflexivity.
Defined.

Lemma input_subsampling_error_names_stream_witness :
  exists j clip fmt ipp,
    ClipIndex 0 = match j with O => RefClip | S i => ClipIndex i end /\
    (yuv_clip :: clips_arg (Some [yuv420_clip])) !! j = Some clip /\
    format clip = Some fmt /\ subsampled fmt = true /\
    normalize_input_per_plane (input_per_plane last_stacked_class)
      (1 + length (clips_arg (Some [yuv420_clip]))) = Ok ipp /\
    ipp !! j = Some false.
Proof.
  apply (input_subsampling_error_names_stream qhost last_stacked_class yuv_clip
           (Some [yuv420_clip]) (ClipIndex 0)).
  reflexivity.
Defined.

Lemma is_single_plane_of_session_witness :
  let p := constructed class_B yuv_clip (Some [yuv_clip; gray_clip]) in
  is_single_plane p = map single_plane (yuv_clip :: clips_arg (Some [yuv_clip; gray_clip])) /\
  length (is_single_plane p) = 1 + length (clips_arg (Some [yuv_clip; gray_clip])).
Proof.
  apply (is_single_plane_of_session qhost class_B yuv_clip (Some [yuv_clip; gray_clip])
           (class_left class_B yuv_clip (Some [yuv_clip; gray_clip]))).
  reflexivity.
Defined.

Lemma class_after_construction_witness :
  input_per_plane (class_left two_flags_class yuv_clip (Some [yuv_clip; gray_clip]))
  = IppList [true; true; true] /\
  exists l', input_per_plane (class_left two_flags_class yuv_clip (Some [yuv_clip; gray_clip]))
             = IppList l' /\ [true; true] `prefix_of` l'.
Proof.
  destruct (class_after_construction qhost two_flags_class yuv_clip
              (Some [yuv_clip; gray_clip])) as (_ & _ & _ & _ & _ & _ & Hgrow & Hsame).
  split.
  - unfold class_left.
    rewrite (Hsame [true; true]
               (constructed two_flags_class yuv_clip (Some [yuv_clip; gray_clip]))
               eq_refl eq_refl).
    reflexivity.
  - apply Hgrow. reflexivity.
Defined.

Lemma later_session_reuses_flags_witness :
  let c1 := class_left two_flags_class yuv_clip (Some [yuv_clip; gray_clip]) in
  let p1 := constructed two_flags_class yuv_clip (Some [yuv_clip; gray_clip]) in
  let p2 := constructed c1 gray_clip None in
  _input_per_plane p2 = _input_per_plane p1 /\ class_left c1 gray_clip None = c1 /\
  1 + length (clips_arg (Some [yuv_clip; gray_clip])) <= length (_input_per_plane p2).
Proof.
  apply (later_session_reuses_flags qhost two_flags_class yuv_clip
           (Some [yuv_clip; gray_clip]) _ _ [true; true] gray_clip None);
    [reflexivity | reflexivity | reflexivity | cbn; lia].
Defined.

Lemma construction_errors_witness :
  IndexError = AssertionError \/
  (IndexError = IndexError /\ input_per_plane no_flags_class = IppList []) \/
  IndexError = ValueError NeedFloatSampleType \/
  (exists hi, IndexError = ValueError (ClipCount (min_clips no_flags_class) hi)) \/
  IndexError = ValueError OutputSubsampled \/
  (exists t, IndexError = ValueError (InputSubsampled t)).
Proof.
  apply (construction_errors qhost no_flags_class yuv_clip None IndexError).
  reflexivity.
Defined.

Lemma empty_flags_raise_witness :
  __init__ qhost no_flags_class yuv_clip (Some [gray_clip])
  = (no_flags_class, Raise IndexError).
Proof.
  apply (empty_flags_raise qhost no_flags_class yuv_clip (Some [gray_clip])
           YUV444P8 yuv_clip [gray_clip]); reflexivity.
Defined.

Lemma check_precedence_witness :
  snd (__init__ qhost (with_clip_bounds merged_stacked_class 2 (-1)) yuv420_clip None)
    = Raise (ValueError (ClipCount 2 None)) /\
  snd (__init__ qhost merged_stacked_class yuv420_clip None)
    = Raise (ValueError OutputSubsampled).
Proof.
  split.
  - apply (proj1 (check_precedence qhost (with_clip_bounds merged_stacked_class 2 (-1))
                    yuv420_clip None YUV420P8 yuv420_clip [] [false]
                    eq_refl eq_refl eq_refl eq_refl)).
    cbn. lia.
  - apply (proj2 (check_precedence qhost merged_stacked_class
                    yuv420_clip None YUV420P8 yuv420_clip [] [false]
                    eq_refl eq_refl eq_refl eq_refl));
      [cbn; lia | reflexivity | cbn; lia | reflexivity].
Defined.

Lemma planes_of_reference_dispatch_witness :
  let p := constructed plain_class yuv420_clip None in
  exists out fout,
    invoke qhost p = Ok out /\
    out 0 =
      (EGetFrame (ref_clip p) 0
         :: imap (fun pl d => EProcess (SOne (VPlane d)) (DPlane pl) (Some pl) 0)
                 (planes (frame_at (ref_clip p) 0)),
       Ok fout).
Proof.
  apply (planes_of_reference_dispatch qhost plain_class yuv420_clip None
           (class_left plain_class yuv420_clip None));
    [reflexivity | reflexivity | reflexivity | reflexivity
    | still_wf YUV420P8 | cbn; lia | exact pass_process_returns].
Defined.

Lemma stacked_reference_dispatch_witness :
  let p := constructed stacked_ref_class yuv_clip None in
  exists out fout,
    invoke qhost p = Ok out /\
    out 0 =
      (EGetFrame (ref_clip p) 0 :: EStack 0
         :: imap (fun pl _ => EProcess (SOne (stacked (frame_at (ref_clip p) 0)))
                                      (DPlane pl) (Some pl) 0)
                 (planes (frame_at (ref_clip p) 0)),
       Ok fout).
Proof.
  apply (stacked_reference_dispatch qhost stacked_ref_class yuv_clip None
           (class_left stacked_ref_class yuv_clip None));
    [reflexivity | reflexivity | reflexivity | reflexivity
    | still_wf YUV444P8 | cbn; lia | exact pass_process_returns].
Defined.

Lemma planes_with_auxiliaries_dispatch_witness :
  let p := constructed class_B yuv_clip (Some [yuv_clip; gray_clip]) in
  exists out fout,
    invoke qhost p = Ok out /\
    out 5 =
      (EGetFrames (streams p) 5
         :: map EStack (stacked_indices p)
         ++ imap (fun pl _ => EProcess (SList (inputs_of p 5 pl)) (DPlane pl) (Some pl) 5)
                 (planes (frame_at (ref_clip p) 5)),
       Ok fout).
Proof.
  apply (planes_with_auxiliaries_dispatch qhost class_B yuv_clip
           (Some [yuv_clip; gray_clip])
           (class_left class_B yuv_clip (Some [yuv_clip; gray_clip]))).
  - reflexivity.
  - discriminate.
  - reflexivity.
  - still_wf YUV444P8.
  - repeat constructor; [still_wf YUV444P8 | still_wf GRAY8].
  - cbn; lia.
  - repeat constructor; cbn; lia.
  - intros [|[|i]] clip fmt Hclip Hflag Hfmt; vm_compute in Hclip, Hflag; discriminate.
  - exact pass_process_returns.
Defined.

Lemma merged_output_result_witness :
  let p := constructed merged_class yuv_clip (Some [gray_clip]) in
  exists out ref_fmt,
    invoke qhost p = Ok out /\
    format (ref_clip p) = Some ref_fmt /\
    snd (out 0) =
      reconcile_result (reconciled qhost p ref_fmt)
        (process merged_class (frame_at (ref_clip p) 0)
           match clips p with
           | [] => SOne (VFrame (frame_at (ref_clip p) 0))
           | _ :: _ => SList (map (fun clip => stacked (frame_at clip 0)) (streams p))
           end
           DFrame None 0).
Proof.
  apply (merged_output_result qhost merged_class yuv_clip (Some [gray_clip])
           (class_left merged_class yuv_clip (Some [gray_clip])));
    [reflexivity | reflexivity | still_wf YUV444P8
    | repeat constructor; still_wf GRAY8 | cbn; lia | repeat constructor; cbn; lia].
Defined.

Lemma stack_frame_of_session_witness :
  let p := constructed class_B yuv_clip (Some [yuv_clip; gray_clip]) in
  exists single,
    is_single_plane p !! 2 = Some single /\
    if (single : bool) then
      exists y, planes (frame_at gray_clip 5) = [y] /\
                _stack_frame p (frame_at gray_clip 5) 2 = ([EStack 2], Ok (VPlane y))
    else
      exists y u v, planes (frame_at gray_clip 5) = [y; u; v] /\
                    _stack_frame p (frame_at gray_clip 5) 2
                    = ([EStack 2], Ok (VStack [y; u; v])).
Proof.
  apply (stack_frame_of_session qhost class_B yuv_clip (Some [yuv_clip; gray_clip])
           (class_left class_B yuv_clip (Some [yuv_clip; gray_clip])));
    [reflexivity | still_wf YUV444P8
    | repeat constructor; [still_wf YUV444P8 | still_wf GRAY8]
    | cbn; lia | repeat constructor; cbn; lia | reflexivity].
Defined.

Lemma fetch_failure_stops_evaluation_witness :
  let p := constructed plain_class yuv_clip (Some [gray_clip]) in
  exists out,
    invoke qhost p = Ok out /\
    out 10 = ([match clips p with
               | [] => EGetFrame (ref_clip p) 10
               | _ :: _ => EGetFrames (streams p) 10
               end], Raise FetchError).
Proof.
  apply (fetch_failure_stops_evaluation qhost
           (constructed plain_class yuv_clip (Some [gray_clip])) PlanesClips YUV444P8);
    [reflexivity | reflexivity | unfold streams; left; vm_compute; lia].
Defined.


Lemma no_conversion_without_float_witness :
  let p := constructed plain_class yuv_clip (Some [gray_clip]) in
  exists s,
    select_strategy p = Ok s /\
    format (ref_clip p) = Some (out_format p) /\
    invoke qhost p = Ok (output p s).
Proof.
  apply (no_conversion_without_float qhost plain_class yuv_clip (Some [gray_clip])
           (class_left plain_class yuv_clip (Some [gray_clip])));
    reflexivity.
Defined.

Section ProcessFailure.
Context {sample : Type} (host : Host sample).
Implicit Types (c : PyPluginClass sample) (p : PyPlugin sample).
Implicit Types (ref clip : VideoNode sample) (frame : VideoFrame sample).

(** X22: an exception of [process] ends the evaluation of the frame: in
    the default strategy (no auxiliary stream, per-plane input and
    output), when the call for plane 0 raises, the outcome is that
    exception, unchanged by the output decorator, and no further plane is
    processed. *)
Theorem process_failure_stops_evaluation c ref aux c' p n e :
  __init__ host c ref aux = (c', Ok p) ->
  clips p = [] -> output_per_plane p = true -> _input_per_plane p !! 0 = Some true ->
  wf_clip ref -> n < num_frames ref ->
  (forall y, planes (frame_at (ref_clip p) n) !! 0 = Some y ->
     process c (frame_at (ref_clip p) n) (SOne (VPlane y)) (DPlane 0) (Some 0) n = Raise e) ->
  exists out y,
    invoke host p = Ok out /\
    planes (frame_at (ref_clip p) n) !! 0 = Some y /\
    out n = ([EGetFrame (ref_clip p) n;
              EProcess (SOne (VPlane y)) (DPlane 0) (Some 0) n], Raise e).
Proof.
  intros Hinit Hclips Hopp Hflag Hwf Hn Hraise.
  assert (Haux : clips_arg aux = []).
  { apply init_ok_inv in Hinit as (? & ? & cs & ? & _ & _ & Hcl & _ & _ & _ & _ & _ & ->).
    cbn in Hclips. subst cs. apply mapM_length in Hcl. by destruct (clips_arg aux). }
  destruct (session_setup host _ _ _ _ _ n Hinit Hwf)
    as (Hinv & Hfetch & Hproc & ref_fmt & Hfmt & Hwf0 & _);
    [rewrite ?Haux; (done || constructor)..|].
  assert (Hsel : select_strategy p = Ok PlanesRef).
  { unfold select_strategy, index. by rewrite Hfmt, Hopp, Hclips, Hflag. }
  destruct (invoke_result host p _ _ Hsel Hfmt) as (out & Hinvoke & Hout).
  set (f0 := frame_at (ref_clip p) n) in *.
  assert (Hy : exists y rest, planes f0 = y :: rest /\
                              num_planes (fformat f0) = S (length rest)).
  { pose proof Hwf0 as [Hff Hlen]. rewrite Hff.
    destruct (wf_frame_planes ref_fmt f0 Hwf0) as [(Hnp & y & Hp)|(Hnp & y & u & v & Hp)];
      rewrite Hnp, Hp; eauto. }
  destruct Hy as (y & rest & Hp & Hnp).
  assert (Hy0 : planes f0 !! 0 = Some y) by (by rewrite Hp).
  specialize (Hraise y Hy0). rewrite <- Hproc in Hraise.
  exists out, y. split; [done|]. split; [done|].
  rewrite Hout. cbn [output]. unfold output_planes_ref.
  rewrite get_frame_ok by (unfold fetchable in Hfetch; by inversion Hfetch).
  fold f0. cbn [ebind fst snd copy]. unfold copy. rewrite Hnp.
  cbn [seq for_each]. unfold getitem, index. rewrite Hy0.
  cbn [ebind lift fst snd app]. unfold call_process. rewrite Hraise. done.
Qed.
End ProcessFailure.

Lemma process_failure_stops_evaluation_witness :
  let c := PyPlugin_class no_options (fun _ _ _ _ _ => Raise KeyError) in
  let p := constructed c yuv_clip None in
  exists out y,
    invoke qhost p = Ok out /\
    planes (frame_at (ref_clip p) 0) !! 0 = Some y /\
    out 0 = ([EGetFrame (ref_clip p) 0;
              EProcess (SOne (VPlane y)) (DPlane 0) (Some 0) 0], Raise KeyError).
Proof.
  apply (process_failure_stops_evaluation qhost
           (PyPlugin_class no_options (fun _ _ _ _ _ => Raise KeyError)) yuv_clip None
           (class_left (PyPlugin_class no_options (fun _ _ _ _ _ => Raise KeyError))
                       yuv_clip None));
    [reflexivity | reflexivity | reflexivity | reflexivity
    | still_wf YUV444P8 | cbn; lia | reflexivity].
Defined.
